(** * imageCDN: the upload, validation and error contracts of the backend

    A shallow embedding of the Express backend of the image CDN service:
    the validation middleware ([validation.middleware.js]), the error
    middleware ([error.middleware.js]), the image service
    ([services/image.service.js]), the routes of [image.routes.js] and the
    upload middleware that [server.js] mounts before them.

    JavaScript values are an inductive type, objects are association lists
    in key order, asynchronous functions are programs of a small free monad
    whose events are the calls to the two external collaborators (the sharp
    encoder and the Cloudinary SDK) and to the console, and a rejected
    promise is the [Throw] outcome of such a program. *)

From Stdlib Require Import String Ascii List ZArith QArith Bool Lia.
From Stdlib Require Import Strings.Byte.
From Stdlib Require Import DecimalString.
Import ListNotations.

#[local] Set Warnings "-register-all".

Open Scope string_scope.
Open Scope list_scope.

(** ** JavaScript values *)

Module JS.

(** Numbers are rationals: byte counts, pixel counts and status codes are
    integers, usage percentages are fractions. NaN and the infinities do
    not occur in the JSON the service exchanges. *)
Inductive value : Type :=
| VUndefined
| VNull
| VBool (b : bool)
| VNum (q : Q)
| VStr (s : string)
| VArr (l : list value)
| VObj (o : list (string * value)).

(** A plain object, keys in insertion order. *)
Definition object := list (string * value).

Definition VInt (z : Z) : value := VNum (inject_Z z).

(** [o.k] on an object: [undefined] when the key is absent. *)
Fixpoint get (k : string) (o : object) : value :=
  match o with
  | [] => VUndefined
  | (k', v) :: o' => if String.eqb k k' then v else get k o'
  end.

Definition has_key (k : string) (o : object) : bool :=
  existsb (fun kv => String.eqb k (fst kv)) o.

(** [v?.k] and [v.k] on a value that is neither [undefined] nor [null]:
    the keys read by the service ([message], [http_code], [used], ...) are
    own properties of objects only. *)
Definition get_prop (v : value) (k : string) : value :=
  match v with
  | VObj o => get k o
  | _ => VUndefined
  end.

(** ToBoolean. *)
Definition truthy (v : value) : bool :=
  match v with
  | VUndefined | VNull => false
  | VBool b => b
  | VNum q => negb (Qeq_bool q 0)
  | VStr s => negb (String.eqb s "")
  | VArr _ | VObj _ => true
  end.

(** [a || b]. *)
Definition or_else (a b : value) : value := if truthy a then a else b.

(** [v === 'lit']. *)
Definition is_str (v : value) (lit : string) : bool :=
  match v with
  | VStr s => String.eqb s lit
  | _ => false
  end.

(** [v === n] for a number literal. *)
Definition is_num (v : value) (n : Q) : bool :=
  match v with
  | VNum q => Qeq_bool q n
  | _ => false
  end.

(** [v === false]. *)
Definition is_false (v : value) : bool :=
  match v with
  | VBool false => true
  | _ => false
  end.

(** [Array.isArray(v)]. *)
Definition isArray (v : value) : bool :=
  match v with
  | VArr _ => true
  | _ => false
  end.

(** ** Strings *)

Definition dquote : string := String (ascii_of_nat 34) EmptyString.

(** The strings of the model are sequences of code points below 256:
    ASCII and the rest of Latin-1. The capital letters among them are A to
    Z and, in Latin-1, the code points 192 to 222 without the
    multiplication sign at 215. *)
Definition is_upper (c : ascii) : bool :=
  ((65 <=? nat_of_ascii c)%nat && (nat_of_ascii c <=? 90)%nat)
  || ((192 <=? nat_of_ascii c)%nat && (nat_of_ascii c <=? 222)%nat
      && negb (nat_of_ascii c =? 215)%nat).

(** The small letter of a capital is 32 code points above it. *)
Definition lower_ascii (c : ascii) : ascii :=
  if is_upper c then ascii_of_nat (nat_of_ascii c + 32) else c.

(** [s.toLowerCase()]: on code points below 256 it changes the capital
    letters and nothing else. *)
Fixpoint toLowerCase (s : string) : string :=
  match s with
  | EmptyString => EmptyString
  | String c r => String (lower_ascii c) (toLowerCase r)
  end.

(** [s.split(c)] for a one-character separator: never the empty array. *)
Fixpoint split (c : ascii) (s : string) : list string :=
  match s with
  | EmptyString => [EmptyString]
  | String a r =>
      if Ascii.eqb a c then EmptyString :: split c r
      else match split c r with
           | [] => [String a EmptyString]
           | h :: t => String a h :: t
           end
  end.

(** [arr.pop()] read as a value: the last element. *)
Definition pop (l : list string) : string := last l EmptyString.

(** [arr.includes(s)] on an array of strings. *)
Definition includes (l : list string) (s : string) : bool :=
  existsb (String.eqb s) l.

(** [arr.join(sep)]. *)
Fixpoint join (sep : string) (l : list string) : string :=
  match l with
  | [] => ""
  | [x] => x
  | x :: r => x ++ sep ++ join sep r
  end.

Definition nat_to_string (n : nat) : string :=
  NilEmpty.string_of_uint (Nat.to_uint n).

(** ** JSON *)

(** What [JSON.stringify] keeps of a value, that is what the client reads
    in a body sent with [res.json]: a key whose value is [undefined] is left
    out of its object, and [undefined] inside an array is written [null]. *)
Fixpoint to_json (v : value) : value :=
  match v with
  | VArr l =>
      VArr (map (fun x => match x with
                          | VUndefined => VNull
                          | _ => to_json x
                          end) l)
  | VObj o =>
      VObj ((fix entries (o : list (string * value)) : list (string * value) :=
               match o with
               | [] => []
               | (k, VUndefined) :: r => entries r
               | (k, x) :: r => (k, to_json x) :: entries r
               end) o)
  | _ => v
  end.

(** [k in v] for an object. *)
Definition has_property (v : value) (k : string) : bool :=
  match v with
  | VObj o => has_key k o
  | _ => false
  end.

End JS.
Import JS.

(** ** The Joi schemas of the validation middleware

    Joi 17 is a dependency, not code of the service: the schema
    combinators the middleware uses are embedded with the semantics of
    [schema.validate(value)] under Joi's defaults ([convert], [abortEarly],
    unknown keys refused). [validate] returns the first error, which is
    what the middleware reads as [error.details[0]]. *)

Module Joi.

Inductive path_elem :=
| Key (k : string)
| Idx (i : nat).

Definition path := list path_elem.

Inductive error :=
| any_required (p : path)
| string_base (p : path)
| string_empty (p : path)
| string_max (p : path) (limit : nat)
| boolean_base (p : path)
| array_base (p : path)
| array_sparse (p : path)
| array_min (p : path) (limit : nat)
| array_max (p : path) (limit : nat)
| object_unknown (p : path)
| alternatives_any (p : path)
| alternatives_types (p : path) (types : list string)
| alternatives_match (p : path).

(** [Joi.string().max(n)], [Joi.boolean()],
    [Joi.array().items(s).min(a).max(b)], [Joi.alternatives().try(...)]. *)
Inductive schema :=
| string_ (max : option nat)
| boolean_
| array_ (items : schema) (min max : option nat)
| alternatives_ (try : list schema).

(** One key of a [Joi.object({...})]: [.required()] or [.optional()]. *)
Record key_rule := { name : string; rule : schema; required : bool }.

Definition error_path (e : error) : path :=
  match e with
  | any_required p | string_base p | string_empty p | string_max p _
  | boolean_base p | array_base p | array_sparse p | array_min p _
  | array_max p _ | object_unknown p | alternatives_any p
  | alternatives_types p _ | alternatives_match p => p
  end.

(** The type named by a [*.base] error, as [alternatives] reports it. *)
Definition base_type (e : error) : option string :=
  match e with
  | string_base _ => Some "string"
  | boolean_base _ => Some "boolean"
  | array_base _ => Some "array"
  | _ => None
  end.

(** What [alternatives] reports when every alternative failed: the single
    failure; the list of expected types when all failures are base-type
    failures at the value itself; the single deeper failure; no match. *)
Definition unmatched (p : path) (failed : list error) : error :=
  match failed with
  | [] => alternatives_any p
  | [e] => e
  | _ =>
      let simple e :=
        match base_type e with
        | Some _ => Nat.eqb (length (error_path e)) (length p)
        | None => false
        end in
      let complex := filter (fun e => negb (simple e)) failed in
      let valids :=
        flat_map (fun e => if simple e then
                             match base_type e with Some t => [t] | None => [] end
                           else []) failed in
      match complex with
      | [] => alternatives_types p valids
      | [e] => e
      | _ => alternatives_match p
      end
  end.

Definition check_min (p : path) (min : option nat) (n : nat) : option error :=
  match min with
  | Some m => if (n <? m)%nat then Some (array_min p m) else None
  | None => None
  end.

Definition check_max (p : path) (max : option nat) (n : nat) : option error :=
  match max with
  | Some m => if (m <? n)%nat then Some (array_max p m) else None
  | None => None
  end.

(** The [items] rule of an array: each element against the item schema
    [f], the first failure wins; a hole in the array is refused first. *)
Fixpoint validate_items (f : path -> value -> option error) (p : path)
  (i : nat) (l : list value) : option error :=
  match l with
  | [] => None
  | x :: r =>
      match x with
      | VUndefined => Some (array_sparse (p ++ [Idx i]))
      | _ =>
          match f (p ++ [Idx i]) x with
          | Some e => Some e
          | None => validate_items f p (S i) r
          end
      end
  end.

(** Validation of a value that is not [undefined]. The [items] rule of an
    array runs before its [min] and [max]. *)
Fixpoint validate (s : schema) (p : path) (v : value) {struct s} : option error :=
  match s with
  | string_ max =>
      match v with
      | VStr str =>
          if String.eqb str "" then Some (string_empty p)
          else match max with
               | Some m => if (m <? String.length str)%nat
                           then Some (string_max p m) else None
               | None => None
               end
      | _ => Some (string_base p)
      end
  | boolean_ =>
      match v with
      | VBool _ => None
      | VStr str =>
          let n := toLowerCase str in
          if String.eqb n "true" || String.eqb n "false" then None
          else Some (boolean_base p)
      | _ => Some (boolean_base p)
      end
  | array_ items min max =>
      match v with
      | VArr l =>
          match validate_items (validate items) p O l with
          | Some e => Some e
          | None =>
              match check_min p min (length l) with
              | Some e => Some e
              | None => check_max p max (length l)
              end
          end
      | _ => Some (array_base p)
      end
  | alternatives_ try =>
      let failures :=
        (fix failures (alts : list schema) : option (list error) :=
           match alts with
           | [] => Some []
           | a :: r =>
               match validate a p v with
               | None => None
               | Some e => option_map (cons e) (failures r)
               end
           end) in
      match failures try with
      | None => None
      | Some failed => Some (unmatched p failed)
      end
  end.

(** Presence, then the type. *)
Definition validate_key (o : object) (k : key_rule) : option error :=
  match get (name k) o with
  | VUndefined => if required k then Some (any_required [Key (name k)]) else None
  | v => validate (rule k) [Key (name k)] v
  end.

Fixpoint first_error {A} (f : A -> option error) (l : list A) : option error :=
  match l with
  | [] => None
  | x :: r => match f x with Some e => Some e | None => first_error f r end
  end.

(** [Joi.object(keys).validate(o)]: the keys of the schema in order, then
    the keys of the value the schema does not know. *)
Definition validate_object (keys : list key_rule) (o : object) : option error :=
  match first_error (validate_key o) keys with
  | Some e => Some e
  | None =>
      first_error
        (fun kv => if includes (map name keys) (fst kv) then None
                   else Some (object_unknown [Key (fst kv)])) o
  end.

Fixpoint label_from (p : path) : string :=
  match p with
  | [] => ""
  | Key k :: r => "." ++ k ++ label_from r
  | Idx i :: r => "[" ++ nat_to_string i ++ "]" ++ label_from r
  end.

Definition label (p : path) : string :=
  match p with
  | [] => "value"
  | Key k :: r => k ++ label_from r
  | Idx i :: r => "[" ++ nat_to_string i ++ "]" ++ label_from r
  end.

Definition quoted (p : path) : string := dquote ++ label p ++ dquote.

(** [error.details[0].message], from Joi's message templates. *)
Definition message (e : error) : string :=
  match e with
  | any_required p => quoted p ++ " is required"
  | string_base p => quoted p ++ " must be a string"
  | string_empty p => quoted p ++ " is not allowed to be empty"
  | string_max p n =>
      quoted p ++ " length must be less than or equal to "
        ++ nat_to_string n ++ " characters long"
  | boolean_base p => quoted p ++ " must be a boolean"
  | array_base p => quoted p ++ " must be an array"
  | array_sparse p => quoted p ++ " must not be a sparse array item"
  | array_min p n =>
      quoted p ++ " must contain at least " ++ nat_to_string n ++ " items"
  | array_max p n =>
      quoted p ++ " must contain less than or equal to "
        ++ nat_to_string n ++ " items"
  | object_unknown p => quoted p ++ " is not allowed"
  | alternatives_any p => quoted p ++ " does not match any of the allowed types"
  | alternatives_types p ts => quoted p ++ " must be one of [" ++ join ", " ts ++ "]"
  | alternatives_match p => quoted p ++ " does not match any of the allowed types"
  end.

End Joi.

(** ** Asynchronous programs *)

Definition buffer := list byte.

(** How a call or a promise ends: a value, or a thrown error object. *)
Inductive outcome (A : Type) : Type :=
| Ok (a : A)
| Throw (err : object).
Arguments Ok {A} a.
Arguments Throw {A} err.

(** The chained calls on a sharp instance. *)
Inductive sharp_op :=
| Resize (w h : Z) (fit : string) (withoutEnlargement : bool)
| Jpeg (quality : Z) (progressive : bool)
| Png (quality : Z) (compressionLevel : Z)
| Webp (quality : Z).

(** What the service reads of [await sharp(buffer).metadata()]. *)
Record metadata := {
  width : option Z;
  height : option Z;
  format : option string
}.

(** The calls that leave the service. The sharp calls and the Cloudinary
    calls end in an [outcome]: [sharp(input)] throws on an input it
    refuses (an empty buffer), [metadata()] and [toBuffer()] reject; the
    callback [(error, result)] of the upload stream is its [Throw] or its
    [Ok]. The options given to [resize], [jpeg], [png] and [webp] are the
    constants of the service, which sharp accepts. *)
Inductive event : Type -> Type :=
| Sharp (input : buffer) : event (outcome unit)
| SharpMetadata (input : buffer) : event (outcome metadata)
| SharpToBuffer (input : buffer) (ops : list sharp_op) : event (outcome buffer)
| UploadStream (options : object) (data : buffer) : event (outcome object)
| ApiResource (publicId : string) (options : object) : event (outcome object)
| Destroy (publicId : string) : event (outcome object)
| DeleteResources (publicIds : list value) : event (outcome object)
| ApiUsage : event (outcome object)
| ConsoleWarn (args : list value) : event unit
| ConsoleError (args : list value) : event unit.

Inductive prog (A : Type) : Type :=
| Ret (a : A)
| Vis {X : Type} (e : event X) (k : X -> prog A).
Arguments Ret {A} a.
Arguments Vis {A X} e k.

Fixpoint bind {A B} (p : prog A) (f : A -> prog B) : prog B :=
  match p with
  | Ret a => f a
  | Vis e k => Vis e (fun x => bind (k x) f)
  end.

Definition perform {X} (e : event X) : prog X := Vis e Ret.

(** Sequencing inside an [async] function: a [Throw] skips the rest. *)
Definition and_then {A B} (p : prog (outcome A)) (f : A -> prog (outcome B))
  : prog (outcome B) :=
  bind p (fun r => match r with Ok a => f a | Throw e => Ret (Throw e) end).

(** [try { p } catch (error) { h error }]. *)
Definition try_catch {A} (p : prog (outcome A)) (h : object -> prog (outcome A))
  : prog (outcome A) :=
  bind p (fun r => match r with Ok a => Ret (Ok a) | Throw e => h e end).

Declare Scope prog_scope.
Delimit Scope prog_scope with prog.
Notation "x <- p ;; q" := (bind p (fun x => q))
  (at level 61, p at next level, right associativity) : prog_scope.
Notation "'await' x <- p ;; q" := (and_then p (fun x => q))
  (at level 61, x name, p at next level, right associativity) : prog_scope.
Open Scope prog_scope.

(** A call observed from outside. *)
Inductive call : Type :=
| Call {X : Type} (e : event X).

(** The world outside the service: it answers every event from a state. *)
Definition world (S : Type) := forall X, event X -> S -> X * S.

(** Running a program against a world: the result, the world's final
    state and the calls made, in order. *)
Fixpoint run {S A} (w : world S) (p : prog A) (s : S) : A * S * list call :=
  match p with
  | Ret a => (a, s, [])
  | Vis e k =>
      let '(x, s1) := w _ e s in
      let '(a, s2, t) := run w (k x) s1 in
      (a, s2, Call e :: t)
  end.

(** The calls to the storage gateway (the Cloudinary SDK). *)
Definition is_gateway_call (c : call) : bool :=
  match c with
  | Call (UploadStream _ _) | Call (ApiResource _ _) | Call (Destroy _)
  | Call (DeleteResources _) | Call ApiUsage => true
  | Call _ => false
  end.

Definition gateway_calls (t : list call) : list call := filter is_gateway_call t.

(** The calls to the sharp encoder. *)
Definition is_sharp_call (c : call) : bool :=
  match c with
  | Call (Sharp _) | Call (SharpMetadata _) | Call (SharpToBuffer _ _) => true
  | Call _ => false
  end.

(** ** The platform and the configuration *)

(** What the JavaScript runtime and the SDK provide as pure functions. *)
Record platform := {
  (** [String(n)] for a number *)
  number_to_string : Q -> string;
  (** [decodeURIComponent(s)]; [None] when it throws [URIError] *)
  decodeURIComponent : string -> option string;
  (** the [stack] of an error created with this name and message *)
  capture_stack : string -> string -> string;
  (** [cloudinary.url(publicId, options)] *)
  cloudinary_url : value -> object -> value;
  (** [process.env.NODE_ENV] *)
  NODE_ENV : value
}.

(** [app.config.js]. *)
Record app_config := {
  maxFileSize : Z;
  allowedFormats : list string
}.

(** The defaults of [app.config.js], when the environment sets neither
    [MAX_FILE_SIZE] nor [ALLOWED_FORMATS]. *)
Definition default_config : app_config := {|
  maxFileSize := 10 * 1024 * 1024;
  allowedFormats := ["jpg"; "jpeg"; "png"; "gif"; "webp"; "svg"]
|}.

(** A file of express-fileupload. *)
Record file := {
  name : string;
  size : Z;
  mimetype : string;
  data : buffer
}.

(** [files] holds the file parts of a multipart body, in order, each with
    the name of its form field; it is [None] when the request carries no
    file part ([req.files] is then not set). *)
Record request := {
  params : object;
  query : object;
  body : object;
  files : option (list (string * file))
}.

(** What express-fileupload leaves in [req.files.k]: nothing when no part
    carries the name, the file when one does, and an array of the files
    when several do. *)
Inductive uploaded : Type :=
| Absent
| Single (f : file)
| Several (l : list file).

Definition files_under (k : string) (fs : list (string * file)) : uploaded :=
  match map snd (filter (fun kf => String.eqb k (fst kf)) fs) with
  | [] => Absent
  | [f] => Single f
  | l => Several l
  end.

(** [res.status(status).json(json)]. *)
Record response := {
  status : value;
  json : value
}.

(** [res.json(v)]: status 200. *)
Definition res_json (v : value) : response := {| status := VInt 200; json := v |}.

Section Service.

Variable P : platform.
Variable config : app_config.

(** String conversion, as a template literal does it. *)
Fixpoint ToString (v : value) : string :=
  match v with
  | VUndefined => "undefined"
  | VNull => "null"
  | VBool true => "true"
  | VBool false => "false"
  | VNum q => number_to_string P q
  | VStr s => s
  | VArr l =>
      join "," (map (fun x => match x with
                              | VUndefined | VNull => ""
                              | _ => ToString x
                              end) l)
  | VObj _ => "[object Object]"
  end.

(** An error object of the given class: [name] is the class name. *)
Definition new_error (class msg : string) : object :=
  [("name", VStr class); ("message", VStr msg);
   ("stack", VStr (capture_stack P class msg))].

(** [new Error(msg)]. *)
Definition new_Error (msg : string) : object := new_error "Error" msg.

Definition throw {A} (err : object) : prog (outcome A) := Ret (Throw err).
Definition resolve {A} (a : A) : prog (outcome A) := Ret (Ok a).

(** ** error.middleware.js *)

(** The status and the body [errorHandler] computes from the error. *)
Definition error_response (err : object) : response :=
  let statusCode := or_else (get "statusCode" err) (VInt 500) in
  let message := or_else (get "message" err) (VStr "Internal server error") in
  let '(statusCode, message) :=
    if is_str (get "name" err) "ValidationError"
    then (VInt 400, get "message" err) else (statusCode, message) in
  let '(statusCode, message) :=
    if is_str (get "name" err) "UnauthorizedError"
    then (VInt 401, VStr "Unauthorized access") else (statusCode, message) in
  let '(statusCode, message) :=
    if is_str (get "name" err) "MulterError"
    then (VInt 400, VStr ("File upload error: " ++ ToString (get "message" err)))
    else (statusCode, message) in
  let '(statusCode, message) :=
    if truthy (get "error" err) && truthy (get_prop (get "error" err) "message")
    then (or_else (get_prop (get "error" err) "http_code") (VInt 500),
          get_prop (get "error" err) "message")
    else (statusCode, message) in
  {| status := statusCode;
     json := VObj ([("success", VBool false); ("error", message)]
                   ++ (if is_str (NODE_ENV P) "development"
                       then [("stack", get "stack" err)] else [])) |}.

Definition errorHandler (err : object) : prog response :=
  _ <- perform (ConsoleError [VStr "Error:"; VObj err]) ;;
  Ret (error_response err).

Definition notFoundHandler : response :=
  {| status := VInt 404;
     json := VObj [("success", VBool false); ("error", VStr "Route not found")] |}.

(** [asyncHandler(fn)]: a rejection of [fn] goes to [next], that is to
    [errorHandler], the error middleware of the application. *)
Definition asyncHandler (fn : request -> prog (outcome response))
  (req : request) : prog response :=
  r <- fn req ;;
  match r with
  | Ok resp => Ret resp
  | Throw err => errorHandler err
  end.

(** ** validation.middleware.js

    A validator answers itself ([Some response]) or calls [next()]
    ([None]). *)

Definition middleware := request -> option response.

Definition bad_request (msg : string) : response :=
  {| status := VInt 400;
     json := VObj [("success", VBool false); ("error", VStr msg)] |}.

Definition validMimetypes : list string :=
  ["image/jpeg"; "image/jpg"; "image/png"; "image/gif"; "image/webp";
   "image/svg+xml"].

(** [req.files.image] when it is one file. *)
Definition field (k : string) (fs : list (string * file)) : option file :=
  match files_under k fs with
  | Single f => Some f
  | Absent | Several _ => None
  end.

(** [file.name.split('.').pop().toLowerCase()]. *)
Definition fileExtension (f : file) : string :=
  toLowerCase (pop (split "." (name f))).

(** The body is a [try] block. On an array of files [file.size] is
    [undefined], so the size check passes, and [file.name.split] throws a
    [TypeError]: the [catch] block answers 500. Nothing throws on one
    file. *)
Definition validateFileUpload : middleware := fun req =>
  match files req with
  | None =>
      Some (bad_request ("No image file provided. Please upload a file with the field name "
                           ++ dquote ++ "image" ++ dquote))
  | Some fs =>
      match files_under "image" fs with
      | Absent =>
          Some (bad_request ("No image file provided. Please upload a file with the field name "
                               ++ dquote ++ "image" ++ dquote))
      | Several _ =>
          Some {| status := VInt 500;
                  json := VObj [("success", VBool false);
                                ("error", VStr "File validation failed")] |}
      | Single file =>
          if (size file >? maxFileSize config)%Z then
            Some (bad_request
                    ("File size exceeds limit. Maximum size: "
                       ++ number_to_string P (inject_Z (maxFileSize config) / 1024 / 1024)
                       ++ "MB"))
          else if negb (includes (allowedFormats config) (fileExtension file)) then
            Some (bad_request
                    ("Invalid file format. Allowed formats: "
                       ++ join ", " (allowedFormats config)))
          else if negb (includes validMimetypes (mimetype file)) then
            Some (bad_request "Invalid file type. Please upload an image file.")
          else None
      end
  end.

Definition uploadOptionsSchema : list Joi.key_rule :=
  [ {| Joi.name := "folder"; Joi.rule := Joi.string_ (Some 100%nat); Joi.required := false |};
    {| Joi.name := "publicId"; Joi.rule := Joi.string_ (Some 100%nat); Joi.required := false |};
    {| Joi.name := "tags";
       Joi.rule := Joi.alternatives_
                     [Joi.string_ None; Joi.array_ (Joi.string_ None) None None];
       Joi.required := false |};
    {| Joi.name := "optimize"; Joi.rule := Joi.boolean_; Joi.required := false |} ].

Definition validateUploadOptions : middleware := fun req =>
  match Joi.validate_object uploadOptionsSchema (body req) with
  | Some e => Some (bad_request (Joi.message e))
  | None => None
  end.

Definition publicIdSchema : list Joi.key_rule :=
  [ {| Joi.name := "publicId"; Joi.rule := Joi.string_ None; Joi.required := true |} ].

Definition validatePublicId : middleware := fun req =>
  match Joi.validate_object publicIdSchema (params req) with
  | Some _ => Some (bad_request "Invalid public ID")
  | None => None
  end.

Definition bulkDeleteSchema : list Joi.key_rule :=
  [ {| Joi.name := "publicIds";
       Joi.rule := Joi.array_ (Joi.string_ None) (Some 1%nat) (Some 100%nat);
       Joi.required := true |} ].

Definition validateBulkDelete : middleware := fun req =>
  match Joi.validate_object bulkDeleteSchema (body req) with
  | Some e => Some (bad_request (Joi.message e))
  | None => None
  end.

(** ** services/image.service.js *)

(** [getThumbnailUrl(publicId, format)]. *)
Definition getThumbnailUrl (publicId format : value) : value :=
  cloudinary_url P publicId
    [("transformation",
      VArr [VObj [("width", VInt 200); ("height", VInt 200); ("crop", VStr "fill")];
            VObj [("quality", VStr "auto"); ("fetch_format", VStr "auto")]]);
     ("format", format)].

(** [getTransformedUrl(publicId, transformation)]. *)
Definition getTransformedUrl (publicId transformation : value) : value :=
  cloudinary_url P publicId [("transformation", transformation)].

(** [n > 4096] for a dimension that may be [undefined]. *)
Definition exceeds (n : option Z) (bound : Z) : bool :=
  match n with
  | Some z => (z >? bound)%Z
  | None => false
  end.

Definition format_is (f : option string) (lit : string) : bool :=
  match f with
  | Some s => String.eqb s lit
  | None => false
  end.

(** The calls chained on the sharp instance before [toBuffer()]. *)
Definition pipeline (m : metadata) : list sharp_op :=
  (if exceeds (width m) 4096 || exceeds (height m) 4096
   then [Resize 4096 4096 "inside" true] else [])
  ++ (if format_is (format m) "jpeg" || format_is (format m) "jpg"
      then [Jpeg 85 true]
      else if format_is (format m) "png" then [Png 85 9]
      else if format_is (format m) "webp" then [Webp 85]
      else []).

Definition optimizeImage (buf : buffer) (mime : string) : prog (outcome buffer) :=
  try_catch
    (if String.eqb mime "image/svg+xml" then resolve buf
     else
       await _ <- perform (Sharp buf) ;;
       await m <- perform (SharpMetadata buf) ;;
       perform (SharpToBuffer buf (pipeline m)))
    (fun error =>
       _ <- perform (ConsoleWarn [VStr "Image optimization failed, using original:";
                                  get "message" error]) ;;
       resolve buf).

(** The options object handed to [cloudinary.uploader.upload_stream]. *)
Definition upload_stream_options (options : object) : object :=
  [("folder", or_else (get "folder" options) (VStr "uploads"));
   ("public_id", get "publicId" options);
   ("transformation", get "transformation" options);
   ("resource_type", VStr "auto");
   ("tags", or_else (get "tags" options) (VArr []));
   ("context", get "context" options)].

(** [file] is [None] when the caller passes [undefined]. *)
Definition uploadImage (file : option file) (options : object)
  : prog (outcome value) :=
  try_catch
    (match file with
     | None => throw (new_Error "No file provided")
     | Some file =>
         await buf <- (if negb (is_false (get "optimize" options))
                       then optimizeImage (data file) (mimetype file)
                       else resolve (data file)) ;;
         await result <- perform (UploadStream (upload_stream_options options) buf) ;;
         resolve
           (VObj [("success", VBool true);
                  ("data",
                   VObj [("publicId", get "public_id" result);
                         ("url", get "secure_url" result);
                         ("format", get "format" result);
                         ("width", get "width" result);
                         ("height", get "height" result);
                         ("bytes", get "bytes" result);
                         ("createdAt", get "created_at" result);
                         ("resourceType", get "resource_type" result);
                         ("type", get "type" result);
                         ("thumbnail",
                          getThumbnailUrl (get "public_id" result)
                            (get "format" result))])])
     end)
    (fun error =>
       throw (new_Error ("Image upload failed: " ++ ToString (get "message" error)))).

Definition getImage (publicId : string) (options : object) : prog (outcome value) :=
  try_catch
    (await resource <-
       perform (ApiResource publicId
                  [("resource_type",
                    or_else (get "resourceType" options) (VStr "image"))]) ;;
     resolve
       (VObj [("success", VBool true);
              ("data",
               VObj [("publicId", get "public_id" resource);
                     ("url", get "secure_url" resource);
                     ("format", get "format" resource);
                     ("width", get "width" resource);
                     ("height", get "height" resource);
                     ("bytes", get "bytes" resource);
                     ("createdAt", get "created_at" resource);
                     ("resourceType", get "resource_type" resource);
                     ("type", get "type" resource);
                     ("thumbnail",
                      getThumbnailUrl (get "public_id" resource)
                        (get "format" resource));
                     ("transformedUrl",
                      if truthy (get "transformation" options)
                      then getTransformedUrl (VStr publicId)
                             (get "transformation" options)
                      else get "secure_url" resource)])]))
    (fun error =>
       if is_num (get_prop (get "error" error) "http_code") 404
       then throw (new_Error "Image not found")
       else throw (new_Error ("Failed to retrieve image: "
                                ++ ToString (get "message" error)))).

Definition deleteImage (publicId : string) : prog (outcome value) :=
  try_catch
    (await result <- perform (Destroy publicId) ;;
     if is_str (get "result" result) "ok" || is_str (get "result" result) "not found"
     then resolve
            (VObj [("success", VBool true);
                   ("message",
                    if is_str (get "result" result) "ok"
                    then VStr "Image deleted successfully"
                    else VStr "Image not found");
                   ("publicId", VStr publicId)])
     else throw (new_Error "Deletion failed"))
    (fun error =>
       throw (new_Error ("Image deletion failed: " ++ ToString (get "message" error)))).

(** One resource of the usage report: [usage.r?.k || 0]. *)
Definition usage_of (usage : object) (r k : string) : value :=
  or_else (get_prop (get r usage) k) (VInt 0).

Definition getStats : prog (outcome value) :=
  try_catch
    (await usage <- perform ApiUsage ;;
     resolve
       (VObj [("success", VBool true);
              ("data",
               VObj [("used",
                      VObj [("credits", usage_of usage "credits" "used");
                            ("storage", usage_of usage "storage" "used");
                            ("bandwidth", usage_of usage "bandwidth" "used");
                            ("transformations",
                             usage_of usage "transformations" "used")]);
                     ("limit",
                      VObj [("credits", usage_of usage "credits" "limit");
                            ("storage", usage_of usage "storage" "limit");
                            ("bandwidth", usage_of usage "bandwidth" "limit");
                            ("transformations",
                             usage_of usage "transformations" "limit")]);
                     ("percentage",
                      VObj [("credits", usage_of usage "credits" "used_percent");
                            ("storage", usage_of usage "storage" "used_percent");
                            ("bandwidth",
                             usage_of usage "bandwidth" "used_percent")])])]))
    (fun error =>
       throw (new_Error ("Failed to get statistics: "
                           ++ ToString (get "message" error)))).

(** [Object.keys(v).length]; it throws on [undefined] and [null]. *)
Definition keys_length (v : value) : outcome nat :=
  match v with
  | VUndefined | VNull =>
      Throw (new_error "TypeError" "Cannot convert undefined or null to object")
  | VObj o => Ok (length (nodup string_dec (map fst o)))
  | VArr l => Ok (length l)
  | VStr s => Ok (String.length s)
  | VBool _ | VNum _ => Ok O
  end.

Definition bulkDelete (publicIds : value) : prog (outcome value) :=
  try_catch
    (match publicIds with
     | VArr (id :: ids) =>
         await result <- perform (DeleteResources (id :: ids)) ;;
         await deletedCount <- Ret (keys_length (get "deleted" result)) ;;
         resolve
           (VObj [("success", VBool true);
                  ("data",
                   VObj [("deleted", get "deleted" result);
                         ("deletedCount", VInt (Z.of_nat deletedCount));
                         ("partial", get "partial" result)])])
     | _ => throw (new_Error "Invalid public IDs array")
     end)
    (fun error =>
       throw (new_Error ("Bulk deletion failed: " ++ ToString (get "message" error)))).

(** ** routes/image.routes.js *)

Fixpoint first_response (ms : list middleware) (req : request) : option response :=
  match ms with
  | [] => None
  | m :: r => match m req with Some resp => Some resp | None => first_response r req end
  end.

(** [router.METHOD(path, ...validators, asyncHandler(handler))]. *)
Definition route (validators : list middleware)
  (handler : request -> prog (outcome response)) (req : request) : prog response :=
  match first_response validators req with
  | Some resp => Ret resp
  | None => asyncHandler handler req
  end.

(** The [options] object the upload handler builds from [req.body]. *)
Definition upload_options (b : object) : object :=
  [("folder", get "folder" b);
   ("publicId", get "publicId" b);
   ("tags", if truthy (get "tags" b)
            then (if isArray (get "tags" b) then get "tags" b else VArr [get "tags" b])
            else VArr []);
   ("optimize", VBool (negb (is_str (get "optimize" b) "false")))].

(** The handler runs behind [validateFileUpload], which answers itself a
    request that has not exactly one file under [image]: it is reached with
    one file only. *)
Definition upload_handler (req : request) : prog (outcome response) :=
  match files req with
  | None =>
      throw (new_error "TypeError"
               "Cannot read properties of undefined (reading 'image')")
  | Some fs =>
      await result <- uploadImage (field "image" fs) (upload_options (body req)) ;;
      resolve {| status := VInt 201; json := result |}
  end.

(** POST /api/images/upload *)
Definition upload_route : request -> prog response :=
  route [validateFileUpload; validateUploadOptions] upload_handler.

(** [decodeURIComponent(req.params.publicId)]. *)
Definition decoded_publicId (req : request) : outcome string :=
  match decodeURIComponent P (ToString (get "publicId" (params req))) with
  | Some id => Ok id
  | None => Throw (new_error "URIError" "URI malformed")
  end.

(** GET /api/images/:publicId *)
Definition get_route : request -> prog response :=
  route [validatePublicId]
    (fun req =>
       await publicId <- Ret (decoded_publicId req) ;;
       await result <- getImage publicId [] ;;
       resolve (res_json result)).

(** DELETE /api/images/:publicId *)
Definition delete_route : request -> prog response :=
  route [validatePublicId]
    (fun req =>
       await publicId <- Ret (decoded_publicId req) ;;
       await result <- deleteImage publicId ;;
       resolve (res_json result)).

(** POST /api/images/bulk-delete *)
Definition bulk_delete_route : request -> prog response :=
  route [validateBulkDelete]
    (fun req =>
       await result <- bulkDelete (get "publicIds" (body req)) ;;
       resolve (res_json result)).

(** GET /api/images/stats/usage *)
Definition stats_route : request -> prog response :=
  route []
    (fun _ =>
       await result <- getStats ;;
       resolve (res_json result)).

(** ** server.js

    express-fileupload is a dependency, not code of the service: the
    middleware [fileUpload(options)] is embedded with its documented
    semantics under the options of server.js. With [limits.fileSize] and
    [abortOnLimit: true], a request with a file bigger than the limit is
    answered 413 with the text of [responseOnLimit], by default
    'File size limit has been reached', and goes no further; any other
    request is handed on with its files in [req.files]. The body of the 413
    is that text, not JSON. *)
Definition fileUpload : middleware := fun req =>
  match files req with
  | Some fs =>
      if existsb (fun kf => (size (snd kf) >? maxFileSize config)%Z) fs
      then Some {| status := VInt 413;
                   json := VStr "File size limit has been reached" |}
      else None
  | None => None
  end.

(** POST /api/images/upload as the application answers it: server.js
    mounts [fileUpload] with [app.use] before the router of the images, so
    the route sees what [fileUpload] hands on. The request is one that the
    middleware mounted earlier lets through: the origin check of cors and
    the rate limiter, which counts the requests of a client, are outside
    the model; helmet, the body parsers and the logger answer nothing. *)
Definition app_upload (req : request) : prog response :=
  match fileUpload req with
  | Some resp => Ret resp
  | None => upload_route req
  end.

End Service.

(** ** A simulated runtime and provider

    A platform and a world to run the routes on concrete requests: the
    provider keeps the identifiers it stores, sharp refuses the empty
    buffer, its decoder rejects what does not start as a PNG file and its
    encoder returns its input. *)

Module Sim.

Definition platform : platform := {|
  number_to_string := fun q =>
    ((if (Qnum q <? 0)%Z then "-" else "")
       ++ nat_to_string (Z.abs_nat (Qnum q))
       ++ (if (Zpos (Qden q) =? 1)%Z then ""
           else "/" ++ nat_to_string (Pos.to_nat (Qden q))))%string;
  decodeURIComponent := fun s => Some s;
  capture_stack := fun class msg => (class ++ ": " ++ msg)%string;
  cloudinary_url := fun id _ =>
    match id with
    | VStr s => VStr ("https://res.cloudinary.com/demo/image/upload/" ++ s)
    | _ => VStr "https://res.cloudinary.com/demo/image/upload/"
    end;
  NODE_ENV := VStr "production"
|}.

(** The provider's state: the identifiers of the stored assets. *)
Definition state := list string.

Definition not_found (publicId : string) : object :=
  [("error", VObj [("message", VStr ("Resource not found - " ++ publicId));
                   ("http_code", VInt 404)])].

Definition asset (publicId : string) : object :=
  [("public_id", VStr publicId);
   ("secure_url", VStr ("https://res.cloudinary.com/demo/image/upload/" ++ publicId));
   ("format", VStr "png"); ("width", VInt 100); ("height", VInt 50);
   ("bytes", VInt 1024); ("created_at", VStr "2025-11-05T00:00:00Z");
   ("resource_type", VStr "image"); ("type", VStr "upload")].

Definition usage_report : object :=
  [("plan", VStr "Free");
   ("credits", VObj [("used", VNum (3 # 2)); ("limit", VInt 25);
                     ("used_percent", VInt 6)]);
   ("storage", VObj [("used", VInt 1048576); ("limit", VInt 10485760);
                     ("used_percent", VInt 10)]);
   ("bandwidth", VObj [("used", VInt 2097152); ("limit", VInt 20971520);
                       ("used_percent", VInt 10)]);
   ("transformations", VObj [("used", VInt 12); ("limit", VInt 100);
                             ("used_percent", VInt 12)])].

Definition stored_as (options : object) : string :=
  match get "public_id" options with
  | VStr s => s
  | _ => "uploads/asset"
  end.

Definition world : world state := fun X e =>
  match e in event X return state -> X * state with
  | Sharp input => fun s =>
      (match input with
       | [] => Throw [("message", VStr "Input Buffer is empty")]
       | _ => Ok tt
       end, s)
  | SharpMetadata input => fun s =>
      (match input with
       | x89 :: _ =>
           Ok {| width := Some 100%Z; height := Some 50%Z; format := Some "png" |}
       | _ => Throw [("message", VStr "Input buffer contains unsupported image format")]
       end, s)
  | SharpToBuffer input _ => fun s => (Ok input, s)
  | UploadStream options _ => fun s =>
      (Ok (asset (stored_as options)), stored_as options :: s)
  | ApiResource publicId _ => fun s =>
      (if includes s publicId then Ok (asset publicId) else Throw (not_found publicId), s)
  | Destroy publicId => fun s =>
      if includes s publicId
      then (Ok [("result", VStr "ok")],
            filter (fun x => negb (String.eqb x publicId)) s)
      else (Ok [("result", VStr "not found")], s)
  | DeleteResources publicIds => fun s =>
      (Ok [("deleted", VObj (map (fun v => (match v with VStr x => x | _ => "" end,
                                           VStr "deleted")) publicIds));
           ("partial", VBool false)], s)
  | ApiUsage => fun s => (Ok usage_report, s)
  | ConsoleWarn _ => fun s => (tt, s)
  | ConsoleError _ => fun s => (tt, s)
  end.

(** A request with only path parameters. *)
Definition with_publicId (publicId : string) : request :=
  {| params := [("publicId", VStr publicId)]; query := []; body := []; files := None |}.

(** A multipart upload of one file under the field [image]. *)
Definition upload_of (f : file) (fields : object) : request :=
  {| params := []; query := []; body := fields; files := Some [("image", f)] |}.

(** A multipart upload of several files, all under the field [image]. *)
Definition upload_of_files (l : list file) (fields : object) : request :=
  {| params := []; query := []; body := fields;
     files := Some (map (fun f => ("image", f)) l) |}.

(** A JSON request. *)
Definition with_body (b : object) : request :=
  {| params := []; query := []; body := b; files := None |}.

Definition photo (name mimetype : string) (size : Z) : file :=
  {| name := name; size := size; mimetype := mimetype;
     data := [x89; x50; x4e; x47] |}.

(** A file the decoder rejects. *)
Definition corrupt : file :=
  {| name := "photo.png"; size := 2; mimetype := "image/png"; data := [x00; x01] |}.

(** A vector image. *)
Definition drawing : file :=
  {| name := "logo.svg"; size := 5; mimetype := "image/svg+xml";
     data := [x3c; x73; x76; x67; x3e] |}.

(** A configuration whose allow-list is written in capitals
    ([ALLOWED_FORMATS=JPG,PNG]). *)
Definition capitals_config : app_config :=
  {| maxFileSize := 10 * 1024 * 1024; allowedFormats := ["JPG"; "PNG"] |}.

End Sim.

(** ** Vocabulary of the properties *)

Definition result_of {S A} (r : A * S * list call) : A := fst (fst r).
Definition state_of {S A} (r : A * S * list call) : S := snd (fst r).
Definition trace_of {S A} (r : A * S * list call) : list call := snd r.

(** Sharp fails on the buffer, in the world [w] from the state [s]: at
    one of the three calls of [optimizeImage] that leave the service, the
    construction of the instance, the decoder or the encoder. *)
Definition sharp_rejects {S} (w : world S) (s : S) (buf : buffer) : Prop :=
  (exists e s1, w _ (Sharp buf) s = (Throw e, s1))
  \/ (exists s1 e s2,
        w _ (Sharp buf) s = (Ok tt, s1)
        /\ w _ (SharpMetadata buf) s1 = (Throw e, s2))
  \/ (exists s1 m s2 e s3,
        w _ (Sharp buf) s = (Ok tt, s1)
        /\ w _ (SharpMetadata buf) s1 = (Ok m, s2)
        /\ w _ (SharpToBuffer buf (pipeline m)) s2 = (Throw e, s3)).

(** [data.group.resource] is a key of the statistics. *)
Definition has_entry (data : value) (group resource : string) : bool :=
  match get_prop data group with
  | VObj o => has_key resource o
  | _ => false
  end.

(** The usage snapshot as the specification words it: a
    used/limit/percentage triplet for each of the four resources. *)
Definition has_all_triplets (data : value) : bool :=
  forallb (fun group =>
             forallb (has_entry data group)
               ["storage"; "bandwidth"; "transformations"; "credits"])
    ["used"; "limit"; "percentage"].

(** The allow-list as the specification words it: the five media types
    of jpeg, png, gif, webp and svg. *)
Definition five_media_types : list string :=
  ["image/jpeg"; "image/png"; "image/gif"; "image/webp"; "image/svg+xml"].

(** Two strings that differ at most in letter case. *)
Definition same_letters (a b : string) : Prop := toLowerCase a = toLowerCase b.

(** The character [c] does not occur in [s]. *)
Fixpoint lacks (c : ascii) (s : string) : bool :=
  match s with
  | EmptyString => true
  | String a r => negb (Ascii.eqb a c) && lacks c r
  end.

(** The strings of an array of strings. *)
Fixpoint strings_of (l : list value) : option (list string) :=
  match l with
  | [] => Some []
  | VStr s :: r => option_map (cons s) (strings_of r)
  | _ :: _ => None
  end.

(** ** Listing, search, health and configuration

    The rest of the service calls the provider through three more entry
    points of the SDK and reads the clock; these calls extend the events
    of the upload pipeline. *)

(** A JavaScript number that may be NaN. *)
Inductive number :=
| NaN
| Num (q : Q).

(** [Math.min(n, bound)] for a bound that is a number. *)
Definition Math_min (n : number) (bound : Q) : number :=
  match n with
  | NaN => NaN
  | Num q => Num (if Qle_bool q bound then q else bound)
  end.

(** What the runtime and Joi provide besides [platform]. *)
Record builtins := {
  (** [parseInt(s)]: an integer, or [None] for NaN *)
  parseInt : string -> option Z;
  (** the number a string converts to, [Number(s)] *)
  StringToNumber : string -> number;
  (** how Joi's [number()] converts a string: not a number, a number it
      calls unsafe, or the number *)
  joi_number : string -> option (option Q)
}.

(** The [queryOptions] of [cloudinary.api.resources]; an optional key is
    [None] when the service does not set it. *)
Module Query.
Record t := {
  resource_type : value;
  max_results : number;
  type : string;
  next_cursor : option value;
  prefix : option value;
  tags : option bool
}.
End Query.

Inductive event2 : Type -> Type :=
| Base {X : Type} (e : event X) : event2 X
| ApiResources (queryOptions : Query.t) : event2 (outcome object)
| SearchExecute (expression : value) (max_results : number) (next_cursor : value)
  : event2 (outcome object)
| ApiPing : event2 (outcome object)
| ConsoleLog (args : list value) : event2 unit
| DateNow : event2 string
| ProcessUptime : event2 Q.

Inductive prog2 (A : Type) : Type :=
| Ret2 (a : A)
| Vis2 {X : Type} (e : event2 X) (k : X -> prog2 A).
Arguments Ret2 {A} a.
Arguments Vis2 {A X} e k.

Fixpoint bind2 {A B} (p : prog2 A) (f : A -> prog2 B) : prog2 B :=
  match p with
  | Ret2 a => f a
  | Vis2 e k => Vis2 e (fun x => bind2 (k x) f)
  end.

Definition perform2 {X} (e : event2 X) : prog2 X := Vis2 e Ret2.

(** A program of the upload pipeline, among the programs of the whole
    service. *)
Fixpoint lift {A} (p : prog A) : prog2 A :=
  match p with
  | Ret a => Ret2 a
  | Vis e k => Vis2 (Base e) (fun x => lift (k x))
  end.

Definition and_then2 {A B} (p : prog2 (outcome A)) (f : A -> prog2 (outcome B))
  : prog2 (outcome B) :=
  bind2 p (fun r => match r with Ok a => f a | Throw e => Ret2 (Throw e) end).

Definition try_catch2 {A} (p : prog2 (outcome A)) (h : object -> prog2 (outcome A))
  : prog2 (outcome A) :=
  bind2 p (fun r => match r with Ok a => Ret2 (Ok a) | Throw e => h e end).

Declare Scope prog2_scope.
Delimit Scope prog2_scope with prog2.
Notation "x <- p ;; q" := (bind2 p (fun x => q))
  (at level 61, p at next level, right associativity) : prog2_scope.
Notation "'await' x <- p ;; q" := (and_then2 p (fun x => q))
  (at level 61, x name, p at next level, right associativity) : prog2_scope.

Inductive call2 : Type :=
| Call2 {X : Type} (e : event2 X).

Definition world2 (S : Type) := forall X, event2 X -> S -> X * S.

Fixpoint run2 {S A} (w : world2 S) (p : prog2 A) (s : S) : A * S * list call2 :=
  match p with
  | Ret2 a => (a, s, [])
  | Vis2 e k =>
      let '(x, s1) := w _ e s in
      let '(a, s2, t) := run2 w (k x) s1 in
      (a, s2, Call2 e :: t)
  end.

(** The calls to the storage gateway among all calls. *)
Definition is_gateway_call2 (c : call2) : bool :=
  match c with
  | Call2 (Base e) => is_gateway_call (Call e)
  | Call2 (ApiResources _) | Call2 (SearchExecute _ _ _) | Call2 ApiPing => true
  | Call2 _ => false
  end.

Definition gateway_calls2 (t : list call2) : list call2 := filter is_gateway_call2 t.

(** The Joi schemas of the query validators: a key is one of the schemas
    above, or [Joi.number().integer().min(a).max(b)]. *)
Module JoiQuery.

Inductive rule :=
| schema (s : Joi.schema)
| integer_between (min max : Z).

Record key_rule := { name : string; rule_of : rule; required : bool }.

Inductive error :=
| base (e : Joi.error)
| number_base (p : Joi.path)
| number_unsafe (p : Joi.path)
| number_integer (p : Joi.path)
| number_min (p : Joi.path) (limit : Z)
| number_max (p : Joi.path) (limit : Z).

(** The rules of a number, in the order the schema chains them. *)
Definition check_number (p : Joi.path) (min max : Z) (q : Q) : option error :=
  if Qle_bool (inject_Z (-9007199254740991)) q && Qle_bool q (inject_Z 9007199254740991)
  then
    if negb (Zpos (Qden (Qred q)) =? 1)%Z then Some (number_integer p)
    else if negb (Qle_bool (inject_Z min) q) then Some (number_min p min)
    else if negb (Qle_bool q (inject_Z max)) then Some (number_max p max)
    else None
  else Some (number_unsafe p).

Definition validate (B : builtins) (r : rule) (p : Joi.path) (v : value) : option error :=
  match r with
  | schema s => option_map base (Joi.validate s p v)
  | integer_between min max =>
      match v with
      | VNum q => check_number p min max q
      | VStr s =>
          match joi_number B s with
          | None => Some (number_base p)
          | Some None => Some (number_unsafe p)
          | Some (Some q) => check_number p min max q
          end
      | _ => Some (number_base p)
      end
  end.

Definition validate_key (B : builtins) (o : object) (k : key_rule) : option error :=
  match get (name k) o with
  | VUndefined =>
      if required k then Some (base (Joi.any_required [Joi.Key (name k)])) else None
  | v => validate B (rule_of k) [Joi.Key (name k)] v
  end.

Fixpoint first_error {A} (f : A -> option error) (l : list A) : option error :=
  match l with
  | [] => None
  | x :: r => match f x with Some e => Some e | None => first_error f r end
  end.

Definition validate_object (B : builtins) (keys : list key_rule) (o : object)
  : option error :=
  match first_error (validate_key B o) keys with
  | Some e => Some e
  | None =>
      first_error
        (fun kv => if includes (map name keys) (fst kv) then None
                   else Some (base (Joi.object_unknown [Joi.Key (fst kv)]))) o
  end.

Definition Z_to_string (z : Z) : string :=
  ((if (z <? 0)%Z then "-" else "") ++ nat_to_string (Z.abs_nat z))%string.

Definition message (e : error) : string :=
  match e with
  | base e => Joi.message e
  | number_base p => Joi.quoted p ++ " must be a number"
  | number_unsafe p => Joi.quoted p ++ " must be a safe number"
  | number_integer p => Joi.quoted p ++ " must be an integer"
  | number_min p n =>
      Joi.quoted p ++ " must be greater than or equal to " ++ Z_to_string n
  | number_max p n =>
      Joi.quoted p ++ " must be less than or equal to " ++ Z_to_string n
  end.

End JoiQuery.

Section Service2.

Variable P : platform.
Variable B : builtins.

Open Scope prog2_scope.

Definition throw2 {A} (err : object) : prog2 (outcome A) := Ret2 (Throw err).
Definition resolve2 {A} (a : A) : prog2 (outcome A) := Ret2 (Ok a).

(** ToNumber. *)
Definition ToNumber (v : value) : number :=
  match v with
  | VUndefined => NaN
  | VNull => Num 0
  | VBool true => Num 1
  | VBool false => Num 0
  | VNum q => Num q
  | VStr s => StringToNumber B s
  | VArr _ | VObj _ => StringToNumber B (ToString P v)
  end.

(** A destructured option with a default: [{ k = d } = options]. *)
Definition with_default (v d : value) : value :=
  match v with
  | VUndefined => d
  | _ => v
  end.

(** One element of [result.resources.map(resource => ({...}))]; reading
    a key of [undefined] or [null] throws. *)
Definition shape_resource (resource : value) : outcome value :=
  match resource with
  | VUndefined =>
      Throw (new_error P "TypeError"
               "Cannot read properties of undefined (reading 'public_id')")
  | VNull =>
      Throw (new_error P "TypeError"
               "Cannot read properties of null (reading 'public_id')")
  | _ =>
      Ok (VObj [("publicId", get_prop resource "public_id");
                ("url", get_prop resource "secure_url");
                ("format", get_prop resource "format");
                ("width", get_prop resource "width");
                ("height", get_prop resource "height");
                ("bytes", get_prop resource "bytes");
                ("createdAt", get_prop resource "created_at");
                ("thumbnail",
                 getThumbnailUrl P (get_prop resource "public_id")
                   (get_prop resource "format"))])
  end.

Fixpoint shape_all (l : list value) : outcome (list value) :=
  match l with
  | [] => Ok []
  | x :: r =>
      match shape_resource x with
      | Throw e => Throw e
      | Ok y =>
          match shape_all r with
          | Throw e => Throw e
          | Ok ys => Ok (y :: ys)
          end
      end
  end.

(** [result.resources.map(...)]: only an array has [map]. *)
Definition shape_resources (resources : value) : outcome value :=
  match resources with
  | VArr l =>
      match shape_all l with
      | Ok ys => Ok (VArr ys)
      | Throw e => Throw e
      end
  | VUndefined =>
      Throw (new_error P "TypeError"
               "Cannot read properties of undefined (reading 'map')")
  | VNull =>
      Throw (new_error P "TypeError" "Cannot read properties of null (reading 'map')")
  | _ => Throw (new_error P "TypeError" "result.resources.map is not a function")
  end.

(** The body both [listImages] and [searchImages] return. *)
Definition images_page (result : object) : outcome value :=
  match shape_resources (get "resources" result) with
  | Throw e => Throw e
  | Ok images =>
      Ok (VObj [("success", VBool true);
                ("data",
                 VObj [("images", images);
                       ("totalCount", get "total_count" result);
                       ("nextCursor", get "next_cursor" result)])])
  end.

(** The [queryOptions] that [listImages] builds. *)
Definition list_query (options : object) : Query.t :=
  {| Query.resource_type := with_default (get "resourceType" options) (VStr "image");
     Query.max_results :=
       Math_min (ToNumber (with_default (get "maxResults" options) (VInt 30))) 500;
     Query.type := "upload";
     Query.next_cursor :=
       if truthy (get "nextCursor" options) then Some (get "nextCursor" options) else None;
     Query.prefix :=
       if truthy (get "prefix" options) then Some (get "prefix" options) else None;
     Query.tags := if truthy (get "tags" options) then Some true else None |}.

Definition listImages (options : object) : prog2 (outcome value) :=
  try_catch2
    (await result <- perform2 (ApiResources (list_query options)) ;;
     Ret2 (images_page result))
    (fun error =>
       throw2 (new_Error P ("Failed to list images: " ++ ToString P (get "message" error)))).

Definition searchImages (options : object) : prog2 (outcome value) :=
  try_catch2
    (if negb (truthy (get "expression" options))
     then throw2 (new_Error P "Search expression is required")
     else
       await result <-
         perform2 (SearchExecute (get "expression" options)
                     (Math_min (ToNumber (with_default (get "maxResults" options)
                                            (VInt 30))) 500)
                     (get "nextCursor" options)) ;;
       Ret2 (images_page result))
    (fun error =>
       throw2 (new_Error P ("Search failed: " ++ ToString P (get "message" error)))).

(** [testConnection] of cloudinary.config.js. *)
Definition testConnection : prog2 bool :=
  r <- perform2 ApiPing ;;
  match r with
  | Ok _ =>
      _ <- perform2 (ConsoleLog [VStr "✓ Successfully connected to Cloudinary"]) ;;
      Ret2 true
  | Throw error =>
      _ <- perform2 (Base (ConsoleError [VStr "✗ Failed to connect to Cloudinary:";
                                         get "message" error])) ;;
      Ret2 false
  end.

(** [asyncHandler] and [route], for the handlers of the whole service. *)
Definition asyncHandler2 (fn : request -> prog2 (outcome response))
  (req : request) : prog2 response :=
  r <- fn req ;;
  match r with
  | Ok resp => Ret2 resp
  | Throw err => lift (errorHandler P err)
  end.

Definition route2 (validators : list middleware)
  (handler : request -> prog2 (outcome response)) (req : request) : prog2 response :=
  match first_response validators req with
  | Some resp => Ret2 resp
  | None => asyncHandler2 handler req
  end.

Definition query_error (e : JoiQuery.error) : response :=
  bad_request (JoiQuery.message e).

Definition listQuerySchema : list JoiQuery.key_rule :=
  [ {| JoiQuery.name := "maxResults"; JoiQuery.rule_of := JoiQuery.integer_between 1 500;
       JoiQuery.required := false |};
    {| JoiQuery.name := "nextCursor"; JoiQuery.rule_of := JoiQuery.schema (Joi.string_ None);
       JoiQuery.required := false |};
    {| JoiQuery.name := "prefix"; JoiQuery.rule_of := JoiQuery.schema (Joi.string_ None);
       JoiQuery.required := false |};
    {| JoiQuery.name := "tags"; JoiQuery.rule_of := JoiQuery.schema Joi.boolean_;
       JoiQuery.required := false |} ].

Definition validateListQuery : middleware := fun req =>
  match JoiQuery.validate_object B listQuerySchema (query req) with
  | Some e => Some (query_error e)
  | None => None
  end.

Definition searchQuerySchema : list JoiQuery.key_rule :=
  [ {| JoiQuery.name := "expression"; JoiQuery.rule_of := JoiQuery.schema (Joi.string_ None);
       JoiQuery.required := true |};
    {| JoiQuery.name := "maxResults"; JoiQuery.rule_of := JoiQuery.integer_between 1 500;
       JoiQuery.required := false |};
    {| JoiQuery.name := "nextCursor"; JoiQuery.rule_of := JoiQuery.schema (Joi.string_ None);
       JoiQuery.required := false |} ].

Definition validateSearchQuery : middleware := fun req =>
  match JoiQuery.validate_object B searchQuerySchema (query req) with
  | Some e => Some (query_error e)
  | None => None
  end.

(** [parseInt(v) || 30]. *)
Definition maxResults_or_30 (v : value) : value :=
  match parseInt B (ToString P v) with
  | None => VInt 30
  | Some z => if (z =? 0)%Z then VInt 30 else VInt z
  end.

(** GET /api/images *)
Definition list_route : request -> prog2 response :=
  route2 [validateListQuery]
    (fun req =>
       await result <-
         listImages [("maxResults", maxResults_or_30 (get "maxResults" (query req)));
                     ("nextCursor", get "nextCursor" (query req));
                     ("prefix", get "prefix" (query req));
                     ("tags", VBool (is_str (get "tags" (query req)) "true"))] ;;
       resolve2 (res_json result)).

(** GET /api/images/search/query *)
Definition search_route : request -> prog2 response :=
  route2 [validateSearchQuery]
    (fun req =>
       await result <-
         searchImages [("expression", get "expression" (query req));
                       ("maxResults", maxResults_or_30 (get "maxResults" (query req)));
                       ("nextCursor", get "nextCursor" (query req))] ;;
       resolve2 (res_json result)).

(** GET /api/health *)
Definition health_route : request -> prog2 response :=
  route2 []
    (fun _ =>
       cloudinaryConnected <- testConnection ;;
       timestamp <- perform2 DateNow ;;
       uptime <- perform2 ProcessUptime ;;
       resolve2
         {| status := if cloudinaryConnected then VInt 200 else VInt 503;
            json :=
              VObj [("success", VBool true);
                    ("status", VStr "OK");
                    ("timestamp", VStr timestamp);
                    ("uptime", VNum uptime);
                    ("services",
                     VObj [("api", VStr "OK");
                           ("cloudinary",
                            if cloudinaryConnected then VStr "OK" else VStr "ERROR")])] |}).

Close Scope prog2_scope.

(** ** config/app.config.js *)

(** The configuration the service reads besides [app_config]. *)
Record server_config := {
  port : value;
  nodeEnv : string;
  allowedOrigins : list string;
  upload : app_config;
  rateLimit_windowMs : Z;
  rateLimit_max : Z
}.

(** [process.env.K || d] for a string default. *)
Definition env_or (v : option string) (d : string) : string :=
  match v with
  | Some s => if String.eqb s "" then d else s
  | None => d
  end.

(** [process.env.K ? process.env.K.split(',') : d]. *)
Definition env_list (v : option string) (d : list string) : list string :=
  match v with
  | Some s => if String.eqb s "" then d else split "," s
  | None => d
  end.

(** [parseInt(process.env.K) || d]. *)
Definition env_int (v : option string) (d : Z) : Z :=
  match parseInt B (match v with Some s => s | None => "undefined" end) with
  | Some z => if (z =? 0)%Z then d else z
  | None => d
  end.

(** app.config.js, from the environment. *)
Definition load_config (env : string -> option string) : server_config := {|
  port := match env "PORT" with
          | Some s => if String.eqb s "" then VInt 5000 else VStr s
          | None => VInt 5000
          end;
  nodeEnv := env_or (env "NODE_ENV") "development";
  allowedOrigins :=
    env_list (env "ALLOWED_ORIGINS") ["http://localhost:3000"; "http://localhost:5173"];
  upload := {|
    maxFileSize := env_int (env "MAX_FILE_SIZE") (10 * 1024 * 1024);
    allowedFormats :=
      env_list (env "ALLOWED_FORMATS") ["jpg"; "jpeg"; "png"; "gif"; "webp"; "svg"]
  |};
  rateLimit_windowMs := 15 * 60 * 1000;
  rateLimit_max := 100
|}.

(** The [origin] callback of the CORS middleware of server.js: [Ok true]
    is [callback(null, true)], [Throw] the error given to the callback. *)
Definition cors_origin (allowed : list string) (origin : option string) : outcome bool :=
  match origin with
  | None => Ok true
  | Some o =>
      if String.eqb o "" then Ok true
      else if includes allowed o then Ok true
      else Throw (new_Error P "Not allowed by CORS")
  end.

End Service2.

(** ** A simulated runtime for the whole service *)

Module Sim2.

(** A runtime whose [decodeURIComponent] refuses every percent sign. *)
Definition strict_platform : platform := {|
  number_to_string := number_to_string Sim.platform;
  decodeURIComponent := fun s => if lacks "%" s then Some s else None;
  capture_stack := capture_stack Sim.platform;
  cloudinary_url := cloudinary_url Sim.platform;
  NODE_ENV := VStr "development"
|}.

Definition denial : object :=
  [("message", VStr "Invalid credentials");
   ("error", VObj [("message", VStr "Invalid credentials"); ("http_code", VInt 401)])].

(** A provider that denies access: it rejects every call, except that it
    resolves the deletion of 'locked' with the result 'error' and a bulk
    deletion without report. *)
Definition denied : world Sim.state := fun X e =>
  match e in event X return Sim.state -> X * Sim.state with
  | UploadStream _ _ => fun s => (Throw denial, s)
  | ApiResource _ _ => fun s => (Throw denial, s)
  | Destroy publicId => fun s =>
      (if String.eqb publicId "locked" then Ok [("result", VStr "error")]
       else Throw denial, s)
  | DeleteResources _ => fun s => (Ok [("partial", VBool true)], s)
  | ApiUsage => fun s => (Throw denial, s)
  | e => Sim.world _ e
  end.

(** The digits a string starts with, most significant first. *)
Fixpoint leading_digits (s : string) : list nat :=
  match s with
  | String c r =>
      if (48 <=? nat_of_ascii c)%nat && (nat_of_ascii c <=? 57)%nat
      then (nat_of_ascii c - 48)%nat :: leading_digits r
      else []
  | EmptyString => []
  end.

Definition digits_value (ds : list nat) : Z :=
  fold_left (fun acc d => (10 * acc + Z.of_nat d)%Z) ds 0%Z.

(** Enough of the builtins for unsigned decimal numerals. *)
Definition builtins : builtins := {|
  parseInt := fun s =>
    match leading_digits s with
    | [] => None
    | ds => Some (digits_value ds)
    end;
  StringToNumber := fun s =>
    if (length (leading_digits s) =? String.length s)%nat
    then Num (inject_Z (digits_value (leading_digits s)))
    else NaN;
  joi_number := fun s =>
    if (length (leading_digits s) =? String.length s)%nat
       && negb (String.eqb s "")
    then Some (Some (inject_Z (digits_value (leading_digits s))))
    else None
|}.

(** The provider lists the assets it stores, the newest first, and
    searches likewise; the clock stands still. *)
Definition world : world2 Sim.state := fun X e =>
  match e in event2 X return Sim.state -> X * Sim.state with
  | Base e => Sim.world _ e
  | ApiResources _ => fun s =>
      (Ok [("resources", VArr (map (fun id => VObj (Sim.asset id)) s));
           ("total_count", VInt (Z.of_nat (length s)))], s)
  | SearchExecute _ _ _ => fun s =>
      (Ok [("resources", VArr (map (fun id => VObj (Sim.asset id)) s));
           ("total_count", VInt (Z.of_nat (length s)))], s)
  | ApiPing => fun s => (Ok [("status", VStr "ok")], s)
  | ConsoleLog _ => fun s => (tt, s)
  | DateNow => fun s => ("2025-11-05T00:00:00.000Z", s)
  | ProcessUptime => fun s => (inject_Z 1, s)
  end.

(** The same world with the provider out of reach. *)
Definition offline : world2 Sim.state := fun X e =>
  match e in event2 X return Sim.state -> X * Sim.state with
  | ApiResources _ => fun s => (Throw [("message", VStr "getaddrinfo ENOTFOUND")], s)
  | SearchExecute _ _ _ => fun s => (Throw [("message", VStr "getaddrinfo ENOTFOUND")], s)
  | ApiPing => fun s => (Throw [("message", VStr "getaddrinfo ENOTFOUND")], s)
  | e => world _ e
  end.

(** A request with only a query string. *)
Definition with_query (q : object) : request :=
  {| params := []; query := q; body := []; files := None |}.

(** An environment that sets the given variables. *)
Definition env_of (vars : list (string * string)) (k : string) : option string :=
  option_map snd (find (fun kv => String.eqb k (fst kv)) vars).

End Sim2.

(** ** Vocabulary of the further properties *)

(** A non-empty string of at most 100 characters. *)
Definition is_short_string (v : value) : Prop :=
  exists s, v = VStr s /\ s <> "" /\ (String.length s <= 100)%nat.

(** A non-empty string. *)
Definition is_nonempty_string (v : value) : Prop :=
  exists s, v = VStr s /\ s <> "".

(** A non-empty string, or an array of non-empty strings. *)
Definition is_tags (v : value) : Prop :=
  (exists s, v = VStr s /\ s <> "")
  \/ (exists ts, v = VArr (map VStr ts) /\ Forall (fun t => t <> "") ts).

(** A boolean, or the word true or false in any letter case. *)
Definition is_boolean_like (v : value) : Prop :=
  (exists b, v = VBool b)
  \/ (exists s, v = VStr s /\ (toLowerCase s = "true" \/ toLowerCase s = "false")).

(** An optional key: absent, or as [ok] requires. *)
Definition optional (ok : value -> Prop) (v : value) : Prop :=
  v = VUndefined \/ ok v.

Definition result_of2 {S A} (r : A * S * list call2) : A := fst (fst r).
Definition state_of2 {S A} (r : A * S * list call2) : S := snd (fst r).
Definition trace_of2 {S A} (r : A * S * list call2) : list call2 := snd r.

(** ** Properties *)

Ltac splits := repeat match goal with |- _ /\ _ => split end.
Ltac finish :=
  intros; splits; first [reflexivity | contradiction | congruence | assumption].

Section Properties.

Variable P : platform.
Variable config : app_config.
Variable S : Type.
Variable w : world S.

Lemma run_bind A B (p : prog A) (f : A -> prog B) (s : S) :
  run w (bind p f) s =
  let '(a, s1, t1) := run w p s in
  let '(b, s2, t2) := run w (f a) s1 in
  (b, s2, t1 ++ t2).
Proof.
  revert s. induction p as [a | X e k IH]; intros s; simpl.
  - destruct (run w (f a) s) as [[b s2] t2]. reflexivity.
  - destruct (w X e s) as [x s1]. rewrite IH.
    destruct (run w (k x) s1) as [[a s2] t1].
    destruct (run w (f a) s2) as [[b s3] t2]. reflexivity.
Qed.

Lemma run_perform X (e : event X) (s : S) :
  run w (perform e) s = (fst (w _ e s), snd (w _ e s), [Call e]).
Proof. simpl. destruct (w X e s). reflexivity. Qed.

(** A request rejected by a validator is answered without any call. *)
Lemma route_rejected validators handler req resp (s : S) :
  first_response validators req = Some resp ->
  run w (route P validators handler req) s = (resp, s, []).
Proof. intros H. unfold route. rewrite H. reflexivity. Qed.

Lemma field_single (k : string) fs (f : file) :
  field k fs = Some f <-> files_under k fs = Single f.
Proof.
  unfold field. destruct (files_under k fs); split; congruence.
Qed.

(** [fileUpload] aborts an upload that carries a file bigger than the
    limit, under any field. *)
Lemma fileUpload_aborts (req : request) fs (k : string) (f : file) :
  files req = Some fs ->
  In (k, f) fs ->
  (size f > maxFileSize config)%Z ->
  fileUpload config req
  = Some {| status := VInt 413; json := VStr "File size limit has been reached" |}.
Proof.
  intros Hfs Hin Hsize. unfold fileUpload. rewrite Hfs.
  assert (H : existsb (fun kf => (size (snd kf) >? maxFileSize config)%Z) fs = true).
  { apply existsb_exists. exists (k, f). split; [exact Hin |].
    cbn. apply Z.gtb_lt. lia. }
  rewrite H. reflexivity.
Qed.

Lemma validatePublicId_accepts req :
  validatePublicId req = None ->
  exists id, get "publicId" (params req) = VStr id /\ id <> "".
Proof.
  unfold validatePublicId, Joi.validate_object, publicIdSchema. simpl.
  unfold Joi.validate_key. simpl.
  destruct (get "publicId" (params req)) as [| |b|q|id|l|o]; try discriminate.
  destruct (String.eqb_spec id ""); try discriminate.
  intros _. exists id. split; [reflexivity | assumption].
Qed.

(** C1: when the gateway reports not-found (http_code 404) for the
    identifier of a GET /images/:id request, the service answers with the
    body error "Image not found" and success false, but with status 500:
    the error thrown by [getImage] carries no status. *)
Theorem get_missing_image_status (req : request) (id : string) (err : object) (s s1 : S) :
  validatePublicId req = None ->
  decoded_publicId P req = Ok id ->
  w _ (ApiResource id [("resource_type", VStr "image")]) s = (Throw err, s1) ->
  is_num (get_prop (get "error" err) "http_code") 404 = true ->
  let resp := result_of (run w (get_route P req) s) in
  status resp = VInt 500
  /\ get_prop (json resp) "success" = VBool false
  /\ get_prop (json resp) "error" = VStr "Image not found".
Proof.
  intros Hv Hd Hw H404. unfold get_route, route. cbn. rewrite Hv.
  unfold asyncHandler. rewrite Hd. cbn. rewrite Hw. cbn. rewrite H404. cbn.
  destruct (w unit _ s1) as [[] s2]. cbn.
  repeat split; reflexivity.
Qed.


(** What [optimizeImage] does in every world: it resolves, it makes no
    gateway call, and its result is the input when sharp rejects it or
    when the media type is SVG. *)
Lemma optimizeImage_runs (buf : buffer) (mime : string) (s : S) :
  exists out s' t,
    run w (optimizeImage buf mime) s = (Ok out, s', t)
    /\ gateway_calls t = []
    /\ (sharp_rejects w s buf -> out = buf)
    /\ (mime = "image/svg+xml" -> out = buf /\ t = [])
    /\ (mime <> "image/svg+xml" -> existsb is_sharp_call t = true).
Proof.
  unfold optimizeImage, try_catch, and_then.
  destruct (String.eqb_spec mime "image/svg+xml") as [Hsvg | Hsvg].
  - exists buf, s, []. cbn. splits; finish.
  - cbn. destruct (w _ (Sharp buf) s) as [[[] | e] s0] eqn:Hnew; cbn.
    + destruct (w _ (SharpMetadata buf) s0) as [[m | e] s1] eqn:Hm; cbn.
      * destruct (w _ (SharpToBuffer buf (pipeline m)) s1) as [[out | e] s2] eqn:Hb; cbn.
        -- exists out, s2,
             [Call (Sharp buf); Call (SharpMetadata buf);
              Call (SharpToBuffer buf (pipeline m))].
           splits; try finish.
           intros [(e & s' & He)
                  | [(s0' & e & s' & Hnew' & Hm')
                    | (s0' & m' & s1' & e & s2' & Hnew' & Hm' & Hb')]];
             [congruence | |].
           ++ assert (s0' = s0) by congruence. subst. congruence.
           ++ assert (s0' = s0) by congruence. subst.
              assert (m' = m) by congruence. assert (s1' = s1) by congruence. subst.
              congruence.
        -- destruct (w unit _ s2) as [[] s3]. cbn.
           eexists buf, s3, _. splits; finish.
      * destruct (w unit _ s1) as [[] s2]. cbn.
        eexists buf, s2, _. splits; finish.
    + destruct (w unit _ s0) as [[] s1]. cbn.
      eexists buf, s1, _. splits; finish.
Qed.

(** The bytes [uploadImage] hands to the gateway, and how it ends. *)
Lemma uploadImage_runs (f : file) (options : object) (s : S) :
  exists buf s1 t1,
    gateway_calls t1 = []
    /\ trace_of (run w (uploadImage P (Some f) options) s)
       = t1 ++ [Call (UploadStream (upload_stream_options options) buf)]
    /\ (forall result s2,
          w _ (UploadStream (upload_stream_options options) buf) s1 = (Ok result, s2) ->
          exists v, result_of (run w (uploadImage P (Some f) options) s) = Ok v)
    /\ (forall err,
          result_of (run w (uploadImage P (Some f) options) s) = Throw err ->
          exists e s2,
            w _ (UploadStream (upload_stream_options options) buf) s1 = (Throw e, s2))
    /\ (sharp_rejects w s (data f) -> buf = data f)
    /\ (is_false (get "optimize" options) = true \/ mimetype f = "image/svg+xml" ->
        buf = data f /\ t1 = [])
    /\ (is_false (get "optimize" options) = false -> mimetype f <> "image/svg+xml" ->
        existsb is_sharp_call t1 = true).
Proof.
  assert (Hopt : exists buf s1 t1,
             run w (if negb (is_false (get "optimize" options))
                    then optimizeImage (data f) (mimetype f)
                    else resolve (data f)) s = (Ok buf, s1, t1)
             /\ gateway_calls t1 = []
             /\ (sharp_rejects w s (data f) -> buf = data f)
             /\ (is_false (get "optimize" options) = true
                 \/ mimetype f = "image/svg+xml" -> buf = data f /\ t1 = [])
             /\ (is_false (get "optimize" options) = false ->
                 mimetype f <> "image/svg+xml" -> existsb is_sharp_call t1 = true)).
  { destruct (is_false (get "optimize" options)) eqn:Hflag; cbn.
    - exists (data f), s, []. splits; try reflexivity; try discriminate.
      intros _. split; reflexivity.
    - destruct (optimizeImage_runs (data f) (mimetype f) s)
        as (out & s' & t & Hrun & Hgw & Hrej & Hsvg & Hsharp).
      exists out, s', t. splits; try assumption.
      + intros [H | H]; [discriminate | apply Hsvg, H].
      + intros _. exact Hsharp. }
  destruct Hopt as (buf & s1 & t1 & Hrun & Hgw & Hrej & Hskip & Hsharp).
  exists buf, s1, t1.
  unfold uploadImage, try_catch, and_then, result_of, trace_of.
  rewrite !run_bind, Hrun. cbn.
  destruct (w _ (UploadStream (upload_stream_options options) buf) s1)
    as [[result | e] s2] eqn:Hup; cbn.
  - rewrite ?app_nil_r. splits; try assumption; try reflexivity.
    + intros. eexists. reflexivity.
    + discriminate.
  - rewrite ?app_nil_r. splits; try assumption; try reflexivity.
    + discriminate.
    + intros. exists e, s2. reflexivity.
Qed.

Lemma gateway_calls_app (t1 t2 : list call) :
  gateway_calls (t1 ++ t2) = gateway_calls t1 ++ gateway_calls t2.
Proof. apply filter_app. Qed.

Lemma run_errorHandler (err : object) (s : S) :
  run w (errorHandler P err) s =
  (error_response P err,
   snd (w _ (ConsoleError [VStr "Error:"; VObj err]) s),
   [Call (ConsoleError [VStr "Error:"; VObj err])]).
Proof.
  unfold errorHandler. cbn.
  destruct (w unit (ConsoleError [VStr "Error:"; VObj err]) s). reflexivity.
Qed.

(** The upload route on a request its validators let through. *)
Lemma upload_route_runs (req : request) fs (f : file) (s : S) :
  first_response [validateFileUpload P config; validateUploadOptions] req = None ->
  files req = Some fs ->
  field "image" fs = Some f ->
  run w (upload_route P config req) s =
  let '(r, s1, t1) := run w (uploadImage P (Some f) (upload_options (body req))) s in
  match r with
  | Ok v => ({| status := VInt 201; json := v |}, s1, t1)
  | Throw err =>
      let '(resp, s2, t2) := run w (errorHandler P err) s1 in (resp, s2, t1 ++ t2)
  end.
Proof.
  intros Hv Hfs Hf. unfold upload_route, route. rewrite Hv.
  unfold asyncHandler, upload_handler. rewrite Hfs, Hf.
  unfold and_then. rewrite !run_bind.
  destruct (run w (uploadImage P (Some f) (upload_options (body req))) s)
    as [[[v | err] s1] t1]; cbn -[errorHandler].
  - rewrite !app_nil_r. reflexivity.
  - rewrite !app_nil_r. reflexivity.
Qed.

(** C2: [optimizeImage] never raises. In every world it resolves; when
    sharp fails on the buffer (at [sharp(buffer)], in the decoder at
    [metadata()] or in the encoder at [toBuffer()]) it resolves with the
    input buffer; the upload then
    hands the original bytes to the gateway, it can only fail when the
    gateway call itself fails, and the upload route answers 201 when the
    gateway accepts the bytes. *)
Theorem optimizeImage_never_raises (buf : buffer) (mime : string) (s : S) :
  (exists out, result_of (run w (optimizeImage buf mime) s) = Ok out)
  /\ (sharp_rejects w s buf ->
      result_of (run w (optimizeImage buf mime) s) = Ok buf)
  /\ (forall f options,
        data f = buf -> sharp_rejects w s buf ->
        gateway_calls (trace_of (run w (uploadImage P (Some f) options) s))
        = [Call (UploadStream (upload_stream_options options) buf)])
  /\ (forall f options err,
        result_of (run w (uploadImage P (Some f) options) s) = Throw err ->
        exists b s1 e s2,
          w _ (UploadStream (upload_stream_options options) b) s1 = (Throw e, s2))
  /\ (forall req fs f,
        first_response [validateFileUpload P config; validateUploadOptions] req = None ->
        files req = Some fs -> field "image" fs = Some f -> data f = buf ->
        sharp_rejects w s buf ->
        (forall s1, exists result s2,
            w _ (UploadStream (upload_stream_options (upload_options (body req))) buf) s1
            = (Ok result, s2)) ->
        status (result_of (run w (upload_route P config req) s)) = VInt 201).
Proof.
  destruct (optimizeImage_runs buf mime s) as (out & s' & t & Hrun & _ & Hrej & _).
  splits.
  - exists out. rewrite Hrun. reflexivity.
  - intros H. rewrite Hrun. cbn. rewrite (Hrej H). reflexivity.
  - intros f options Hdata H. subst buf.
    destruct (uploadImage_runs f options s)
      as (b & s1 & t1 & Hgw & Htr & _ & _ & Hb & _).
    rewrite Htr, gateway_calls_app, Hgw, (Hb H). reflexivity.
  - intros f options err H.
    destruct (uploadImage_runs f options s)
      as (b & s1 & t1 & _ & _ & _ & Hfail & _).
    destruct (Hfail err H) as (e & s2 & He). exists b, s1, e, s2. exact He.
  - intros req fs f Hv Hfs Hf Hdata H Hgate. subst buf.
    rewrite (upload_route_runs req fs f s Hv Hfs Hf).
    destruct (uploadImage_runs f (upload_options (body req)) s)
      as (b & s1 & t1 & _ & _ & Hok & _ & Hb & _).
    rewrite (Hb H) in Hok. destruct (Hgate s1) as (result & s2 & Hup).
    destruct (Hok result s2 Hup) as (v & Hv').
    destruct (run w (uploadImage P (Some f) (upload_options (body req))) s)
      as [[r s3] t3]. cbn in Hv'. subst r. reflexivity.
Qed.

(** C6: when the optimize flag is false or the declared media type is
    image/svg+xml, the only gateway call of the upload is the upload
    stream, it carries the bytes of the uploaded file, and sharp is never
    called; so it is on the upload route, for every request its validators
    let through. *)
Theorem upload_bytes_untouched (f : file) (options : object) (s : S) :
  is_false (get "optimize" options) = true \/ mimetype f = "image/svg+xml" ->
  gateway_calls (trace_of (run w (uploadImage P (Some f) options) s))
  = [Call (UploadStream (upload_stream_options options) (data f))]
  /\ existsb is_sharp_call (trace_of (run w (uploadImage P (Some f) options) s)) = false
  /\ (forall req fs,
        first_response [validateFileUpload P config; validateUploadOptions] req = None ->
        files req = Some fs -> field "image" fs = Some f ->
        options = upload_options (body req) ->
        exists t,
          gateway_calls (trace_of (run w (upload_route P config req) s))
          = Call (UploadStream (upload_stream_options options) (data f))
              :: gateway_calls t
          /\ existsb is_sharp_call t = false
          /\ (forall c, In c t -> exists args, c = Call (ConsoleError args))).
Proof.
  intros Hskip.
  destruct (uploadImage_runs f options s)
    as (b & s1 & t1 & _ & Htr & _ & _ & _ & Hb & _).
  destruct (Hb Hskip) as [-> ->]. rewrite app_nil_l in Htr. splits.
  - rewrite Htr. reflexivity.
  - rewrite Htr. reflexivity.
  - intros req fs Hv Hfs Hf ->.
    rewrite (upload_route_runs req fs f s Hv Hfs Hf).
    destruct (run w (uploadImage P (Some f) (upload_options (body req))) s)
      as [[[v | err] s2] t2]; unfold trace_of in Htr; simpl snd in Htr; subst t2.
    + exists []. cbn. splits; try reflexivity. intros c [].
    + rewrite run_errorHandler. cbn.
      exists [Call (ConsoleError [VStr "Error:"; VObj err])]. cbn. splits; try reflexivity.
      intros c [<- | []]. eexists. reflexivity.
Qed.


(** C8: an upload that carries a file larger than the configured maximum,
    under [image] or any other field, is answered 413 by the application,
    not 400: [fileUpload], mounted before the router with the same limit and
    [abortOnLimit], ends the request with the text 'File size limit has been
    reached'. The world is left as it was and no call is made: no gateway
    call, no sharp call. The size check of [validateFileUpload] is what
    would answer 400, with success false and without any call, were the
    request with the one file under [image] handed to the route. *)
Theorem oversized_upload_aborted (req : request) fs (k : string) (f : file) (s : S) :
  files req = Some fs ->
  In (k, f) fs ->
  (size f > maxFileSize config)%Z ->
  run w (app_upload P config req) s
  = ({| status := VInt 413; json := VStr "File size limit has been reached" |}, s, [])
  /\ (field "image" fs = Some f ->
      exists resp,
        run w (upload_route P config req) s = (resp, s, [])
        /\ status resp = VInt 400
        /\ get_prop (json resp) "success" = VBool false).
Proof.
  intros Hfs Hin Hsize. split.
  - unfold app_upload. rewrite (fileUpload_aborts req fs k f Hfs Hin Hsize). reflexivity.
  - intros Hf.
    assert (Hgt : (size f >? maxFileSize config)%Z = true) by (apply Z.gtb_lt; lia).
    apply field_single in Hf.
    eexists. split.
    + apply route_rejected. cbn. unfold validateFileUpload.
      rewrite Hfs, Hf, Hgt. reflexivity.
    + split; reflexivity.
Qed.

Lemma is_str_true (v : value) (lit : string) :
  is_str v lit = true <-> v = VStr lit.
Proof.
  destruct v; cbn; try (split; [discriminate | congruence]).
  rewrite String.eqb_eq. split; congruence.
Qed.

Lemma includes_In (l : list string) (x : string) :
  includes l x = true <-> In x l.
Proof.
  unfold includes. rewrite existsb_exists. split.
  - intros (y & Hy & E). apply String.eqb_eq in E. subst. assumption.
  - intros H. exists x. split; [assumption | apply String.eqb_refl].
Qed.

(** C4: once the file is present, within the size limit and of an allowed
    extension, the validator accepts the declared media type if and only
    if it is one of six strings: the five of jpeg, png, gif, webp and svg,
    and image/jpg. Any other media type is answered 400 by the route
    without any call. *)
Theorem media_type_allow_list (req : request) fs (f : file) :
  files req = Some fs ->
  field "image" fs = Some f ->
  (size f <= maxFileSize config)%Z ->
  includes (allowedFormats config) (fileExtension f) = true ->
  (validateFileUpload P config req = None <->
   In (mimetype f)
     ["image/jpeg"; "image/jpg"; "image/png"; "image/gif"; "image/webp";
      "image/svg+xml"])
  /\ (~ In (mimetype f)
        ["image/jpeg"; "image/jpg"; "image/png"; "image/gif"; "image/webp";
         "image/svg+xml"] ->
      forall s,
        run w (upload_route P config req) s
        = ({| status := VInt 400;
              json := VObj [("success", VBool false);
                            ("error",
                             VStr "Invalid file type. Please upload an image file.")] |},
           s, [])).
Proof.
  intros Hfs Hf Hsize Hext.
  assert (Hle : (size f >? maxFileSize config)%Z = false).
  { destruct (size f >? maxFileSize config)%Z eqn:E; [| reflexivity].
    apply Z.gtb_lt in E. lia. }
  assert (Hv : validateFileUpload P config req
               = if includes validMimetypes (mimetype f) then None
                 else Some (bad_request "Invalid file type. Please upload an image file.")).
  { unfold validateFileUpload.
    rewrite Hfs, (proj1 (field_single _ _ _) Hf), Hle, Hext. cbn [negb].
    destruct (includes validMimetypes (mimetype f)); reflexivity. }
  change ["image/jpeg"; "image/jpg"; "image/png"; "image/gif"; "image/webp";
          "image/svg+xml"] with validMimetypes.
  split.
  - rewrite Hv, <- includes_In.
    destruct (includes validMimetypes (mimetype f)); split; congruence.
  - intros Hnot s. apply route_rejected. cbn [first_response]. rewrite Hv.
    destruct (includes validMimetypes (mimetype f)) eqn:E; [| reflexivity].
    apply includes_In in E. contradiction.
Qed.


Lemma split_nonempty (c : ascii) (s : string) : split c s <> [].
Proof.
  destruct s as [| a r]; cbn; [discriminate |].
  destruct (Ascii.eqb a c); [discriminate |].
  destruct (split c r); discriminate.
Qed.

Lemma split_lacks (c : ascii) (s : string) : lacks c s = true -> split c s = [s].
Proof.
  induction s as [| a r IH]; cbn; [reflexivity |].
  destruct (Ascii.eqb a c); cbn; [discriminate |].
  intros H. rewrite (IH H). reflexivity.
Qed.

Lemma split_at (c : ascii) (pre rest : string) :
  split c (pre ++ String c rest) = split c pre ++ split c rest.
Proof.
  induction pre as [| a r IH]; cbn.
  - rewrite Ascii.eqb_refl. reflexivity.
  - destruct (Ascii.eqb a c); rewrite IH; [reflexivity |].
    destruct (split c r) as [| h t] eqn:E; [| reflexivity].
    exfalso. exact (split_nonempty c r E).
Qed.

(** [name.split('.').pop()]: what follows the last dot. *)
Lemma pop_split_after_dot (pre ext : string) :
  lacks "." ext = true -> pop (split "." (pre ++ "." ++ ext)) = ext.
Proof.
  intros H. change (pre ++ "." ++ ext)%string with (pre ++ String "." ext)%string.
  rewrite split_at, (split_lacks _ _ H). apply last_last.
Qed.

(** C10: the extension is what follows the last dot of the file name (the
    whole name when it has no dot), lowercased; the allow-list is compared
    as configured. So a file whose extension differs only in letter case
    from a lowercase entry of the allow-list passes the format check, and
    with a valid size and media type the validator lets it through. *)
Theorem extension_check_lowercases_the_file (req : request) fs (f : file) :
  files req = Some fs ->
  field "image" fs = Some f ->
  (forall pre ext,
      name f = (pre ++ "." ++ ext)%string -> lacks "." ext = true ->
      fileExtension f = toLowerCase ext)
  /\ (lacks "." (name f) = true -> fileExtension f = toLowerCase (name f))
  /\ (forall entry,
        In entry (allowedFormats config) ->
        toLowerCase entry = entry ->
        same_letters (pop (split "." (name f))) entry ->
        includes (allowedFormats config) (fileExtension f) = true
        /\ ((size f <= maxFileSize config)%Z ->
            In (mimetype f) validMimetypes ->
            validateFileUpload P config req = None)).
Proof.
  intros Hfs Hf. splits.
  - intros pre ext Hname Hext. unfold fileExtension.
    rewrite Hname, pop_split_after_dot by assumption. reflexivity.
  - intros Hname. unfold fileExtension. rewrite (split_lacks _ _ Hname). reflexivity.
  - intros entry Hin Hlow Hsame.
    assert (Hext : includes (allowedFormats config) (fileExtension f) = true).
    { apply includes_In. unfold fileExtension.
      unfold same_letters in Hsame. rewrite Hsame, Hlow. assumption. }
    split; [assumption |].
    intros Hsize Hmime. unfold validateFileUpload.
    rewrite Hfs, (proj1 (field_single _ _ _) Hf), Hext.
    apply includes_In in Hmime. rewrite Hmime.
    destruct (size f >? maxFileSize config)%Z eqn:E; [| reflexivity].
    apply Z.gtb_lt in E. lia.
Qed.

(** The items of an array that passes [Joi.array().items(Joi.string())]
    are non-empty strings. *)
Lemma validate_items_strings (p : Joi.path) (l : list value) (i : nat) :
  Joi.validate_items (Joi.validate (Joi.string_ None)) p i l = None <->
  exists ids, strings_of l = Some ids /\ Forall (fun id => id <> "") ids.
Proof.
  revert i. induction l as [| x r IH]; intros i; cbn.
  - split; [| reflexivity]. intros _. exists []. split; [reflexivity | constructor].
  - destruct x as [| | b | q | id | l' | o]; cbn;
      try (split; [discriminate | intros (ids & H & _); discriminate]).
    destruct (String.eqb_spec id "") as [-> | Hne]; cbn.
    + split; [discriminate |]. intros (ids & H & Hall).
      destruct (strings_of r); cbn in H; [| discriminate].
      injection H as <-. inversion Hall. congruence.
    + rewrite IH. split.
      * intros (ids & H & Hall). exists (id :: ids). rewrite H. cbn.
        split; [reflexivity | constructor; assumption].
      * intros (ids & H & Hall).
        destruct (strings_of r) as [ids' |]; cbn in H; [| discriminate].
        injection H as <-. inversion Hall; subst. exists ids'.
        split; [reflexivity | assumption].
Qed.

Lemma strings_of_map (l : list value) (ids : list string) :
  strings_of l = Some ids -> l = map VStr ids.
Proof.
  revert ids. induction l as [| x r IH]; intros ids; cbn.
  - intros [= <-]. reflexivity.
  - destruct x; try discriminate.
    destruct (strings_of r) as [ids' |]; cbn; [| discriminate].
    intros [= <-]. cbn. rewrite (IH ids' eq_refl). reflexivity.
Qed.


Lemma validate_array items min max (p : Joi.path) (l : list value) :
  Joi.validate (Joi.array_ items min max) p (VArr l) =
  match Joi.validate_items (Joi.validate items) p 0 l with
  | Some e => Some e
  | None =>
      match Joi.check_min p min (length l) with
      | Some e => Some e
      | None => Joi.check_max p max (length l)
      end
  end.
Proof. reflexivity. Qed.

(** What [Joi.array().items(Joi.string()).min(1).max(100)] accepts. *)
Lemma publicIds_rule (v : value) :
  Joi.validate (Joi.array_ (Joi.string_ None) (Some 1%nat) (Some 100%nat))
    [Joi.Key "publicIds"] v = None <->
  exists ids,
    v = VArr (map VStr ids)
    /\ (1 <= length ids <= 100)%nat
    /\ Forall (fun id => id <> "") ids.
Proof.
  destruct v as [| | b | q | id | l | o];
    try (split; [discriminate | intros (ids & H & _); discriminate]).
  rewrite validate_array.
  destruct (Joi.validate_items (Joi.validate (Joi.string_ None))
              [Joi.Key "publicIds"] 0 l) as [e |] eqn:Hitems.
  - split; [discriminate |]. intros (ids & H & _ & Hall).
    assert (Hnone : Joi.validate_items (Joi.validate (Joi.string_ None))
                      [Joi.Key "publicIds"] 0 l = None).
    { apply validate_items_strings. exists ids. split; [| assumption].
      injection H as ->. clear. induction ids as [| x r IH]; cbn.
      - reflexivity.
      - rewrite IH. reflexivity. }
    congruence.
  - apply validate_items_strings in Hitems. destruct Hitems as (ids & Hids & Hall).
    apply strings_of_map in Hids. subst l.
    unfold Joi.check_min, Joi.check_max. rewrite length_map.
    destruct (length ids <? 1)%nat eqn:Hmin.
    + apply Nat.ltb_lt in Hmin. split; [discriminate |].
      intros (ids' & H & Hlen & _). injection H as H.
      apply (f_equal (@length _)) in H. rewrite !length_map in H. lia.
    + apply Nat.ltb_ge in Hmin.
      destruct (100 <? length ids)%nat eqn:Hmax.
      * apply Nat.ltb_lt in Hmax. split; [discriminate |].
        intros (ids' & H & Hlen & _). injection H as H.
        apply (f_equal (@length _)) in H. rewrite !length_map in H. lia.
      * apply Nat.ltb_ge in Hmax. split; [| reflexivity].
        intros _. exists ids. splits; try reflexivity; try lia. assumption.
Qed.

(** C5: a bulk-delete request is accepted only when [publicIds] is an
    array of 1 to 100 non-empty strings; the identifiers need not be
    distinct. A body that holds exactly such an array is accepted, and
    every request the validator refuses (among them the empty array and
    an array of more than 100 entries) is answered 400 without any call. *)
Theorem bulk_delete_validation (req : request) :
  (validateBulkDelete req = None ->
   exists ids,
     get "publicIds" (body req) = VArr (map VStr ids)
     /\ (1 <= length ids <= 100)%nat
     /\ Forall (fun id => id <> "") ids)
  /\ (forall ids,
        body req = [("publicIds", VArr (map VStr ids))] ->
        (1 <= length ids <= 100)%nat ->
        Forall (fun id => id <> "") ids ->
        validateBulkDelete req = None)
  /\ (forall resp,
        validateBulkDelete req = Some resp ->
        status resp = VInt 400
        /\ forall s, run w (bulk_delete_route P req) s = (resp, s, []))
  /\ (forall l,
        get "publicIds" (body req) = VArr l ->
        (length l = 0 \/ 100 < length l)%nat ->
        exists resp, validateBulkDelete req = Some resp).
Proof.
  assert (Hkey : forall o,
             Joi.validate_key o
               {| Joi.name := "publicIds";
                  Joi.rule := Joi.array_ (Joi.string_ None) (Some 1%nat) (Some 100%nat);
                  Joi.required := true |} = None ->
             exists ids,
               get "publicIds" o = VArr (map VStr ids)
               /\ (1 <= length ids <= 100)%nat
               /\ Forall (fun id => id <> "") ids).
  { intros o. unfold Joi.validate_key. cbn [Joi.name Joi.rule Joi.required].
    intros H.
    assert (Hrule : Joi.validate
                      (Joi.array_ (Joi.string_ None) (Some 1%nat) (Some 100%nat))
                      [Joi.Key "publicIds"] (get "publicIds" o) = None).
    { destruct (get "publicIds" o); try exact H; discriminate. }
    apply publicIds_rule in Hrule. exact Hrule. }
  splits.
  - unfold validateBulkDelete, Joi.validate_object, bulkDeleteSchema.
    cbn [Joi.first_error].
    destruct (Joi.validate_key (body req) _) eqn:E; [discriminate |].
    intros _. apply Hkey. exact E.
  - intros ids Hbody Hlen Hall.
    unfold validateBulkDelete, Joi.validate_object, bulkDeleteSchema. rewrite Hbody.
    cbn [Joi.first_error]. unfold Joi.validate_key.
    cbn [Joi.name Joi.rule Joi.required get String.eqb Ascii.eqb Bool.eqb].
    assert (Hrule : Joi.validate
                      (Joi.array_ (Joi.string_ None) (Some 1%nat) (Some 100%nat))
                      [Joi.Key "publicIds"] (VArr (map VStr ids)) = None).
    { apply publicIds_rule. exists ids. splits; try reflexivity; try lia. assumption. }
    rewrite Hrule. reflexivity.
  - intros resp H. split.
    + unfold validateBulkDelete in H.
      destruct (Joi.validate_object bulkDeleteSchema (body req)); [| discriminate].
      injection H as <-. reflexivity.
    + intros s. apply route_rejected. cbn [first_response]. rewrite H. reflexivity.
  - intros l Hl Hlen.
    destruct (validateBulkDelete req) as [resp |] eqn:E; [exists resp; reflexivity |].
    exfalso. unfold validateBulkDelete, Joi.validate_object, bulkDeleteSchema in E.
    cbn [Joi.first_error] in E.
    destruct (Joi.validate_key (body req) _) eqn:E'; [discriminate |].
    apply Hkey in E'. destruct E' as (ids & Hids & Hlen' & _).
    rewrite Hl in Hids. injection Hids as ->. rewrite length_map in Hlen. lia.
Qed.

(** C3: a successful answer of GET /images/stats/usage has status 200 and
    its data holds [used] and [limit] for storage, bandwidth,
    transformations and credits, and [percentage] for storage, bandwidth
    and credits; [percentage] has no entry for transformations. *)
Theorem stats_entries (req : request) (s : S) :
  let resp := result_of (run w (stats_route P req) s) in
  get_prop (json resp) "success" = VBool true ->
  status resp = VInt 200
  /\ forall group resource,
      In group ["used"; "limit"; "percentage"] ->
      In resource ["storage"; "bandwidth"; "transformations"; "credits"] ->
      has_entry (get_prop (json resp) "data") group resource
      = negb (String.eqb group "percentage" && String.eqb resource "transformations").
Proof.
  unfold stats_route, route, asyncHandler, getStats, try_catch, and_then. cbn.
  destruct (w _ ApiUsage s) as [[usage | e] s1]; cbn.
  - intros _. split; [reflexivity |].
    intros group resource Hg Hr. cbn in Hg, Hr.
    repeat match goal with H : _ \/ _ |- _ => destruct H as [<- | H] end;
      try contradiction; reflexivity.
  - destruct (w unit _ s1) as [[] s2]. cbn.
    destruct (is_str (NODE_ENV P) "development"); cbn; discriminate.
Qed.

(** C7: DELETE /images/:id answers 200 with success true whether the
    gateway reports 'ok' (message 'Image deleted successfully') or
    'not found' (message 'Image not found'); so deleting the same
    identifier twice succeeds both times. *)
Theorem delete_is_idempotent (req : request) (id : string) :
  validatePublicId req = None ->
  decoded_publicId P req = Ok id ->
  (forall s s1 r,
      w _ (Destroy id) s = (Ok r, s1) ->
      get "result" r = VStr "ok" ->
      run w (delete_route P req) s
      = (res_json (VObj [("success", VBool true);
                         ("message", VStr "Image deleted successfully");
                         ("publicId", VStr id)]),
         s1, [Call (Destroy id)]))
  /\ (forall s s1 r,
        w _ (Destroy id) s = (Ok r, s1) ->
        get "result" r = VStr "not found" ->
        run w (delete_route P req) s
        = (res_json (VObj [("success", VBool true);
                           ("message", VStr "Image not found");
                           ("publicId", VStr id)]),
           s1, [Call (Destroy id)]))
  /\ (forall s0 s1 s2 r1 r2,
        w _ (Destroy id) s0 = (Ok r1, s1) ->
        get "result" r1 = VStr "ok" ->
        w _ (Destroy id) s1 = (Ok r2, s2) ->
        get "result" r2 = VStr "not found" ->
        let first := run w (delete_route P req) s0 in
        let second := run w (delete_route P req) (state_of first) in
        status (result_of first) = VInt 200
        /\ get_prop (json (result_of first)) "success" = VBool true
        /\ status (result_of second) = VInt 200
        /\ get_prop (json (result_of second)) "success" = VBool true).
Proof.
  intros Hv Hd.
  assert (Hone : forall s s1 r,
             w _ (Destroy id) s = (Ok r, s1) ->
             is_str (get "result" r) "ok" || is_str (get "result" r) "not found" = true ->
             run w (delete_route P req) s
             = (res_json (VObj [("success", VBool true);
                                ("message",
                                 if is_str (get "result" r) "ok"
                                 then VStr "Image deleted successfully"
                                 else VStr "Image not found");
                                ("publicId", VStr id)]),
                s1, [Call (Destroy id)])).
  { intros s s1 r Hw Hr. unfold delete_route, route. cbn [first_response].
    rewrite Hv. unfold asyncHandler. rewrite Hd. cbn. rewrite Hw. cbn.
    rewrite Hr. reflexivity. }
  splits.
  - intros s s1 r Hw Hr. rewrite (Hone s s1 r Hw); rewrite Hr; reflexivity.
  - intros s s1 r Hw Hr. rewrite (Hone s s1 r Hw); rewrite Hr; reflexivity.
  - intros s0 s1 s2 r1 r2 Hw1 Hr1 Hw2 Hr2. cbv zeta.
    rewrite (Hone s0 s1 r1 Hw1) by (rewrite Hr1; reflexivity).
    cbn [state_of fst snd].
    rewrite (Hone s1 s2 r2 Hw2) by (rewrite Hr2; reflexivity).
    splits; reflexivity.
Qed.

End Properties.

(** ** The properties on concrete requests *)

Lemma get_missing_image_status_witness :
  validatePublicId (Sim.with_publicId "missing") = None
  /\ Sim.world _ (ApiResource "missing" [("resource_type", VStr "image")]) []
     = (Throw (Sim.not_found "missing"), [])
  /\ status (result_of (run Sim.world
                          (get_route Sim.platform (Sim.with_publicId "missing")) []))
     = VInt 500
  /\ get_prop (json (result_of (run Sim.world
                                  (get_route Sim.platform (Sim.with_publicId "missing")) [])))
       "error" = VStr "Image not found".
Proof.
  split; [reflexivity |]. split; [reflexivity |].
  destruct (get_missing_image_status Sim.platform Sim.state Sim.world
              (Sim.with_publicId "missing") "missing" (Sim.not_found "missing") [] []
              eq_refl eq_refl eq_refl eq_refl) as (H1 & _ & H3).
  split; [exact H1 | exact H3].
Defined.

Lemma optimizeImage_never_raises_witness :
  sharp_rejects Sim.world [] (data Sim.corrupt)
  /\ result_of (run Sim.world (optimizeImage (data Sim.corrupt) "image/png") [])
     = Ok (data Sim.corrupt)
  /\ gateway_calls (trace_of (run Sim.world
                                (uploadImage Sim.platform (Some Sim.corrupt) []) []))
     = [Call (UploadStream (upload_stream_options []) (data Sim.corrupt))]
  /\ status (result_of (run Sim.world
                          (upload_route Sim.platform default_config
                             (Sim.upload_of Sim.corrupt [])) []))
     = VInt 201.
Proof.
  assert (Hrej : sharp_rejects Sim.world [] (data Sim.corrupt)).
  { right. left. eexists _, _, _. split; reflexivity. }
  destruct (optimizeImage_never_raises Sim.platform default_config Sim.state Sim.world
              (data Sim.corrupt) "image/png" []) as (_ & H2 & H3 & _ & H5).
  split; [exact Hrej |]. split; [exact (H2 Hrej) |].
  split; [exact (H3 Sim.corrupt [] eq_refl Hrej) |].
  apply (H5 (Sim.upload_of Sim.corrupt []) [("image", Sim.corrupt)] Sim.corrupt);
    try reflexivity; [exact Hrej |].
  intros s1. eexists _, _. reflexivity.
Defined.

Lemma upload_bytes_untouched_witness :
  gateway_calls (trace_of (run Sim.world
                             (uploadImage Sim.platform (Some Sim.drawing)
                                (upload_options [])) []))
  = [Call (UploadStream (upload_stream_options (upload_options [])) (data Sim.drawing))]
  /\ gateway_calls (trace_of (run Sim.world
                                (uploadImage Sim.platform
                                   (Some (Sim.photo "photo.png" "image/png" 4))
                                   (upload_options [("optimize", VStr "false")])) []))
     = [Call (UploadStream
                (upload_stream_options (upload_options [("optimize", VStr "false")]))
                (data (Sim.photo "photo.png" "image/png" 4)))].
Proof.
  split.
  - exact (proj1 (upload_bytes_untouched Sim.platform default_config Sim.state Sim.world
                    Sim.drawing (upload_options []) [] (or_intror eq_refl))).
  - exact (proj1 (upload_bytes_untouched Sim.platform default_config Sim.state Sim.world
                    (Sim.photo "photo.png" "image/png" 4)
                    (upload_options [("optimize", VStr "false")]) []
                    (or_introl eq_refl))).
Defined.

Lemma oversized_upload_aborted_witness :
  (size (Sim.photo "photo.png" "image/png" 10485761) > maxFileSize default_config)%Z
  /\ run Sim.world
       (app_upload Sim.platform default_config
          (Sim.upload_of (Sim.photo "photo.png" "image/png" 10485761) [])) ["kept"]
     = ({| status := VInt 413; json := VStr "File size limit has been reached" |},
        ["kept"], []).
Proof.
  split; [reflexivity |].
  refine (proj1 (oversized_upload_aborted Sim.platform default_config Sim.state Sim.world
                   (Sim.upload_of (Sim.photo "photo.png" "image/png" 10485761) [])
                   [("image", Sim.photo "photo.png" "image/png" 10485761)]
                   "image" (Sim.photo "photo.png" "image/png" 10485761) ["kept"] _ _ _));
    [reflexivity | left; reflexivity | reflexivity].
Defined.

(** A file of one byte more than the default limit of 10 MB: the
    application answers 413, not 400. *)
Lemma oversized_upload_answered_413 :
  (size (Sim.photo "photo.png" "image/png" 10485761) > maxFileSize default_config)%Z
  /\ status (result_of
               (run Sim.world
                  (app_upload Sim.platform default_config
                     (Sim.upload_of (Sim.photo "photo.png" "image/png" 10485761) []))
                  []))
     = VInt 413
  /\ status (result_of
               (run Sim.world
                  (app_upload Sim.platform default_config
                     (Sim.upload_of (Sim.photo "photo.png" "image/png" 10485761) []))
                  []))
     <> VInt 400.
Proof.
  split; [reflexivity |]. split; [reflexivity |]. discriminate.
Qed.

(** image/jpg is accepted although it is none of the five media types. *)
Lemma jpg_media_type_accepted :
  validateFileUpload Sim.platform default_config
    (Sim.upload_of (Sim.photo "photo.jpg" "image/jpg" 4) []) = None
  /\ includes five_media_types (mimetype (Sim.photo "photo.jpg" "image/jpg" 4)) = false.
Proof. split; reflexivity. Qed.

Lemma media_type_allow_list_witness :
  validateFileUpload Sim.platform default_config
    (Sim.upload_of (Sim.photo "photo.jpg" "image/jpg" 4) []) = None
  /\ run Sim.world
       (upload_route Sim.platform default_config
          (Sim.upload_of (Sim.photo "photo.png" "text/plain" 4) [])) []
     = ({| status := VInt 400;
           json := VObj [("success", VBool false);
                         ("error",
                          VStr "Invalid file type. Please upload an image file.")] |},
        [], []).
Proof.
  split.
  - apply (proj1 (media_type_allow_list Sim.platform default_config Sim.state Sim.world
                    (Sim.upload_of (Sim.photo "photo.jpg" "image/jpg" 4) [])
                    [("image", Sim.photo "photo.jpg" "image/jpg" 4)]
                    (Sim.photo "photo.jpg" "image/jpg" 4)
                    eq_refl eq_refl ltac:(cbn; lia) eq_refl)).
    cbn. tauto.
  - apply (proj2 (media_type_allow_list Sim.platform default_config Sim.state Sim.world
                    (Sim.upload_of (Sim.photo "photo.png" "text/plain" 4) [])
                    [("image", Sim.photo "photo.png" "text/plain" 4)]
                    (Sim.photo "photo.png" "text/plain" 4)
                    eq_refl eq_refl ltac:(cbn; lia) eq_refl)).
    cbn. intros H. repeat (destruct H as [H | H]; [discriminate H |]). exact H.
Defined.

(** With an allow-list written in capitals, a file in lowercase and a
    file in capitals are both refused, though their extensions differ at
    most in letter case from the entry JPG. *)
Lemma capitals_allow_list_refuses :
  In "JPG" (allowedFormats Sim.capitals_config)
  /\ same_letters "jpg" "JPG"
  /\ validateFileUpload Sim.platform Sim.capitals_config
       (Sim.upload_of (Sim.photo "photo.jpg" "image/jpeg" 4) [])
     = Some (bad_request "Invalid file format. Allowed formats: JPG, PNG")
  /\ validateFileUpload Sim.platform Sim.capitals_config
       (Sim.upload_of (Sim.photo "photo.JPG" "image/jpeg" 4) [])
     = Some (bad_request "Invalid file format. Allowed formats: JPG, PNG").
Proof. splits; try reflexivity. left. reflexivity. Qed.

Lemma extension_check_lowercases_the_file_witness :
  fileExtension (Sim.photo "holiday.photo.JPG" "image/jpeg" 4) = "jpg"
  /\ fileExtension (Sim.photo "png" "image/png" 4) = "png"
  /\ validateFileUpload Sim.platform default_config
       (Sim.upload_of (Sim.photo "holiday.photo.JPG" "image/jpeg" 4) []) = None.
Proof.
  destruct (extension_check_lowercases_the_file Sim.platform default_config
              (Sim.upload_of (Sim.photo "holiday.photo.JPG" "image/jpeg" 4) [])
              [("image", Sim.photo "holiday.photo.JPG" "image/jpeg" 4)]
              (Sim.photo "holiday.photo.JPG" "image/jpeg" 4) eq_refl eq_refl)
    as (H1 & _ & H3).
  destruct (extension_check_lowercases_the_file Sim.platform default_config
              (Sim.upload_of (Sim.photo "png" "image/png" 4) [])
              [("image", Sim.photo "png" "image/png" 4)]
              (Sim.photo "png" "image/png" 4) eq_refl eq_refl)
    as (_ & H2 & _).
  split; [exact (H1 "holiday.photo" "JPG" eq_refl eq_refl) |].
  split; [exact (H2 eq_refl) |].
  apply (H3 "jpg"); [cbn; tauto | reflexivity | reflexivity | cbn; lia | cbn; tauto].
Defined.

(** An array with a repeated identifier is accepted and reaches the
    gateway. *)
Lemma repeated_identifier_accepted :
  validateBulkDelete (Sim.with_body [("publicIds", VArr [VStr "a"; VStr "a"])]) = None
  /\ ~ NoDup ["a"; "a"]
  /\ gateway_calls
       (trace_of (run Sim.world
                    (bulk_delete_route Sim.platform
                       (Sim.with_body [("publicIds", VArr [VStr "a"; VStr "a"])])) []))
     = [Call (DeleteResources [VStr "a"; VStr "a"])]
  /\ status
       (result_of (run Sim.world
                     (bulk_delete_route Sim.platform
                        (Sim.with_body [("publicIds", VArr [VStr "a"; VStr "a"])])) []))
     = VInt 200.
Proof.
  splits; try reflexivity.
  intros H. inversion H as [| x l Hin Hnd]. apply Hin. left. reflexivity.
Qed.

Lemma bulk_delete_validation_witness :
  validateBulkDelete (Sim.with_body [("publicIds", VArr (map VStr ["a"; "b"; "a"]))]) = None
  /\ (exists resp,
        validateBulkDelete (Sim.with_body [("publicIds", VArr [])]) = Some resp
        /\ status resp = VInt 400
        /\ run Sim.world
             (bulk_delete_route Sim.platform (Sim.with_body [("publicIds", VArr [])]))
             ["kept"]
           = (resp, ["kept"], [])).
Proof.
  split.
  - apply (proj1 (proj2 (bulk_delete_validation Sim.platform Sim.state Sim.world
                           (Sim.with_body
                              [("publicIds", VArr (map VStr ["a"; "b"; "a"]))])))
             ["a"; "b"; "a"] eq_refl).
    + cbn. lia.
    + repeat constructor; discriminate.
  - destruct (bulk_delete_validation Sim.platform Sim.state Sim.world
                (Sim.with_body [("publicIds", VArr [])])) as (_ & _ & H3 & H4).
    destruct (H4 [] eq_refl (or_introl eq_refl)) as (resp & Hresp).
    exists resp. split; [exact Hresp |].
    destruct (H3 resp Hresp) as (Hstatus & Hrun). split; [exact Hstatus | apply Hrun].
Defined.

(** The statistics carry no percentage for transformations, even when
    the provider reports one. *)
Lemma stats_lack_a_percentage :
  get_prop (get_prop (VObj Sim.usage_report) "transformations") "used_percent" = VInt 12
  /\ get_prop
       (json (result_of (run Sim.world (stats_route Sim.platform (Sim.with_body [])) [])))
       "success" = VBool true
  /\ has_entry
       (get_prop
          (json (result_of (run Sim.world (stats_route Sim.platform (Sim.with_body [])) [])))
          "data") "percentage" "transformations" = false
  /\ has_all_triplets
       (get_prop
          (json (result_of (run Sim.world (stats_route Sim.platform (Sim.with_body [])) [])))
          "data") = false.
Proof. splits; reflexivity. Qed.

Lemma stats_entries_witness :
  status (result_of (run Sim.world (stats_route Sim.platform (Sim.with_body [])) []))
  = VInt 200
  /\ has_entry
       (get_prop
          (json (result_of (run Sim.world (stats_route Sim.platform (Sim.with_body [])) [])))
          "data") "used" "transformations" = true
  /\ has_entry
       (get_prop
          (json (result_of (run Sim.world (stats_route Sim.platform (Sim.with_body [])) [])))
          "data") "percentage" "credits" = true.
Proof.
  destruct (stats_entries Sim.platform Sim.state Sim.world (Sim.with_body []) [] eq_refl)
    as (H1 & H2).
  split; [exact H1 |]. split.
  - apply (H2 "used" "transformations"); cbn; tauto.
  - apply (H2 "percentage" "credits"); cbn; tauto.
Defined.

Lemma delete_is_idempotent_witness :
  run Sim.world (delete_route Sim.platform (Sim.with_publicId "a")) ["a"]
  = (res_json (VObj [("success", VBool true);
                     ("message", VStr "Image deleted successfully");
                     ("publicId", VStr "a")]),
     [], [Call (Destroy "a")])
  /\ run Sim.world (delete_route Sim.platform (Sim.with_publicId "a")) []
     = (res_json (VObj [("success", VBool true); ("message", VStr "Image not found");
                        ("publicId", VStr "a")]),
        [], [Call (Destroy "a")])
  /\ status
       (result_of
          (run Sim.world (delete_route Sim.platform (Sim.with_publicId "a"))
             (state_of (run Sim.world
                          (delete_route Sim.platform (Sim.with_publicId "a")) ["a"]))))
     = VInt 200.
Proof.
  destruct (delete_is_idempotent Sim.platform Sim.state Sim.world
              (Sim.with_publicId "a") "a" eq_refl eq_refl) as (H1 & H2 & H3).
  split; [exact (H1 ["a"] [] [("result", VStr "ok")] eq_refl eq_refl) |].
  split; [exact (H2 [] [] [("result", VStr "not found")] eq_refl eq_refl) |].
  exact (proj1 (proj2 (proj2 (H3 ["a"] [] [] [("result", VStr "ok")]
                                [("result", VStr "not found")]
                                eq_refl eq_refl eq_refl eq_refl)))).
Defined.

(** ** Further properties of the middleware and of the routes *)

(** Reduction that keeps the error objects and their answers folded. *)
Ltac rcbn := cbn -[error_response new_Error new_error].

Section MoreProperties.

Variable P : platform.
Variable config : app_config.
Variable S : Type.
Variable w : world S.

(** The keys of a body as the client reads it: those whose value is not
    [undefined]. *)
Lemma has_property_to_json (o : object) (k : string) :
  has_property (to_json (VObj o)) k
  = existsb (fun kv => String.eqb k (fst kv)
                       && match snd kv with VUndefined => false | _ => true end) o.
Proof.
  cbn [to_json has_property]. unfold has_key.
  induction o as [| [k' v] r IH]; [reflexivity |].
  destruct v; cbn [existsb fst snd]; rewrite IH;
    rewrite ?andb_false_r, ?andb_true_r; reflexivity.
Qed.

(** X1: the body the client reads from [errorHandler]. [success] is
    always there and false. [error] is there unless the error is a
    ValidationError without a message that carries no provider message:
    [res.json] then leaves the key out. [stack] is there exactly when
    NODE_ENV is 'development' and the error has a stack. The handler makes
    one call, the [console.error] of the error. *)
Theorem error_envelope (err : object) :
  let sent := to_json (json (error_response P err)) in
  get_prop sent "success" = VBool false
  /\ (has_property sent "error" = false <->
      get "name" err = VStr "ValidationError"
      /\ get "message" err = VUndefined
      /\ (truthy (get "error" err)
          && truthy (get_prop (get "error" err) "message")) = false)
  /\ (has_property sent "stack" = true <->
      NODE_ENV P = VStr "development" /\ get "stack" err <> VUndefined)
  /\ (forall s,
        result_of (run w (errorHandler P err) s) = error_response P err
        /\ trace_of (run w (errorHandler P err) s)
           = [Call (ConsoleError [VStr "Error:"; VObj err])]).
Proof.
  cbv zeta.
  assert (Hshape : exists m,
             json (error_response P err)
             = VObj ([("success", VBool false); ("error", m)]
                     ++ (if is_str (NODE_ENV P) "development"
                         then [("stack", get "stack" err)] else []))
             /\ (m = VUndefined <->
                 get "name" err = VStr "ValidationError"
                 /\ get "message" err = VUndefined
                 /\ (truthy (get "error" err)
                     && truthy (get_prop (get "error" err) "message")) = false)).
  { unfold error_response.
    destruct (truthy (get "error" err) && truthy (get_prop (get "error" err) "message"))
      eqn:Hpass.
    - exists (get_prop (get "error" err) "message").
      destruct (is_str (get "name" err) "ValidationError");
        destruct (is_str (get "name" err) "UnauthorizedError");
        destruct (is_str (get "name" err) "MulterError");
        (split; [reflexivity |]);
        (split; [| intros (_ & _ & H); discriminate]);
        intros H; rewrite H in Hpass; cbn in Hpass;
        rewrite andb_false_r in Hpass; discriminate.
    - destruct (is_str (get "name" err) "MulterError") eqn:Hm.
      { eexists.
        destruct (is_str (get "name" err) "ValidationError") eqn:Hv;
          destruct (is_str (get "name" err) "UnauthorizedError");
          (split; [reflexivity |]);
          (split; [discriminate |]); intros (Hn & _);
          rewrite Hn in Hm; discriminate. }
      destruct (is_str (get "name" err) "UnauthorizedError") eqn:Hu.
      { eexists.
        destruct (is_str (get "name" err) "ValidationError") eqn:Hv;
          (split; [reflexivity |]);
          (split; [discriminate |]); intros (Hn & _);
          rewrite Hn in Hu; discriminate. }
      destruct (is_str (get "name" err) "ValidationError") eqn:Hv.
      + exists (get "message" err). split; [reflexivity |].
        apply is_str_true in Hv. split.
        * intros H. splits; [assumption | assumption | reflexivity].
        * intros (_ & H & _). exact H.
      + exists (or_else (get "message" err) (VStr "Internal server error")).
        split; [reflexivity |]. split.
        * unfold or_else. destruct (truthy (get "message" err)) eqn:Ht;
            [| discriminate]. intros H. rewrite H in Ht. discriminate.
        * intros (Hn & _). rewrite Hn in Hv. discriminate. }
  destruct Hshape as (m & Hjson & Hm). rewrite Hjson. splits.
  - destruct m; reflexivity.
  - rewrite has_property_to_json, <- Hm.
    destruct (is_str (NODE_ENV P) "development"); destruct m; cbn;
      try (destruct (get "stack" err)); cbn; split; congruence.
  - rewrite has_property_to_json, <- is_str_true.
    destruct (is_str (NODE_ENV P) "development"); destruct m; cbn;
      try (destruct (get "stack" err)); cbn;
      (split; [first [discriminate | intros _; split; [reflexivity | discriminate]]
              | intros [H1 H2]; congruence]).
  - intros s. rewrite run_errorHandler. split; reflexivity.
Qed.

(** X2: an error that carries a provider error with a message (a truthy
    [err.error.message]) is answered with that message and with the
    provider's [http_code], or 500 when the code is missing or zero,
    whatever the name, the message and the statusCode of the error. *)
Theorem provider_error_passthrough (err : object) :
  truthy (get "error" err) = true ->
  truthy (get_prop (get "error" err) "message") = true ->
  status (error_response P err)
  = or_else (get_prop (get "error" err) "http_code") (VInt 500)
  /\ get_prop (json (error_response P err)) "error"
     = get_prop (get "error" err) "message".
Proof.
  intros H1 H2. unfold error_response. rewrite H1, H2. cbn [andb].
  destruct (is_str (get "name" err) "ValidationError");
    destruct (is_str (get "name" err) "UnauthorizedError");
    destruct (is_str (get "name" err) "MulterError");
    split; reflexivity.
Qed.

(** The answer to an error of a class the handler does not single out and
    that carries no provider error. *)
Lemma error_response_plain (class msg : string) :
  is_str (VStr class) "ValidationError" = false ->
  is_str (VStr class) "UnauthorizedError" = false ->
  is_str (VStr class) "MulterError" = false ->
  error_response P (new_error P class msg)
  = {| status := VInt 500;
       json := VObj ([("success", VBool false);
                      ("error", if String.eqb msg "" then VStr "Internal server error"
                                else VStr msg)]
                     ++ (if is_str (NODE_ENV P) "development"
                         then [("stack", VStr (capture_stack P class msg))] else [])) |}.
Proof.
  intros H1 H2 H3. unfold error_response, new_error.
  cbn [get String.eqb Ascii.eqb Bool.eqb]. rewrite H1, H2, H3.
  cbn. unfold or_else, truthy. destruct (String.eqb msg ""); reflexivity.
Qed.

Lemma error_response_Error (msg : string) :
  error_response P (new_Error P msg)
  = {| status := VInt 500;
       json := VObj ([("success", VBool false);
                      ("error", if String.eqb msg "" then VStr "Internal server error"
                                else VStr msg)]
                     ++ (if is_str (NODE_ENV P) "development"
                         then [("stack", VStr (capture_stack P "Error" msg))] else [])) |}.
Proof. apply error_response_plain; reflexivity. Qed.

(** X3: an error object of a class other than ValidationError,
    UnauthorizedError and MulterError, without statusCode and without
    provider error (so every [new Error], [TypeError] and [URIError] the
    service raises), is answered 500 with its message, or with 'Internal
    server error' when the message is empty. *)
Theorem plain_error_is_500 (class msg : string) :
  class <> "ValidationError" ->
  class <> "UnauthorizedError" ->
  class <> "MulterError" ->
  status (error_response P (new_error P class msg)) = VInt 500
  /\ get_prop (json (error_response P (new_error P class msg))) "error"
     = VStr (if String.eqb msg "" then "Internal server error" else msg).
Proof.
  intros H1 H2 H3.
  rewrite error_response_plain;
    try (cbn [is_str]; apply String.eqb_neq; assumption).
  split; [reflexivity |]. cbn. destruct (String.eqb msg ""); reflexivity.
Qed.


(** What [asyncHandler] does with the outcome of the handler it wraps. *)
Lemma run_asyncHandler (fn : request -> prog (outcome response)) (req : request) (s : S) :
  run w (asyncHandler P fn req) s =
  let '(r, s1, t1) := run w (fn req) s in
  match r with
  | Ok resp => (resp, s1, t1)
  | Throw err =>
      (error_response P err,
       snd (w _ (ConsoleError [VStr "Error:"; VObj err]) s1),
       t1 ++ [Call (ConsoleError [VStr "Error:"; VObj err])])
  end.
Proof.
  unfold asyncHandler. rewrite run_bind.
  destruct (run w (fn req) s) as [[[resp | err] s1] t1].
  - cbn. rewrite app_nil_r. reflexivity.
  - rewrite run_errorHandler. reflexivity.
Qed.

(** X4: GET /images/:id on a stored asset answers 200 with the metadata
    of the provider under the names of the API, with the derived
    thumbnail, and with a [transformedUrl] equal to [url], since the route
    asks for no transformation; the gateway is called once. *)
Theorem get_found_image (req : request) (id : string) (resource : object) (s s1 : S) :
  validatePublicId req = None ->
  decoded_publicId P req = Ok id ->
  w _ (ApiResource id [("resource_type", VStr "image")]) s = (Ok resource, s1) ->
  let r := run w (get_route P req) s in
  let data := get_prop (json (result_of r)) "data" in
  status (result_of r) = VInt 200
  /\ get_prop (json (result_of r)) "success" = VBool true
  /\ get_prop data "publicId" = get "public_id" resource
  /\ get_prop data "url" = get "secure_url" resource
  /\ get_prop data "format" = get "format" resource
  /\ get_prop data "width" = get "width" resource
  /\ get_prop data "height" = get "height" resource
  /\ get_prop data "bytes" = get "bytes" resource
  /\ get_prop data "createdAt" = get "created_at" resource
  /\ get_prop data "thumbnail"
     = getThumbnailUrl P (get "public_id" resource) (get "format" resource)
  /\ get_prop data "transformedUrl" = get_prop data "url"
  /\ state_of r = s1
  /\ trace_of r = [Call (ApiResource id [("resource_type", VStr "image")])].
Proof.
  intros Hv Hd Hw. unfold get_route, route. cbn [first_response]. rewrite Hv.
  rewrite run_asyncHandler. rewrite Hd. cbn. rewrite Hw. cbn.
  splits; reflexivity.
Qed.

(** X5: when the gateway rejects the lookup with anything but an
    http_code 404, GET /images/:id answers 500 with the error 'Failed to
    retrieve image: ' followed by the message of the rejection; the status
    the provider gave is not passed on. *)
Theorem get_failure_is_500 (req : request) (id : string) (err : object) (s s1 : S) :
  validatePublicId req = None ->
  decoded_publicId P req = Ok id ->
  w _ (ApiResource id [("resource_type", VStr "image")]) s = (Throw err, s1) ->
  is_num (get_prop (get "error" err) "http_code") 404 = false ->
  let r := run w (get_route P req) s in
  status (result_of r) = VInt 500
  /\ get_prop (json (result_of r)) "success" = VBool false
  /\ get_prop (json (result_of r)) "error"
     = VStr ("Failed to retrieve image: " ++ ToString P (get "message" err))
  /\ gateway_calls (trace_of r)
     = [Call (ApiResource id [("resource_type", VStr "image")])].
Proof.
  intros Hv Hd Hw H404. unfold get_route, route. cbn [first_response]. rewrite Hv.
  rewrite run_asyncHandler. rewrite Hd. rcbn. rewrite Hw. rcbn. rewrite H404. rcbn.
  rewrite error_response_Error. cbn. splits; reflexivity.
Qed.

(** X6: an identifier that [decodeURIComponent] refuses is answered 500
    with the error 'URI malformed' by GET and by DELETE /images/:id, and
    the gateway is not called. *)
Theorem malformed_identifier (req : request) (s : S) :
  validatePublicId req = None ->
  decodeURIComponent P (ToString P (get "publicId" (params req))) = None ->
  (status (result_of (run w (get_route P req) s)) = VInt 500
   /\ get_prop (json (result_of (run w (get_route P req) s))) "error"
      = VStr "URI malformed"
   /\ gateway_calls (trace_of (run w (get_route P req) s)) = [])
  /\ (status (result_of (run w (delete_route P req) s)) = VInt 500
      /\ get_prop (json (result_of (run w (delete_route P req) s))) "error"
         = VStr "URI malformed"
      /\ gateway_calls (trace_of (run w (delete_route P req) s)) = []).
Proof.
  intros Hv Hd.
  assert (Hdec : decoded_publicId P req = Throw (new_error P "URIError" "URI malformed")).
  { unfold decoded_publicId. rewrite Hd. reflexivity. }
  split.
  - unfold get_route, route. cbn [first_response]. rewrite Hv.
    rewrite run_asyncHandler. rewrite Hdec. rcbn.
    rewrite error_response_plain by reflexivity. cbn. splits; reflexivity.
  - unfold delete_route, route. cbn [first_response]. rewrite Hv.
    rewrite run_asyncHandler. rewrite Hdec. rcbn.
    rewrite error_response_plain by reflexivity. cbn. splits; reflexivity.
Qed.

Lemma first_error_none A (f : A -> option Joi.error) (l : list A) :
  Joi.first_error f l = None <-> Forall (fun x => f x = None) l.
Proof.
  induction l as [| x r IH]; cbn.
  - split; [constructor | reflexivity].
  - destruct (f x) eqn:E.
    + split; [discriminate |]. intros H. inversion H; subst. congruence.
    + rewrite IH. split.
      * intros H. constructor; assumption.
      * intros H. inversion H; assumption.
Qed.

(** X7: the identifier validator lets a request through exactly when
    [req.params] holds a non-empty string under [publicId] and no other
    key; every other request is answered 400 'Invalid public ID' by GET
    and DELETE /images/:id without any call. *)
Theorem publicId_validation (req : request) :
  (validatePublicId req = None <->
   (exists id, get "publicId" (params req) = VStr id /\ id <> "")
   /\ Forall (fun kv => fst kv = "publicId") (params req))
  /\ (validatePublicId req <> None ->
      forall s,
        run w (get_route P req) s = (bad_request "Invalid public ID", s, [])
        /\ run w (delete_route P req) s = (bad_request "Invalid public ID", s, [])).
Proof.
  split.
  - unfold validatePublicId, Joi.validate_object, publicIdSchema.
    cbn [Joi.first_error map Joi.name]. unfold Joi.validate_key.
    cbn [Joi.name Joi.rule Joi.required].
    assert (Hunknown :
              Joi.first_error
                (fun kv : string * value =>
                   if includes ["publicId"] (fst kv) then None
                   else Some (Joi.object_unknown [Joi.Key (fst kv)])) (params req) = None
              <-> Forall (fun kv => fst kv = "publicId") (params req)).
    { rewrite first_error_none. split; intros H; eapply Forall_impl; try exact H;
        intros kv; cbn; destruct (String.eqb_spec (fst kv) "publicId");
        cbn; congruence. }
    destruct (get "publicId" (params req)) as [| | b | q | id | l | o];
      try (split; [discriminate | intros [(id' & H & _) _]; discriminate]).
    cbn [Joi.validate]. destruct (String.eqb_spec id "") as [-> | Hne].
    + split; [discriminate |]. intros [(id' & H & Hne) _]. congruence.
    + destruct (Joi.first_error _ (params req)) eqn:E.
      * split; [discriminate |]. intros [_ H]. apply Hunknown in H. discriminate.
      * split; [| reflexivity]. intros _. split.
        -- exists id. split; [reflexivity | assumption].
        -- apply Hunknown. reflexivity.
  - intros Hne s.
    assert (Hv : validatePublicId req = Some (bad_request "Invalid public ID")).
    { unfold validatePublicId in *.
      destruct (Joi.validate_object publicIdSchema (params req)); congruence. }
    split; apply route_rejected; cbn [first_response]; rewrite Hv; reflexivity.
Qed.

(** X8: DELETE /images/:id answers 500 whenever the gateway does not
    report 'ok' or 'not found': with the error 'Image deletion failed:
    Deletion failed' for any other result, and with 'Image deletion
    failed: ' followed by the message of the rejection when the call is
    rejected. *)
Theorem delete_failures (req : request) (id : string) (s s1 : S) :
  validatePublicId req = None ->
  decoded_publicId P req = Ok id ->
  (forall r,
      w _ (Destroy id) s = (Ok r, s1) ->
      is_str (get "result" r) "ok" = false ->
      is_str (get "result" r) "not found" = false ->
      status (result_of (run w (delete_route P req) s)) = VInt 500
      /\ get_prop (json (result_of (run w (delete_route P req) s))) "error"
         = VStr "Image deletion failed: Deletion failed")
  /\ (forall err,
        w _ (Destroy id) s = (Throw err, s1) ->
        status (result_of (run w (delete_route P req) s)) = VInt 500
        /\ get_prop (json (result_of (run w (delete_route P req) s))) "error"
           = VStr ("Image deletion failed: " ++ ToString P (get "message" err))).
Proof.
  intros Hv Hd. split.
  - intros r Hw Hok Hnf. unfold delete_route, route. cbn [first_response]. rewrite Hv.
    rewrite run_asyncHandler. rewrite Hd. rcbn. rewrite Hw. rcbn. rewrite Hok, Hnf. rcbn.
    rewrite error_response_Error. cbn. split; reflexivity.
  - intros err Hw. unfold delete_route, route. cbn [first_response]. rewrite Hv.
    rewrite run_asyncHandler. rewrite Hd. rcbn. rewrite Hw. rcbn.
    rewrite error_response_Error. cbn. split; reflexivity.
Qed.


(** X9: [bulkDelete] refuses by itself what is not a non-empty array: it
    rejects with 'Bulk deletion failed: Invalid public IDs array' and
    makes no call. *)
Theorem bulkDelete_guard (publicIds : value) (s : S) :
  isArray publicIds = false \/ publicIds = VArr [] ->
  run w (bulkDelete P publicIds) s
  = (Throw (new_Error P "Bulk deletion failed: Invalid public IDs array"), s, []).
Proof.
  intros [H | ->]; [| reflexivity].
  destruct publicIds; try reflexivity. discriminate.
Qed.

(** X10: when the gateway resolves a bulk deletion with an object under
    [deleted], POST /images/bulk-delete answers 200 with that object, with
    [partial] as the provider gave it and with [deletedCount] the number
    of keys of [deleted], whatever the status reported for each key. *)
Theorem bulk_delete_report (req : request) (id : value) (ids : list value)
  (result deleted : object) (s s1 : S) :
  validateBulkDelete req = None ->
  get "publicIds" (body req) = VArr (id :: ids) ->
  w _ (DeleteResources (id :: ids)) s = (Ok result, s1) ->
  get "deleted" result = VObj deleted ->
  run w (bulk_delete_route P req) s
  = (res_json
       (VObj [("success", VBool true);
              ("data",
               VObj [("deleted", VObj deleted);
                     ("deletedCount",
                      VInt (Z.of_nat (length (nodup string_dec (map fst deleted)))));
                     ("partial", get "partial" result)])]),
     s1, [Call (DeleteResources (id :: ids))]).
Proof.
  intros Hv Hids Hw Hdel. unfold bulk_delete_route, route. cbn [first_response].
  rewrite Hv. rewrite run_asyncHandler. rewrite Hids. rcbn. rewrite Hw. rcbn.
  rewrite Hdel. reflexivity.
Qed.

(** X11: when the gateway resolves a bulk deletion without [deleted] (the
    key is missing or null), the route answers 500 with the error 'Bulk
    deletion failed: Cannot convert undefined or null to object'. *)
Theorem bulk_delete_without_report (req : request) (id : value) (ids : list value)
  (result : object) (s s1 : S) :
  validateBulkDelete req = None ->
  get "publicIds" (body req) = VArr (id :: ids) ->
  w _ (DeleteResources (id :: ids)) s = (Ok result, s1) ->
  get "deleted" result = VUndefined \/ get "deleted" result = VNull ->
  status (result_of (run w (bulk_delete_route P req) s)) = VInt 500
  /\ get_prop (json (result_of (run w (bulk_delete_route P req) s))) "error"
     = VStr "Bulk deletion failed: Cannot convert undefined or null to object".
Proof.
  intros Hv Hids Hw Hdel. unfold bulk_delete_route, route. cbn [first_response].
  rewrite Hv. rewrite run_asyncHandler. rewrite Hids. rcbn. rewrite Hw. rcbn.
  destruct Hdel as [-> | ->]; rcbn; rewrite error_response_Error; split; reflexivity.
Qed.

(** X12: no entry of the usage statistics is undefined, null, false,
    the empty string or another falsy value: each of the eleven entries
    is what the provider reports under [used], [limit] or [used_percent]
    when that is truthy, and the number 0 otherwise. *)
Theorem stats_default_to_zero (req : request) (usage : object) (s s1 : S) :
  w _ ApiUsage s = (Ok usage, s1) ->
  forall group field resource,
    In (group, field) [("used", "used"); ("limit", "limit"); ("percentage", "used_percent")] ->
    In resource ["credits"; "storage"; "bandwidth"; "transformations"] ->
    (group, resource) <> ("percentage", "transformations") ->
    let entry :=
      get_prop (get_prop (get_prop (json (result_of (run w (stats_route P req) s)))
                            "data") group) resource in
    let reported := get_prop (get resource usage) field in
    (truthy reported = true -> entry = reported)
    /\ (truthy reported = false -> entry = VInt 0).
Proof.
  intros Hw group field resource Hg Hr Hne.
  unfold stats_route, route. cbn [first_response]. rewrite run_asyncHandler.
  rcbn. rewrite Hw. rcbn. unfold usage_of, or_else.
  cbn in Hg, Hr.
  repeat match goal with H : _ \/ _ |- _ => destruct H as [H | H] end;
    try contradiction; try (injection Hg as <- <-); subst;
    try (exfalso; apply Hne; reflexivity);
    cbn; split; intros Ht; rewrite Ht; reflexivity.
Qed.

(** X13: when the gateway rejects the usage query, GET /images/stats/usage
    answers 500 with the error 'Failed to get statistics: ' followed by
    the message of the rejection. *)
Theorem stats_failure (req : request) (err : object) (s s1 : S) :
  w _ ApiUsage s = (Throw err, s1) ->
  status (result_of (run w (stats_route P req) s)) = VInt 500
  /\ get_prop (json (result_of (run w (stats_route P req) s))) "success" = VBool false
  /\ get_prop (json (result_of (run w (stats_route P req) s))) "error"
     = VStr ("Failed to get statistics: " ++ ToString P (get "message" err)).
Proof.
  intros Hw. unfold stats_route, route. cbn [first_response]. rewrite run_asyncHandler.
  rcbn. rewrite Hw. rcbn. rewrite error_response_Error. splits; reflexivity.
Qed.


(** X14: the sharp pipeline, case by case. It is a resize step followed
    by an encoder step. The resize step is one resize to fit inside 4096
    by 4096 without enlargement when the width or the height is known and
    exceeds 4096, and nothing otherwise. The encoder step is one encoder at
    quality 85, chosen by the detected format: progressive JPEG for 'jpeg'
    and 'jpg', PNG at compression level 9 for 'png', WebP for 'webp'; it
    is nothing for any other format and when the format is unknown. *)
Theorem pipeline_policy (m : metadata) :
  let big :=
    (exists n, width m = Some n /\ (n > 4096)%Z)
    \/ (exists n, height m = Some n /\ (n > 4096)%Z) in
  exists resize encode,
    pipeline m = resize ++ encode
    /\ (big -> resize = [Resize 4096 4096 "inside" true])
    /\ (~ big -> resize = [])
    /\ (format m = Some "jpeg" \/ format m = Some "jpg" -> encode = [Jpeg 85 true])
    /\ (format m = Some "png" -> encode = [Png 85 9])
    /\ (format m = Some "webp" -> encode = [Webp 85])
    /\ (format m <> Some "jpeg" -> format m <> Some "jpg" ->
        format m <> Some "png" -> format m <> Some "webp" -> encode = []).
Proof.
  cbv zeta.
  assert (Hfmt : forall lit, format_is (format m) lit = true <-> format m = Some lit).
  { intros lit. unfold format_is. destruct (format m) as [f |].
    - rewrite String.eqb_eq. split; congruence.
    - split; discriminate. }
  assert (Hex : forall n, exceeds n 4096 = true <-> exists z, n = Some z /\ (z > 4096)%Z).
  { intros [z |]; cbn.
    - rewrite Z.gtb_lt. split.
      + intros H. exists z. split; [reflexivity | lia].
      + intros (z' & [= <-] & H). lia.
    - split; [discriminate | intros (z & H & _); discriminate]. }
  assert (Hbig : exceeds (width m) 4096 || exceeds (height m) 4096 = true
                 <-> (exists n, width m = Some n /\ (n > 4096)%Z)
                     \/ (exists n, height m = Some n /\ (n > 4096)%Z)).
  { rewrite orb_true_iff, !Hex. reflexivity. }
  unfold pipeline. eexists _, _. split; [reflexivity |]. splits.
  - intros H. apply Hbig in H. rewrite H. reflexivity.
  - intros H. destruct (exceeds (width m) 4096 || exceeds (height m) 4096) eqn:E;
      [| reflexivity]. exfalso. apply H, Hbig. reflexivity.
  - intros H. rewrite <- !Hfmt, <- orb_true_iff in H. rewrite H. reflexivity.
  - intros H. rewrite H. reflexivity.
  - intros H. rewrite H. reflexivity.
  - intros H1 H2 H3 H4.
    destruct (format_is (format m) "jpeg") eqn:E1; [apply Hfmt in E1; contradiction |].
    destruct (format_is (format m) "jpg") eqn:E2; [apply Hfmt in E2; contradiction |].
    destruct (format_is (format m) "png") eqn:E3; [apply Hfmt in E3; contradiction |].
    destruct (format_is (format m) "webp") eqn:E4; [apply Hfmt in E4; contradiction |].
    reflexivity.
Qed.

(** X15: for a media type other than image/svg+xml, when sharp accepts
    the buffer, [optimizeImage] resolves with what the encoder returns,
    not with the input: the encoder is called on the input buffer with the
    pipeline of the decoded metadata, even when that pipeline is empty,
    after the instance is built and the metadata are read. *)
Theorem optimizeImage_encodes (buf out : buffer) (mime : string) (m : metadata)
  (s s1 s2 s3 : S) :
  mime <> "image/svg+xml" ->
  w _ (Sharp buf) s = (Ok tt, s1) ->
  w _ (SharpMetadata buf) s1 = (Ok m, s2) ->
  w _ (SharpToBuffer buf (pipeline m)) s2 = (Ok out, s3) ->
  run w (optimizeImage buf mime) s
  = (Ok out, s3,
     [Call (Sharp buf); Call (SharpMetadata buf);
      Call (SharpToBuffer buf (pipeline m))]).
Proof.
  intros Hsvg H1 H2 H3. unfold optimizeImage, try_catch, and_then.
  destruct (String.eqb_spec mime "image/svg+xml") as [E | _]; [contradiction |].
  cbn. rewrite H1. cbn. rewrite H2. cbn. rewrite H3. reflexivity.
Qed.

Lemma lower_ascii_not_upper (a : ascii) : is_upper (lower_ascii a) = false.
Proof. destruct a as [[] [] [] [] [] [] [] []]; reflexivity. Qed.

Lemma lower_ascii_dot (a : ascii) :
  Ascii.eqb (lower_ascii a) "." = Ascii.eqb a ".".
Proof. destruct a as [[] [] [] [] [] [] [] []]; reflexivity. Qed.

Lemma toLowerCase_lacks_dot (s : string) :
  lacks "." (toLowerCase s) = lacks "." s.
Proof.
  induction s as [| a r IH]; cbn; [reflexivity |].
  rewrite lower_ascii_dot, IH. reflexivity.
Qed.

Lemma toLowerCase_idempotent (s : string) :
  toLowerCase (toLowerCase s) = toLowerCase s.
Proof.
  induction s as [| a r IH]; cbn; [reflexivity |]. rewrite IH. f_equal.
  unfold lower_ascii at 1. rewrite lower_ascii_not_upper. reflexivity.
Qed.

(** Every piece of [s.split(c)] is free of [c]. *)
Lemma split_pieces_lack (c : ascii) (s : string) :
  Forall (fun piece => lacks c piece = true) (split c s).
Proof.
  induction s as [| a r IH]; cbn.
  - constructor; [reflexivity | constructor].
  - destruct (Ascii.eqb a c) eqn:E.
    + constructor; [reflexivity | assumption].
    + destruct (split c r) as [| h t].
      * constructor; [cbn; rewrite E; reflexivity | constructor].
      * inversion IH; subst. constructor; [cbn; rewrite E; assumption | assumption].
Qed.

Lemma pop_split_lacks (c : ascii) (s : string) : lacks c (pop (split c s)) = true.
Proof.
  pose proof (split_pieces_lack c s) as H. pose proof (split_nonempty c s) as Hne.
  unfold pop. induction (split c s) as [| h t IH]; [contradiction |].
  inversion H; subst. destruct t as [| h' t']; [assumption |].
  apply IH; [assumption | discriminate].
Qed.

(** X16: the extension the validator compares holds no dot and no capital
    letter, whatever the file name. So an entry of the configured
    allow-list that holds a dot or a capital letter matches no file. *)
Theorem fileExtension_normal (f : file) :
  lacks "." (fileExtension f) = true
  /\ toLowerCase (fileExtension f) = fileExtension f
  /\ (forall entry,
        lacks "." entry = false \/ toLowerCase entry <> entry ->
        fileExtension f <> entry).
Proof.
  assert (H1 : lacks "." (fileExtension f) = true).
  { unfold fileExtension. rewrite toLowerCase_lacks_dot. apply pop_split_lacks. }
  assert (H2 : toLowerCase (fileExtension f) = fileExtension f).
  { unfold fileExtension. apply toLowerCase_idempotent. }
  assert (H3 : forall entry,
             lacks "." entry = false \/ toLowerCase entry <> entry ->
             fileExtension f <> entry).
  { intros entry [H | H] E; subst entry; congruence. }
  splits; assumption.
Qed.


Lemma optional_key (b : object) (k : string) (rule : Joi.schema) :
  Joi.validate_key b {| Joi.name := k; Joi.rule := rule; Joi.required := false |} = None
  <-> get k b = VUndefined \/ Joi.validate rule [Joi.Key k] (get k b) = None.
Proof.
  unfold Joi.validate_key. cbn [Joi.name Joi.rule Joi.required].
  destruct (get k b) eqn:E; try (split; [intros H; right; exact H | intros [H | H]; [discriminate | exact H]]).
  split; [intros _; left; reflexivity | reflexivity].
Qed.

Lemma short_string_rule (p : Joi.path) (v : value) :
  Joi.validate (Joi.string_ (Some 100%nat)) p v = None <-> is_short_string v.
Proof.
  unfold is_short_string.
  destruct v as [| | b | q | str | l | o]; cbn [Joi.validate];
    try (split; [discriminate | intros (s0 & H & _); discriminate]).
  destruct (String.eqb_spec str "") as [-> | Hne].
  - split; [discriminate |]. intros (s0 & H & Hne & _). congruence.
  - destruct (100 <? String.length str)%nat eqn:Hlen.
    + apply Nat.ltb_lt in Hlen. split; [discriminate |].
      intros (s0 & H & _ & Hle). injection H as <-. lia.
    + apply Nat.ltb_ge in Hlen. split; [| reflexivity].
      intros _. exists str. splits; [reflexivity | assumption | lia].
Qed.

Lemma nonempty_string_rule (p : Joi.path) (v : value) :
  Joi.validate (Joi.string_ None) p v = None <-> exists s, v = VStr s /\ s <> "".
Proof.
  destruct v as [| | b | q | str | l | o]; cbn;
    try (split; [discriminate | intros (s0 & H & _); discriminate]).
  destruct (String.eqb_spec str "") as [-> | Hne].
  - split; [discriminate |]. intros (s0 & H & Hne). congruence.
  - split; [| reflexivity]. intros _. exists str. split; [reflexivity | assumption].
Qed.

Lemma string_array_rule (p : Joi.path) (v : value) :
  Joi.validate (Joi.array_ (Joi.string_ None) None None) p v = None
  <-> exists ts, v = VArr (map VStr ts) /\ Forall (fun t => t <> "") ts.
Proof.
  destruct v as [| | b | q | str | l | o];
    try (split; [discriminate | intros (ts & H & _); discriminate]).
  rewrite validate_array. cbn [Joi.check_min Joi.check_max].
  destruct (Joi.validate_items (Joi.validate (Joi.string_ None)) p 0 l) as [e |] eqn:E.
  - split; [discriminate |]. intros (ts & H & Hall).
    assert (Hnone : Joi.validate_items (Joi.validate (Joi.string_ None)) p 0 l = None).
    { apply validate_items_strings. exists ts. split; [| assumption].
      injection H as ->. clear. induction ts as [| x r IH]; cbn;
        [reflexivity | rewrite IH; reflexivity]. }
    congruence.
  - split; [| reflexivity]. intros _.
    apply validate_items_strings in E. destruct E as (ts & Hts & Hall).
    exists ts. split; [| assumption]. f_equal. apply strings_of_map. exact Hts.
Qed.

Lemma tags_rule (v : value) :
  Joi.validate
    (Joi.alternatives_ [Joi.string_ None; Joi.array_ (Joi.string_ None) None None])
    [Joi.Key "tags"] v = None
  <-> is_tags v.
Proof.
  unfold is_tags. rewrite <- nonempty_string_rule with (p := [Joi.Key "tags"]).
  rewrite <- string_array_rule with (p := [Joi.Key "tags"]).
  cbn [Joi.validate].
  change (match v with
          | VStr str => if (str =? "")%string then Some (Joi.string_empty [Joi.Key "tags"])
                        else None
          | _ => Some (Joi.string_base [Joi.Key "tags"])
          end) with (Joi.validate (Joi.string_ None) [Joi.Key "tags"] v).
  destruct (Joi.validate (Joi.string_ None) [Joi.Key "tags"] v) as [e1 |].
  - fold (Joi.validate (Joi.array_ (Joi.string_ None) None None) [Joi.Key "tags"] v).
    destruct (Joi.validate (Joi.array_ (Joi.string_ None) None None) [Joi.Key "tags"] v).
    + cbn. split; [discriminate | intros [H | H]; discriminate].
    + split; [intros _; right; reflexivity | reflexivity].
  - split; [intros _; left; reflexivity | reflexivity].
Qed.

Lemma boolean_rule (p : Joi.path) (v : value) :
  Joi.validate Joi.boolean_ p v = None <-> is_boolean_like v.
Proof.
  unfold is_boolean_like.
  destruct v as [| | b | q | str | l | o]; cbn;
    try (split; [discriminate | intros [(b0 & H) | (s0 & H & _)]; discriminate]).
  - split; [| reflexivity]. intros _. left. exists b. reflexivity.
  - destruct (String.eqb_spec (toLowerCase str) "true") as [Et | Et]; cbn.
    + split; [| reflexivity]. intros _. right. exists str. split; [reflexivity | left; exact Et].
    + destruct (String.eqb_spec (toLowerCase str) "false") as [Ef | Ef].
      * split; [| reflexivity]. intros _. right. exists str.
        split; [reflexivity | right; exact Ef].
      * split; [discriminate |].
        intros [(b0 & H) | (s0 & H & [E | E])]; try discriminate;
          injection H as <-; contradiction.
Qed.

Lemma validateUploadOptions_accepts (req : request) :
  validateUploadOptions req = None <->
  Forall (fun kv => In (fst kv) ["folder"; "publicId"; "tags"; "optimize"]) (body req)
  /\ optional is_short_string (get "folder" (body req))
  /\ optional is_short_string (get "publicId" (body req))
  /\ optional is_tags (get "tags" (body req))
  /\ optional is_boolean_like (get "optimize" (body req)).
Proof.
  unfold optional.
  rewrite <- (short_string_rule [Joi.Key "folder"]).
  rewrite <- (short_string_rule [Joi.Key "publicId"]).
  rewrite <- tags_rule. rewrite <- (boolean_rule [Joi.Key "optimize"]).
  rewrite <- !optional_key.
  assert (Hunknown :
            Joi.first_error
              (fun kv : string * value =>
                 if includes (map Joi.name uploadOptionsSchema) (fst kv) then None
                 else Some (Joi.object_unknown [Joi.Key (fst kv)])) (body req) = None
            <-> Forall (fun kv => In (fst kv) ["folder"; "publicId"; "tags"; "optimize"])
                  (body req)).
  { rewrite first_error_none. split; intros H; eapply Forall_impl; try exact H;
      intros kv; cbn [map Joi.name uploadOptionsSchema].
    - destruct (includes _ (fst kv)) eqn:E; [| discriminate].
      intros _. apply includes_In. exact E.
    - intros Hin. apply includes_In in Hin. rewrite Hin. reflexivity. }
  rewrite <- Hunknown.
  unfold validateUploadOptions, Joi.validate_object, uploadOptionsSchema.
  cbn [Joi.first_error].
  destruct (Joi.validate_key (body req) _) eqn:E1;
    [split; [discriminate | intros (_ & H & _); discriminate] |].
  destruct (Joi.validate_key (body req) _) eqn:E2 at 1;
    [split; [discriminate | intros (_ & _ & H & _); congruence] |].
  destruct (Joi.validate_key (body req) _) eqn:E3 at 1;
    [split; [discriminate | intros (_ & _ & _ & H & _); congruence] |].
  destruct (Joi.validate_key (body req) _) eqn:E4 at 1;
    [split; [discriminate | intros (_ & _ & _ & _ & H); congruence] |].
  cbn [map Joi.name].
  destruct (Joi.first_error _ (body req)) eqn:E5.
  - split; [discriminate | intros (H & _); discriminate].
  - split; [| reflexivity]. intros _. splits; reflexivity || assumption.
Qed.

(** X17: the options validator lets a multipart body through exactly when
    its keys are among folder, publicId, tags and optimize, folder and
    publicId are absent or non-empty strings of at most 100 characters,
    tags is absent, a non-empty string or an array of non-empty strings,
    and optimize is absent, a boolean, or the word true or false in any
    letter case. *)
Theorem upload_options_validation (req : request) :
  validateUploadOptions req = None <->
  Forall (fun kv => In (fst kv) ["folder"; "publicId"; "tags"; "optimize"]) (body req)
  /\ optional is_short_string (get "folder" (body req))
  /\ optional is_short_string (get "publicId" (body req))
  /\ optional is_tags (get "tags" (body req))
  /\ optional is_boolean_like (get "optimize" (body req)).
Proof. apply validateUploadOptions_accepts. Qed.

Lemma validateFileUpload_accepts (req : request) :
  validateFileUpload P config req = None <->
  exists fs f,
    files req = Some fs /\ field "image" fs = Some f
    /\ (size f <= maxFileSize config)%Z
    /\ In (fileExtension f) (allowedFormats config)
    /\ In (mimetype f) validMimetypes.
Proof.
  unfold validateFileUpload, field.
  destruct (files req) as [fs |];
    [| split; [discriminate | intros (fs & f & H & _); discriminate]].
  destruct (files_under "image" fs) as [| f | l] eqn:Hfield;
    try (split; [discriminate
                | intros (fs' & f & H & H' & _); injection H as <-;
                  rewrite Hfield in H'; discriminate]).
  assert (Hsame : forall fs' f', Some fs = Some fs' ->
                    match files_under "image" fs' with
                    | Single f0 => Some f0
                    | _ => None
                    end = Some f' -> f' = f).
  { intros fs' f' [= <-]. rewrite Hfield. congruence. }
  destruct (size f >? maxFileSize config)%Z eqn:Hsize.
  { apply Z.gtb_lt in Hsize. split; [discriminate |].
    intros (fs' & f' & H1 & H2 & H3 & _). rewrite (Hsame _ _ H1 H2) in H3. lia. }
  destruct (includes (allowedFormats config) (fileExtension f)) eqn:Hext; cbn [negb].
  2:{ split; [discriminate |]. intros (fs' & f' & H1 & H2 & _ & H4 & _).
      rewrite (Hsame _ _ H1 H2) in H4. apply includes_In in H4. congruence. }
  destruct (includes validMimetypes (mimetype f)) eqn:Hmime; cbn [negb].
  2:{ split; [discriminate |]. intros (fs' & f' & H1 & H2 & _ & _ & H5).
      rewrite (Hsame _ _ H1 H2) in H5. apply includes_In in H5. congruence. }
  split; [| reflexivity]. intros _. exists fs, f.
  rewrite Z.gtb_ltb in Hsize. apply Z.ltb_ge in Hsize.
  rewrite Hfield.
  splits; try reflexivity; try assumption; apply includes_In; assumption.
Qed.

Lemma validateFileUpload_refuses (req : request) (resp : response) :
  validateFileUpload P config req = Some resp ->
  get_prop (json resp) "success" = VBool false
  /\ ((status resp = VInt 400
       /\ forall fs l, files req = Some fs -> files_under "image" fs <> Several l)
      \/ (resp = {| status := VInt 500;
                    json := VObj [("success", VBool false);
                                  ("error", VStr "File validation failed")] |}
          /\ exists fs l, files req = Some fs /\ files_under "image" fs = Several l)).
Proof.
  unfold validateFileUpload.
  destruct (files req) as [fs |];
    [| intros [= <-]; split; [reflexivity | left; split; [reflexivity | discriminate]]].
  destruct (files_under "image" fs) as [| f | l] eqn:Hfield.
  - intros [= <-]. split; [reflexivity | left]. split; [reflexivity |].
    intros fs' l [= <-]. congruence.
  - assert (Hone : forall fs' l, Some fs = Some fs' -> files_under "image" fs' <> Several l).
    { intros fs' l [= <-]. congruence. }
    destruct (size f >? maxFileSize config)%Z;
      [intros [= <-]; split; [reflexivity | left; split; [reflexivity | exact Hone]] |].
    destruct (includes (allowedFormats config) (fileExtension f)); cbn [negb];
      [| intros [= <-]; split; [reflexivity | left; split; [reflexivity | exact Hone]]].
    destruct (includes validMimetypes (mimetype f)); cbn [negb];
      [discriminate
      | intros [= <-]; split; [reflexivity | left; split; [reflexivity | exact Hone]]].
  - intros [= <-]. split; [reflexivity | right]. split; [reflexivity |].
    exists fs, l. split; [reflexivity | assumption].
Qed.

(** X18: the file validator lets a request through exactly when it
    carries one file under [image] whose size is within the limit, whose
    extension is in the allow-list and whose media type is one of the
    valid ones. Every refusal has success false and is answered by the
    upload route without any call. A refusal is a 400, except for a request
    with several files under [image], which is answered 500 'File
    validation failed'; a request without a file under [image] is refused
    with 'No image file provided'. *)
Theorem file_validation (req : request) :
  (validateFileUpload P config req = None <->
   exists fs f,
     files req = Some fs /\ field "image" fs = Some f
     /\ (size f <= maxFileSize config)%Z
     /\ In (fileExtension f) (allowedFormats config)
     /\ In (mimetype f) validMimetypes)
  /\ (forall resp,
        validateFileUpload P config req = Some resp ->
        get_prop (json resp) "success" = VBool false
        /\ (status resp = VInt 400 \/ status resp = VInt 500)
        /\ (status resp = VInt 500 <->
            exists fs l, files req = Some fs /\ files_under "image" fs = Several l)
        /\ forall s, run w (upload_route P config req) s = (resp, s, []))
  /\ (forall fs l,
        files req = Some fs -> files_under "image" fs = Several l ->
        validateFileUpload P config req
        = Some {| status := VInt 500;
                  json := VObj [("success", VBool false);
                                ("error", VStr "File validation failed")] |})
  /\ (files req = None
      \/ (exists fs, files req = Some fs /\ files_under "image" fs = Absent) ->
      validateFileUpload P config req
      = Some (bad_request
                ("No image file provided. Please upload a file with the field name "
                   ++ dquote ++ "image" ++ dquote))).
Proof.
  splits.
  - apply validateFileUpload_accepts.
  - intros resp H.
    destruct (validateFileUpload_refuses req resp H) as [H1 [[H2 H3] | [-> H3]]].
    + splits; try assumption.
      * left. exact H2.
      * rewrite H2. split; [discriminate |].
        intros (fs & l & Hfs & Hl). destruct (H3 fs l Hfs Hl).
      * intros s. apply route_rejected. cbn [first_response]. rewrite H. reflexivity.
    + splits; try reflexivity.
      * right. reflexivity.
      * split; [intros _; exact H3 | reflexivity].
      * intros s. apply route_rejected. cbn [first_response]. rewrite H. reflexivity.
  - unfold validateFileUpload. intros fs l -> ->. reflexivity.
  - unfold validateFileUpload. intros [-> | (fs & -> & ->)]; reflexivity.
Qed.

(** X19: a file within the size limit whose extension is not in the
    configured allow-list is answered 400 'Invalid file format. Allowed
    formats: ...' with the list as configured, and no call is made. *)
Theorem extension_refused (req : request) fs (f : file) (s : S) :
  files req = Some fs ->
  field "image" fs = Some f ->
  (size f <= maxFileSize config)%Z ->
  ~ In (fileExtension f) (allowedFormats config) ->
  run w (upload_route P config req) s
  = ({| status := VInt 400;
        json := VObj [("success", VBool false);
                      ("error",
                       VStr ("Invalid file format. Allowed formats: "
                               ++ join ", " (allowedFormats config)))] |},
     s, []).
Proof.
  intros Hfs Hf Hsize Hext. apply route_rejected. cbn [first_response].
  unfold validateFileUpload. rewrite Hfs, (proj1 (field_single _ _ _) Hf).
  destruct (Z.gtb_spec (size f) (maxFileSize config)); [lia |].
  destruct (includes (allowedFormats config) (fileExtension f)) eqn:E.
  - apply includes_In in E. contradiction.
  - reflexivity.
Qed.

(** How [uploadImage] ends, with the bytes it hands to the gateway. *)
Lemma uploadImage_outcome (f : file) (options : object) (s : S) :
  exists buf s1 t1,
    gateway_calls t1 = []
    /\ run w (uploadImage P (Some f) options) s
       = match w _ (UploadStream (upload_stream_options options) buf) s1 with
         | (Ok result, s2) =>
             (Ok (VObj [("success", VBool true);
                        ("data",
                         VObj [("publicId", get "public_id" result);
                               ("url", get "secure_url" result);
                               ("format", get "format" result);
                               ("width", get "width" result);
                               ("height", get "height" result);
                               ("bytes", get "bytes" result);
                               ("createdAt", get "created_at" result);
                               ("resourceType", get "resource_type" result);
                               ("type", get "type" result);
                               ("thumbnail",
                                getThumbnailUrl P (get "public_id" result)
                                  (get "format" result))])]),
              s2, t1 ++ [Call (UploadStream (upload_stream_options options) buf)])
         | (Throw e, s2) =>
             (Throw (new_Error P ("Image upload failed: "
                                    ++ ToString P (get "message" e))),
              s2, t1 ++ [Call (UploadStream (upload_stream_options options) buf)])
         end.
Proof.
  assert (Hopt : exists buf s1 t1,
             run w (if negb (is_false (get "optimize" options))
                    then optimizeImage (data f) (mimetype f)
                    else resolve (data f)) s = (Ok buf, s1, t1)
             /\ gateway_calls t1 = []).
  { destruct (is_false (get "optimize" options)); cbn [negb].
    - exists (data f), s, []. split; reflexivity.
    - destruct (optimizeImage_runs S w (data f) (mimetype f) s)
        as (out & s' & t & Hrun & Hgw & _).
      exists out, s', t. split; assumption. }
  destruct Hopt as (buf & s1 & t1 & Hrun & Hgw).
  exists buf, s1, t1. split; [assumption |].
  unfold uploadImage, try_catch, and_then.
  rewrite !run_bind, Hrun. rcbn.
  destruct (w _ (UploadStream (upload_stream_options options) buf) s1)
    as [[result | e] s2]; rcbn; rewrite ?app_nil_r; reflexivity.
Qed.


(** The upload route on a request its validators let through, with the
    bytes it hands to the gateway. *)
Lemma upload_route_outcome (req : request) (s : S) :
  first_response [validateFileUpload P config; validateUploadOptions] req = None ->
  exists buf s1 t1,
    gateway_calls t1 = []
    /\ run w (upload_route P config req) s
       = let options := upload_options (body req) in
         match w _ (UploadStream (upload_stream_options options) buf) s1 with
         | (Ok result, s2) =>
             ({| status := VInt 201;
                 json :=
                   VObj [("success", VBool true);
                         ("data",
                          VObj [("publicId", get "public_id" result);
                                ("url", get "secure_url" result);
                                ("format", get "format" result);
                                ("width", get "width" result);
                                ("height", get "height" result);
                                ("bytes", get "bytes" result);
                                ("createdAt", get "created_at" result);
                                ("resourceType", get "resource_type" result);
                                ("type", get "type" result);
                                ("thumbnail",
                                 getThumbnailUrl P (get "public_id" result)
                                   (get "format" result))])] |},
              s2, t1 ++ [Call (UploadStream (upload_stream_options options) buf)])
         | (Throw e, s2) =>
             let err := new_Error P ("Image upload failed: "
                                       ++ ToString P (get "message" e)) in
             (error_response P err,
              snd (w _ (ConsoleError [VStr "Error:"; VObj err]) s2),
              (t1 ++ [Call (UploadStream (upload_stream_options options) buf)])
                ++ [Call (ConsoleError [VStr "Error:"; VObj err])])
         end.
Proof.
  intros Hv.
  assert (Hfile : validateFileUpload P config req = None).
  { cbn [first_response] in Hv.
    destruct (validateFileUpload P config req); [discriminate | reflexivity]. }
  apply validateFileUpload_accepts in Hfile.
  destruct Hfile as (fs & f & Hfs & Hf & _).
  destruct (uploadImage_outcome f (upload_options (body req)) s)
    as (buf & s1 & t1 & Hgw & Hrun).
  exists buf, s1, t1. split; [assumption |].
  rewrite (upload_route_runs P config S w req fs f s Hv Hfs Hf), Hrun.
  cbv zeta.
  destruct (w _ (UploadStream (upload_stream_options (upload_options (body req))) buf) s1)
    as [[result | e] s2]; [reflexivity |].
  rewrite run_errorHandler. reflexivity.
Qed.

(** X20: the answers of POST /images/upload, by the verdict of its
    validators. What the file validator answers is the answer, without any
    call and with the world as it was: a 400, or the 500 'File validation
    failed' for several files under [image]. Otherwise what the options
    validator answers is the answer, a 400, again without any call.
    Otherwise the route makes exactly one gateway call, the upload stream
    with the options of the form, and answers 201 with success true when
    the stream resolves and 500 with success false when it is rejected. So
    the status is 400, 201 or 500 and nothing else. *)
Theorem upload_route_statuses (req : request) (s : S) :
  let r := run w (upload_route P config req) s in
  let options := upload_stream_options (upload_options (body req)) in
  (forall resp,
      validateFileUpload P config req = Some resp ->
      r = (resp, s, [])
      /\ get_prop (json resp) "success" = VBool false
      /\ (status resp = VInt 400
          \/ (resp = {| status := VInt 500;
                        json := VObj [("success", VBool false);
                                      ("error", VStr "File validation failed")] |}
              /\ exists fs l, files req = Some fs /\ files_under "image" fs = Several l)))
  /\ (validateFileUpload P config req = None ->
      forall resp,
        validateUploadOptions req = Some resp ->
        r = (resp, s, [])
        /\ get_prop (json resp) "success" = VBool false
        /\ status resp = VInt 400)
  /\ (validateFileUpload P config req = None ->
      validateUploadOptions req = None ->
      exists buf s1,
        gateway_calls (trace_of r) = [Call (UploadStream options buf)]
        /\ match w _ (UploadStream options buf) s1 with
           | (Ok _, s2) =>
               status (result_of r) = VInt 201
               /\ get_prop (json (result_of r)) "success" = VBool true
               /\ state_of r = s2
           | (Throw _, _) =>
               status (result_of r) = VInt 500
               /\ get_prop (json (result_of r)) "success" = VBool false
           end)
  /\ (status (result_of r) = VInt 400
      \/ status (result_of r) = VInt 201
      \/ status (result_of r) = VInt 500).
Proof.
  cbv zeta.
  assert (Hfile : forall resp,
             validateFileUpload P config req = Some resp ->
             run w (upload_route P config req) s = (resp, s, [])).
  { intros resp H. apply route_rejected. cbn [first_response]. rewrite H. reflexivity. }
  assert (Hoptions : validateFileUpload P config req = None ->
                     forall resp,
                       validateUploadOptions req = Some resp ->
                       run w (upload_route P config req) s = (resp, s, [])
                       /\ get_prop (json resp) "success" = VBool false
                       /\ status resp = VInt 400).
  { intros H resp Hopt. split.
    - apply route_rejected. cbn [first_response]. rewrite H, Hopt. reflexivity.
    - unfold validateUploadOptions in Hopt.
      destruct (Joi.validate_object uploadOptionsSchema (body req)); [| discriminate].
      injection Hopt as <-. split; reflexivity. }
  assert (Hupload :
            validateFileUpload P config req = None ->
            validateUploadOptions req = None ->
            exists buf s1,
              gateway_calls (trace_of (run w (upload_route P config req) s))
              = [Call (UploadStream (upload_stream_options (upload_options (body req)))
                         buf)]
              /\ match w _ (UploadStream
                              (upload_stream_options (upload_options (body req))) buf) s1
                 with
                 | (Ok _, s2) =>
                     status (result_of (run w (upload_route P config req) s)) = VInt 201
                     /\ get_prop (json (result_of (run w (upload_route P config req) s)))
                          "success" = VBool true
                     /\ state_of (run w (upload_route P config req) s) = s2
                 | (Throw _, _) =>
                     status (result_of (run w (upload_route P config req) s)) = VInt 500
                     /\ get_prop (json (result_of (run w (upload_route P config req) s)))
                          "success" = VBool false
                 end).
  { intros H Hopt.
    assert (Hv : first_response [validateFileUpload P config; validateUploadOptions] req
                 = None).
    { cbn [first_response]. rewrite H, Hopt. reflexivity. }
    destruct (upload_route_outcome req s Hv) as (buf & s1 & t1 & Hgw & Hrun).
    exists buf, s1. rewrite Hrun. cbv zeta.
    destruct (w _ (UploadStream (upload_stream_options (upload_options (body req))) buf) s1)
      as [[result | e] s2] eqn:Hw.
    - splits; try reflexivity.
      unfold trace_of. cbn [snd]. rewrite gateway_calls_app, Hgw. reflexivity.
    - rewrite error_response_Error. splits; try reflexivity.
      unfold trace_of. cbn [snd]. rewrite !gateway_calls_app, Hgw. reflexivity. }
  splits.
  - intros resp H. split; [exact (Hfile resp H) |].
    destruct (validateFileUpload_refuses req resp H) as [H1 [[H2 _] | [-> H3]]].
    + split; [exact H1 | left; exact H2].
    + split; [reflexivity | right; split; [reflexivity | exact H3]].
  - exact Hoptions.
  - exact Hupload.
  - destruct (validateFileUpload P config req) as [resp |] eqn:H.
    + rewrite (Hfile resp eq_refl).
      destruct (validateFileUpload_refuses req resp H) as [_ [[H2 _] | [-> _]]].
      * left. exact H2.
      * right. right. reflexivity.
    + destruct (validateUploadOptions req) as [resp |] eqn:Hopt.
      * destruct (Hoptions eq_refl resp eq_refl) as (-> & _ & H2). left. exact H2.
      * destruct (Hupload eq_refl eq_refl) as (buf & s1 & _ & Hend).
        destruct (w _ (UploadStream (upload_stream_options (upload_options (body req)))
                         buf) s1) as [[result | e] s2].
        -- right. left. apply Hend.
        -- right. right. apply Hend.
Qed.

(** C9: on the upload route optimization is off exactly when the form
    field [optimize] is the string "false", among the requests the
    validators let through: for a raster file sharp is then not called and
    the gateway receives the bytes of the file, and sharp is called for
    every other accepted value and for the absent field. The accepted
    values are the booleans and the words true and false in any letter
    case: any other value of the field, such as "0" or "no", is answered
    400 by [validateUploadOptions] without any call, so it neither enables
    optimization nor uploads. *)
Theorem optimize_flag_on_the_route (req : request) fs (f : file) (s : S) :
  validateFileUpload P config req = None ->
  files req = Some fs ->
  field "image" fs = Some f ->
  mimetype f <> "image/svg+xml" ->
  let flag := get "optimize" (body req) in
  let r := run w (upload_route P config req) s in
  (validateUploadOptions req = None ->
   optional is_boolean_like flag
   /\ existsb is_sharp_call (trace_of r) = negb (is_str flag "false")
   /\ (existsb is_sharp_call (trace_of r) = false <-> flag = VStr "false")
   /\ (flag = VStr "false" ->
       exists t,
         gateway_calls (trace_of r)
         = Call (UploadStream (upload_stream_options (upload_options (body req))) (data f))
             :: gateway_calls t
         /\ gateway_calls t = []))
  /\ (~ optional is_boolean_like flag ->
      exists resp,
        validateUploadOptions req = Some resp
        /\ r = (resp, s, [])
        /\ status resp = VInt 400
        /\ get_prop (json resp) "success" = VBool false).
Proof.
  intros Hfile Hfs Hf Hmime. cbv zeta. split.
  - intros Hopt.
    assert (Hv : first_response [validateFileUpload P config; validateUploadOptions] req
                 = None).
    { cbn [first_response]. rewrite Hfile, Hopt. reflexivity. }
    assert (Hflag : get "optimize" (upload_options (body req))
                    = VBool (negb (is_str (get "optimize" (body req)) "false")))
      by reflexivity.
    assert (Hsharp : existsb is_sharp_call
                       (trace_of (run w (upload_route P config req) s))
                     = negb (is_str (get "optimize" (body req)) "false")
                     /\ (is_str (get "optimize" (body req)) "false" = true ->
                         exists t,
                           gateway_calls (trace_of (run w (upload_route P config req) s))
                           = Call (UploadStream
                                     (upload_stream_options (upload_options (body req)))
                                     (data f)) :: gateway_calls t
                           /\ gateway_calls t = [])).
    { rewrite (upload_route_runs P config S w req fs f s Hv Hfs Hf).
      destruct (uploadImage_runs P S w f (upload_options (body req)) s)
        as (buf & s1 & t1 & _ & Htr & _ & _ & _ & Hskip & Hcalled).
      rewrite Hflag in Hskip, Hcalled.
      destruct (run w (uploadImage P (Some f) (upload_options (body req))) s)
        as [[[v | err] s2] t2]; unfold trace_of in Htr; cbn [snd] in Htr; subst t2;
        try rewrite run_errorHandler; unfold trace_of; cbn [snd];
        rewrite ?existsb_app, ?gateway_calls_app;
        cbn [existsb is_sharp_call gateway_calls filter is_gateway_call orb];
        rewrite ?orb_false_r, ?app_nil_r;
        (destruct (is_str (get "optimize" (body req)) "false"); cbn [negb is_false] in *;
         [destruct Hskip as [-> ->]; [left; reflexivity |];
          split; [reflexivity | intros _; exists []; split; reflexivity]
         | split; [apply Hcalled; [reflexivity | assumption] | discriminate]]). }
    destruct Hsharp as [Hcalls Hbytes]. splits.
    + apply validateUploadOptions_accepts in Hopt. apply Hopt.
    + exact Hcalls.
    + rewrite Hcalls, <- is_str_true.
      destruct (is_str (get "optimize" (body req)) "false"); cbn; split; congruence.
    + intros H. apply Hbytes, is_str_true, H.
  - intros Hnot.
    destruct (validateUploadOptions req) as [resp |] eqn:Hopt.
    + exists resp. splits; try reflexivity.
      * apply route_rejected. cbn [first_response]. rewrite Hfile, Hopt. reflexivity.
      * unfold validateUploadOptions in Hopt.
        destruct (Joi.validate_object uploadOptionsSchema (body req)); [| discriminate].
        injection Hopt as <-. reflexivity.
      * unfold validateUploadOptions in Hopt.
        destruct (Joi.validate_object uploadOptionsSchema (body req)); [| discriminate].
        injection Hopt as <-. reflexivity.
    + apply validateUploadOptions_accepts in Hopt. exfalso. apply Hnot, Hopt.
Qed.

(** X21: when the gateway accepts the upload, the route answers 201 and
    the body names the asset as the provider does: publicId, url, format,
    width, height, bytes, createdAt, resourceType and type come from the
    result of the upload stream, and thumbnail is the URL the SDK derives
    from the identifier and the format with a 200 by 200 fill crop,
    automatic quality and automatic format. *)
Theorem upload_created (req : request) (result : object) (s : S) :
  first_response [validateFileUpload P config; validateUploadOptions] req = None ->
  (forall buf s1, exists s2,
      w _ (UploadStream (upload_stream_options (upload_options (body req))) buf) s1
      = (Ok result, s2)) ->
  let resp := result_of (run w (upload_route P config req) s) in
  let data := get_prop (json resp) "data" in
  status resp = VInt 201
  /\ get_prop (json resp) "success" = VBool true
  /\ get_prop data "publicId" = get "public_id" result
  /\ get_prop data "url" = get "secure_url" result
  /\ get_prop data "format" = get "format" result
  /\ get_prop data "width" = get "width" result
  /\ get_prop data "height" = get "height" result
  /\ get_prop data "bytes" = get "bytes" result
  /\ get_prop data "createdAt" = get "created_at" result
  /\ get_prop data "resourceType" = get "resource_type" result
  /\ get_prop data "type" = get "type" result
  /\ get_prop data "thumbnail"
     = cloudinary_url P (get "public_id" result)
         [("transformation",
           VArr [VObj [("width", VInt 200); ("height", VInt 200); ("crop", VStr "fill")];
                 VObj [("quality", VStr "auto"); ("fetch_format", VStr "auto")]]);
          ("format", get "format" result)].
Proof.
  intros Hv Hgate. cbv zeta.
  destruct (upload_route_outcome req s Hv) as (buf & s1 & t1 & Hgw & Hrun).
  rewrite Hrun. cbv zeta.
  destruct (Hgate buf s1) as (s2 & Hw).
  rewrite Hw. splits; reflexivity.
Qed.

(** X22: what the gateway receives with an upload the validators let
    through: the folder of the form or 'uploads' when there is none, as a
    non-empty string; the identifier of the form or none; the tags always
    as an array of non-empty strings (a single tag becomes an array of
    one, no tag the empty array); resource_type 'auto'; no transformation
    and no context. Every gateway call of the route carries these
    options. *)
Theorem gateway_upload_options (req : request) :
  validateUploadOptions req = None ->
  let options := upload_stream_options (upload_options (body req)) in
  (exists folder,
      get "folder" options = VStr folder /\ folder <> ""
      /\ (get "folder" (body req) = VUndefined -> folder = "uploads")
      /\ (get "folder" (body req) <> VUndefined -> get "folder" (body req) = VStr folder))
  /\ get "public_id" options = get "publicId" (body req)
  /\ optional is_short_string (get "public_id" options)
  /\ (exists tags,
        get "tags" options = VArr (map VStr tags) /\ Forall (fun t => t <> "") tags
        /\ (get "tags" (body req) = VUndefined -> tags = [])
        /\ (forall t, get "tags" (body req) = VStr t -> tags = [t]))
  /\ get "resource_type" options = VStr "auto"
  /\ get "transformation" options = VUndefined
  /\ get "context" options = VUndefined
  /\ (forall s c,
        In c (gateway_calls (trace_of (run w (upload_route P config req) s))) ->
        exists buf, c = Call (UploadStream options buf)).
Proof.
  intros Hv. cbv zeta.
  pose proof Hv as Hopt. apply validateUploadOptions_accepts in Hopt.
  destruct Hopt as (_ & Hfolder & Hid & Htags & _).
  unfold upload_stream_options, upload_options.
  cbn [get String.eqb Ascii.eqb Bool.eqb].
  splits; try reflexivity.
  - destruct Hfolder as [E | (f & E & Hne & _)]; rewrite E.
    + exists "uploads". splits; try reflexivity; try discriminate. congruence.
    + exists f. unfold or_else, truthy.
      destruct (String.eqb_spec f ""); [contradiction |]. cbn [negb].
      splits; try reflexivity; try assumption. discriminate.
  - exact Hid.
  - destruct Htags as [E | [(t & E & Hne) | (ts & E & Hall)]]; rewrite E.
    + exists []. cbn. splits; try reflexivity; try constructor. discriminate.
    + exists [t]. unfold or_else, truthy, isArray.
      destruct (String.eqb_spec t ""); [contradiction |]. cbn.
      splits; try reflexivity.
      * constructor; [assumption | constructor].
      * discriminate.
      * intros t' [= <-]. reflexivity.
    + exists ts. cbn. splits; try reflexivity; try assumption.
      * destruct ts; discriminate.
      * intros t H. destruct ts; discriminate.
  - intros s c Hc.
    destruct (first_response [validateFileUpload P config; validateUploadOptions] req)
      as [resp |] eqn:Hfirst.
    + unfold upload_route in Hc.
      rewrite (route_rejected P S w _ _ req resp s Hfirst) in Hc. destruct Hc.
    + destruct (upload_route_outcome req s Hfirst) as (buf & s1 & t1 & Hgw & Hrun).
      rewrite Hrun in Hc. cbv zeta in Hc. exists buf.
      destruct (w _ (UploadStream (upload_stream_options (upload_options (body req))) buf) s1)
        as [[result | e] s2];
        unfold trace_of in Hc; cbn [snd] in Hc;
        rewrite !gateway_calls_app, Hgw in Hc;
        destruct Hc as [<- | []]; reflexivity.
Qed.

End MoreProperties.

(** ** Properties of listing, search, health and configuration *)

Ltac rcbn2 := cbn -[error_response new_Error new_error Math_min].

Section ServiceProperties.

Variable P : platform.
Variable B : builtins.
Variable S : Type.
Variable w : world2 S.

Lemma run2_bind A C (p : prog2 A) (f : A -> prog2 C) (s : S) :
  run2 w (bind2 p f) s =
  let '(a, s1, t1) := run2 w p s in
  let '(b, s2, t2) := run2 w (f a) s1 in
  (b, s2, t1 ++ t2).
Proof.
  revert s. induction p as [a | X e k IH]; intros s; simpl.
  - destruct (run2 w (f a) s) as [[b s2] t2]. reflexivity.
  - destruct (w X e s) as [x s1]. rewrite IH.
    destruct (run2 w (k x) s1) as [[a s2] t1].
    destruct (run2 w (f a) s2) as [[b s3] t2]. reflexivity.
Qed.

Lemma run2_errorHandler (err : object) (s : S) :
  run2 w (lift (errorHandler P err)) s =
  (error_response P err,
   snd (w _ (Base (ConsoleError [VStr "Error:"; VObj err])) s),
   [Call2 (Base (ConsoleError [VStr "Error:"; VObj err]))]).
Proof.
  unfold errorHandler. cbn -[error_response].
  destruct (w unit (Base (ConsoleError [VStr "Error:"; VObj err])) s). reflexivity.
Qed.

Lemma run2_asyncHandler2 (fn : request -> prog2 (outcome response)) (req : request) (s : S) :
  run2 w (asyncHandler2 P fn req) s =
  let '(r, s1, t1) := run2 w (fn req) s in
  match r with
  | Ok resp => (resp, s1, t1)
  | Throw err =>
      (error_response P err,
       snd (w _ (Base (ConsoleError [VStr "Error:"; VObj err])) s1),
       t1 ++ [Call2 (Base (ConsoleError [VStr "Error:"; VObj err]))])
  end.
Proof.
  unfold asyncHandler2. rewrite run2_bind.
  destruct (run2 w (fn req) s) as [[[resp | err] s1] t1].
  - cbn. rewrite app_nil_r. reflexivity.
  - rewrite run2_errorHandler. reflexivity.
Qed.

Lemma route2_rejected validators handler req resp (s : S) :
  first_response validators req = Some resp ->
  run2 w (route2 P validators handler req) s = (resp, s, []).
Proof. intros H. unfold route2. rewrite H. reflexivity. Qed.

(** The options the list handler builds from the query string. *)
Lemma list_route_runs (req : request) (s : S) :
  validateListQuery B req = None ->
  run2 w (list_route P B req) s =
  let options :=
    [("maxResults", maxResults_or_30 P B (get "maxResults" (query req)));
     ("nextCursor", get "nextCursor" (query req));
     ("prefix", get "prefix" (query req));
     ("tags", VBool (is_str (get "tags" (query req)) "true"))] in
  match w _ (ApiResources (list_query P B options)) s with
  | (Ok result, s1) =>
      match images_page P result with
      | Ok v => (res_json v, s1, [Call2 (ApiResources (list_query P B options))])
      | Throw e =>
          let err := new_Error P ("Failed to list images: "
                                    ++ ToString P (get "message" e)) in
          (error_response P err,
           snd (w _ (Base (ConsoleError [VStr "Error:"; VObj err])) s1),
           [Call2 (ApiResources (list_query P B options));
            Call2 (Base (ConsoleError [VStr "Error:"; VObj err]))])
      end
  | (Throw e, s1) =>
      let err := new_Error P ("Failed to list images: "
                                ++ ToString P (get "message" e)) in
      (error_response P err,
       snd (w _ (Base (ConsoleError [VStr "Error:"; VObj err])) s1),
       [Call2 (ApiResources (list_query P B options));
        Call2 (Base (ConsoleError [VStr "Error:"; VObj err]))])
  end.
Proof.
  intros Hv. unfold list_route, route2. cbn [first_response]. rewrite Hv.
  rewrite run2_asyncHandler2. cbv zeta.
  unfold listImages, try_catch2, and_then2, perform2. rewrite !run2_bind.
  cbn [run2].
  destruct (w _ (ApiResources _) s) as [[result | e] s1]; cbn [bind2 run2].
  - destruct (images_page P result) as [v | e]; reflexivity.
  - reflexivity.
Qed.

Lemma maxResults_or_30_spec (v : value) :
  exists z, maxResults_or_30 P B v = VInt z /\ z <> 0%Z
            /\ (parseInt B (ToString P v) = None \/ parseInt B (ToString P v) = Some 0%Z ->
                z = 30%Z)
            /\ (forall n, parseInt B (ToString P v) = Some n -> n <> 0%Z -> z = n).
Proof.
  unfold maxResults_or_30. destruct (parseInt B (ToString P v)) as [n |].
  - destruct (Z.eqb_spec n 0) as [-> | Hne].
    + exists 30%Z. splits; try reflexivity; try lia. intros n [= <-] H. contradiction.
    + exists n. splits; try reflexivity; try assumption.
      * intros [H | H]; [discriminate | congruence].
      * intros n' [= <-] _. reflexivity.
  - exists 30%Z. splits; try reflexivity; try lia. discriminate.
Qed.

Lemma page_size_of (z : Z) :
  z <> 0%Z ->
  exists n, Math_min (Num (inject_Z z)) 500 = Num (inject_Z n)
            /\ (n <= 500)%Z /\ n <> 0%Z
            /\ n = (if (z <=? 500)%Z then z else 500%Z).
Proof.
  intros Hz. unfold Math_min.
  destruct (Qle_bool (inject_Z z) 500) eqn:E.
  - apply Qle_bool_iff in E. change 500%Q with (inject_Z 500) in E.
    rewrite <- Zle_Qle in E. exists z.
    destruct (Z.leb_spec z 500); [| lia]. splits; try reflexivity; assumption.
  - assert (~ (z <= 500)%Z).
    { intros H. rewrite Zle_Qle in H. apply Qle_bool_iff in H.
      change (inject_Z 500) with 500%Q in H. congruence. }
    exists 500%Z. destruct (Z.leb_spec z 500); [contradiction |].
    splits; try reflexivity; lia.
Qed.


Lemma search_route_runs (req : request) (s : S) :
  validateSearchQuery B req = None ->
  truthy (get "expression" (query req)) = true ->
  run2 w (search_route P B req) s =
  let page :=
    Math_min (ToNumber P B
                (with_default (maxResults_or_30 P B (get "maxResults" (query req)))
                   (VInt 30))) 500 in
  let e := SearchExecute (get "expression" (query req)) page
             (get "nextCursor" (query req)) in
  match w _ e s with
  | (Ok result, s1) =>
      match images_page P result with
      | Ok v => (res_json v, s1, [Call2 e])
      | Throw e' =>
          let err := new_Error P ("Search failed: " ++ ToString P (get "message" e')) in
          (error_response P err,
           snd (w _ (Base (ConsoleError [VStr "Error:"; VObj err])) s1),
           [Call2 e; Call2 (Base (ConsoleError [VStr "Error:"; VObj err]))])
      end
  | (Throw e', s1) =>
      let err := new_Error P ("Search failed: " ++ ToString P (get "message" e')) in
      (error_response P err,
       snd (w _ (Base (ConsoleError [VStr "Error:"; VObj err])) s1),
       [Call2 e; Call2 (Base (ConsoleError [VStr "Error:"; VObj err]))])
  end.
Proof.
  intros Hv Hexpr. unfold search_route, route2. cbn [first_response]. rewrite Hv.
  rewrite run2_asyncHandler2. cbv zeta.
  unfold searchImages, try_catch2, and_then2, perform2.
  cbn [get String.eqb Ascii.eqb Bool.eqb]. rewrite Hexpr. cbn [negb].
  rewrite !run2_bind. cbn [run2].
  destruct (w _ (SearchExecute _ _ _) s) as [[result | e] s1]; cbn [bind2 run2].
  - destruct (images_page P result) as [v | e]; reflexivity.
  - reflexivity.
Qed.

Lemma search_expression_truthy (req : request) :
  validateSearchQuery B req = None ->
  exists e, get "expression" (query req) = VStr e /\ e <> "".
Proof.
  unfold validateSearchQuery, JoiQuery.validate_object, searchQuerySchema.
  cbn [JoiQuery.first_error]. unfold JoiQuery.validate_key at 1.
  cbn [JoiQuery.name JoiQuery.rule_of JoiQuery.required].
  destruct (get "expression" (query req)) as [| | b | q | e | l | o];
    try discriminate.
  cbn [JoiQuery.validate Joi.validate]. destruct (String.eqb_spec e ""); [discriminate |].
  intros _. exists e. split; [reflexivity | assumption].
Qed.

(** X23: the page size handed to the provider. When its validator
    refuses the query, GET /images answers what the validator answers and
    makes no call; when the validator accepts it, the route makes exactly
    one gateway call, a listing of the resources of type 'image' uploaded
    ('upload'), whose [max_results] is an integer that is at most 500 and
    never 0: 30 when [parseInt] of the [maxResults] parameter is NaN or 0,
    the parsed integer when that is at most 500, and 500 above. So it is
    for GET /images/search/query and the page size of its one search. *)
Theorem page_size_bound (req : request) (s : S) :
  let parsed := parseInt B (ToString P (get "maxResults" (query req))) in
  let size n :=
    (n <= 500)%Z /\ n <> 0%Z
    /\ (parsed = None \/ parsed = Some 0%Z -> n = 30%Z)
    /\ (forall z, parsed = Some z -> z <> 0%Z -> n = if (z <=? 500)%Z then z else 500%Z) in
  (forall resp,
      validateListQuery B req = Some resp ->
      run2 w (list_route P B req) s = (resp, s, []))
  /\ (validateListQuery B req = None ->
      exists q n,
        gateway_calls2 (trace_of2 (run2 w (list_route P B req) s))
        = [Call2 (ApiResources q)]
        /\ Query.max_results q = Num (inject_Z n) /\ size n
        /\ Query.resource_type q = VStr "image" /\ Query.type q = "upload")
  /\ (forall resp,
        validateSearchQuery B req = Some resp ->
        run2 w (search_route P B req) s = (resp, s, []))
  /\ (validateSearchQuery B req = None ->
      exists n,
        gateway_calls2 (trace_of2 (run2 w (search_route P B req) s))
        = [Call2 (SearchExecute (get "expression" (query req)) (Num (inject_Z n))
                    (get "nextCursor" (query req)))]
        /\ size n).
Proof.
  cbv zeta.
  destruct (maxResults_or_30_spec (get "maxResults" (query req)))
    as (z & Hz & Hne & Hdef & Hparsed).
  destruct (page_size_of z Hne) as (n & Hn & Hle & Hn0 & Hnz).
  assert (Hsize : (n <= 500)%Z /\ n <> 0%Z
                  /\ (parseInt B (ToString P (get "maxResults" (query req))) = None
                      \/ parseInt B (ToString P (get "maxResults" (query req))) = Some 0%Z ->
                      n = 30%Z)
                  /\ (forall z0,
                         parseInt B (ToString P (get "maxResults" (query req))) = Some z0 ->
                         z0 <> 0%Z -> n = if (z0 <=? 500)%Z then z0 else 500%Z)).
  { splits; try assumption.
    - intros H. rewrite (Hdef H) in Hnz. exact Hnz.
    - intros z0 H0 Hz0. rewrite <- (Hparsed z0 H0 Hz0). exact Hnz. }
  split; [| split; [| split]].
  - intros resp Hv. unfold list_route. apply route2_rejected.
    cbn [first_response]. rewrite Hv. reflexivity.
  - intros Hv. rewrite (list_route_runs req s Hv). cbv zeta.
    eexists _, n.
    assert (Hq : Query.max_results
                   (list_query P B
                      [("maxResults", maxResults_or_30 P B (get "maxResults" (query req)));
                       ("nextCursor", get "nextCursor" (query req));
                       ("prefix", get "prefix" (query req));
                       ("tags", VBool (is_str (get "tags" (query req)) "true"))])
                 = Num (inject_Z n)).
    { unfold list_query. cbn [Query.max_results get String.eqb Ascii.eqb Bool.eqb].
      rewrite Hz. exact Hn. }
    destruct (w _ (ApiResources _) s) as [[result | e] s1];
      [destruct (images_page P result) |];
      (splits; [reflexivity | exact Hq | apply Hsize.. | reflexivity | reflexivity]).
  - intros resp Hv. unfold search_route. apply route2_rejected.
    cbn [first_response]. rewrite Hv. reflexivity.
  - intros Hv. destruct (search_expression_truthy req Hv) as (e & He & Hne').
    assert (Ht : truthy (get "expression" (query req)) = true).
    { rewrite He. cbn. destruct (String.eqb_spec e ""); [contradiction | reflexivity]. }
    rewrite (search_route_runs req s Hv Ht). cbv zeta. rewrite Hz.
    cbn [with_default VInt ToNumber]. rewrite Hn.
    exists n.
    destruct (w _ (SearchExecute _ _ _) s) as [[result | e'] s1];
      [destruct (images_page P result) |];
      (split; [reflexivity | exact Hsize]).
Qed.


Lemma optional_query_string (o : object) (k : string) :
  JoiQuery.validate_key B o
    {| JoiQuery.name := k; JoiQuery.rule_of := JoiQuery.schema (Joi.string_ None);
       JoiQuery.required := false |} = None ->
  optional is_nonempty_string (get k o).
Proof.
  unfold JoiQuery.validate_key, optional, is_nonempty_string.
  cbn [JoiQuery.name JoiQuery.rule_of JoiQuery.required JoiQuery.validate Joi.validate].
  destruct (get k o) as [| | b | q | str | l | o']; try discriminate.
  - intros _. left. reflexivity.
  - destruct (String.eqb_spec str ""); [discriminate |].
    intros _. right. exists str. split; [reflexivity | assumption].
Qed.

Lemma list_query_accepted (req : request) :
  validateListQuery B req = None ->
  optional is_nonempty_string (get "nextCursor" (query req))
  /\ optional is_nonempty_string (get "prefix" (query req)).
Proof.
  unfold validateListQuery, JoiQuery.validate_object, listQuerySchema.
  cbn [JoiQuery.first_error].
  destruct (JoiQuery.validate_key B (query req) _) eqn:E1; [discriminate |].
  destruct (JoiQuery.validate_key B (query req) _) eqn:E2 at 1; [discriminate |].
  destruct (JoiQuery.validate_key B (query req) _) eqn:E3 at 1; [discriminate |].
  intros _. split; apply optional_query_string; assumption.
Qed.

(** X24: the optional keys of a listing. For a query the validator lets
    through, the call to the provider carries [next_cursor] and [prefix]
    exactly when the query has them, with their values, and it carries
    [tags: true] exactly when the [tags] parameter is the string 'true':
    another spelling the validator accepts, such as 'True', asks for no
    tags. *)
Theorem list_query_keys (req : request) (s : S) :
  validateListQuery B req = None ->
  exists q,
    gateway_calls2 (trace_of2 (run2 w (list_route P B req) s)) = [Call2 (ApiResources q)]
    /\ (get "nextCursor" (query req) = VUndefined -> Query.next_cursor q = None)
    /\ (get "nextCursor" (query req) <> VUndefined ->
        Query.next_cursor q = Some (get "nextCursor" (query req)))
    /\ (get "prefix" (query req) = VUndefined -> Query.prefix q = None)
    /\ (get "prefix" (query req) <> VUndefined ->
        Query.prefix q = Some (get "prefix" (query req)))
    /\ (get "tags" (query req) = VStr "true" -> Query.tags q = Some true)
    /\ (get "tags" (query req) <> VStr "true" -> Query.tags q = None).
Proof.
  intros Hv. destruct (list_query_accepted req Hv) as (Hcursor & Hprefix).
  rewrite (list_route_runs req s Hv). cbv zeta.
  eexists. split.
  - destruct (w _ (ApiResources _) s) as [[result | e] s1];
      [destruct (images_page P result) |]; reflexivity.
  - unfold list_query.
    cbn [Query.next_cursor Query.prefix Query.tags get String.eqb Ascii.eqb Bool.eqb].
    assert (Htruthy : forall v, optional is_nonempty_string v ->
                                truthy v = negb (match v with VUndefined => true | _ => false end)).
    { intros v [-> | (str & -> & Hne)]; cbn; [reflexivity |].
      destruct (String.eqb_spec str ""); [contradiction | reflexivity]. }
    rewrite (Htruthy _ Hcursor), (Htruthy _ Hprefix).
    splits.
    + intros ->. reflexivity.
    + intros H. destruct (get "nextCursor" (query req)); try reflexivity. contradiction.
    + intros ->. reflexivity.
    + intros H. destruct (get "prefix" (query req)); try reflexivity. contradiction.
    + intros ->. reflexivity.
    + intros H. destruct (is_str (get "tags" (query req)) "true") eqn:E; [| reflexivity].
      apply is_str_true in E. contradiction.
Qed.

Lemma shape_all_objects (l : list value) :
  Forall (fun r => r <> VUndefined /\ r <> VNull) l ->
  shape_all P l
  = Ok (map (fun r =>
               VObj [("publicId", get_prop r "public_id");
                     ("url", get_prop r "secure_url");
                     ("format", get_prop r "format");
                     ("width", get_prop r "width");
                     ("height", get_prop r "height");
                     ("bytes", get_prop r "bytes");
                     ("createdAt", get_prop r "created_at");
                     ("thumbnail",
                      getThumbnailUrl P (get_prop r "public_id") (get_prop r "format"))])
          l).
Proof.
  induction 1 as [| r l [H1 H2] _ IH]; [reflexivity |].
  cbn [shape_all map]. rewrite IH.
  destruct r; try reflexivity; contradiction.
Qed.

(** X25: a page of results. When the provider resolves a listing or a
    search with an array [resources] of resources, the route answers 200
    with [images] holding one entry per resource, in the same order, each
    with publicId, url, format, width, height, bytes and createdAt taken
    from the resource and with its derived thumbnail; [totalCount] and
    [nextCursor] are the provider's [total_count] and [next_cursor]. *)
Theorem page_of_results (req : request) (result : object) (l : list value) (s : S) :
  get "resources" result = VArr l ->
  Forall (fun r => r <> VUndefined /\ r <> VNull) l ->
  let page :=
    res_json
      (VObj [("success", VBool true);
             ("data",
              VObj [("images",
                     VArr (map (fun r =>
                                  VObj [("publicId", get_prop r "public_id");
                                        ("url", get_prop r "secure_url");
                                        ("format", get_prop r "format");
                                        ("width", get_prop r "width");
                                        ("height", get_prop r "height");
                                        ("bytes", get_prop r "bytes");
                                        ("createdAt", get_prop r "created_at");
                                        ("thumbnail",
                                         getThumbnailUrl P (get_prop r "public_id")
                                           (get_prop r "format"))]) l));
                    ("totalCount", get "total_count" result);
                    ("nextCursor", get "next_cursor" result)])]) in
  (validateListQuery B req = None ->
   (forall q, fst (w _ (ApiResources q) s) = Ok result) ->
   result_of2 (run2 w (list_route P B req) s) = page)
  /\ (validateSearchQuery B req = None ->
      (forall e m c, fst (w _ (SearchExecute e m c) s) = Ok result) ->
      result_of2 (run2 w (search_route P B req) s) = page).
Proof.
  intros Hres Hall. cbv zeta.
  assert (Hpage : images_page P result
                  = Ok (VObj [("success", VBool true);
                              ("data",
                               VObj [("images",
                                      VArr (map (fun r =>
                                        VObj [("publicId", get_prop r "public_id");
                                              ("url", get_prop r "secure_url");
                                              ("format", get_prop r "format");
                                              ("width", get_prop r "width");
                                              ("height", get_prop r "height");
                                              ("bytes", get_prop r "bytes");
                                              ("createdAt", get_prop r "created_at");
                                              ("thumbnail",
                                               getThumbnailUrl P (get_prop r "public_id")
                                                 (get_prop r "format"))]) l));
                                     ("totalCount", get "total_count" result);
                                     ("nextCursor", get "next_cursor" result)])])).
  { unfold images_page, shape_resources. rewrite Hres, (shape_all_objects l Hall).
    reflexivity. }
  split.
  - intros Hv Hw. rewrite (list_route_runs req s Hv). cbv zeta.
    specialize (Hw (list_query P B
                      [("maxResults", maxResults_or_30 P B (get "maxResults" (query req)));
                       ("nextCursor", get "nextCursor" (query req));
                       ("prefix", get "prefix" (query req));
                       ("tags", VBool (is_str (get "tags" (query req)) "true"))])).
    destruct (w _ (ApiResources _) s) as [r s1]. cbn [fst] in Hw. subst r.
    rewrite Hpage. reflexivity.
  - intros Hv Hw. destruct (search_expression_truthy req Hv) as (e & He & Hne).
    assert (Ht : truthy (get "expression" (query req)) = true).
    { rewrite He. cbn. destruct (String.eqb_spec e ""); [contradiction | reflexivity]. }
    rewrite (search_route_runs req s Hv Ht). cbv zeta.
    match goal with
    | |- context [w _ (SearchExecute ?a ?b ?c) s] => specialize (Hw a b c)
    end.
    destruct (w _ (SearchExecute _ _ _) s) as [r s1]. cbn [fst] in Hw. subst r.
    rewrite Hpage. reflexivity.
Qed.


(** X26: how a listing fails. When the provider rejects the call, GET
    /images answers 500 with the error 'Failed to list images: ' followed
    by the message of the rejection; when it resolves without an array
    under [resources], the route answers 500 as well, the error naming
    the failed read after the same prefix. *)
Theorem listing_failures (req : request) (s s1 : S) :
  validateListQuery B req = None ->
  (forall e,
      (forall q, w _ (ApiResources q) s = (Throw e, s1)) ->
      status (result_of2 (run2 w (list_route P B req) s)) = VInt 500
      /\ get_prop (json (result_of2 (run2 w (list_route P B req) s))) "error"
         = VStr ("Failed to list images: " ++ ToString P (get "message" e)))
  /\ (forall result,
        (forall q, w _ (ApiResources q) s = (Ok result, s1)) ->
        isArray (get "resources" result) = false ->
        status (result_of2 (run2 w (list_route P B req) s)) = VInt 500
        /\ get_prop (json (result_of2 (run2 w (list_route P B req) s))) "success"
           = VBool false
        /\ get_prop (json (result_of2 (run2 w (list_route P B req) s))) "error"
           = VStr ("Failed to list images: "
                     ++ match get "resources" result with
                        | VUndefined =>
                            "Cannot read properties of undefined (reading 'map')"
                        | VNull => "Cannot read properties of null (reading 'map')"
                        | _ => "result.resources.map is not a function"
                        end)).
Proof.
  intros Hv. split.
  - intros e Hw. rewrite (list_route_runs req s Hv). cbv zeta. rewrite Hw.
    rewrite error_response_Error. split; reflexivity.
  - intros result Hw Harr. rewrite (list_route_runs req s Hv). cbv zeta. rewrite Hw.
    unfold images_page, shape_resources.
    destruct (get "resources" result); try discriminate;
      rcbn2; rewrite error_response_Error; splits; reflexivity.
Qed.

(** X27: a search without expression never reaches the provider. The
    service function rejects by itself, without any call, when the
    expression is missing or falsy, and the route answers 400 before that:
    'expression is required' when the parameter is missing, 'expression is
    not allowed to be empty' when it is the empty string. *)
Theorem search_needs_expression (req : request) (s : S) :
  (forall options,
      truthy (get "expression" options) = false ->
      run2 w (searchImages P B options) s
      = (Throw (new_Error P "Search failed: Search expression is required"), s, []))
  /\ (get "expression" (query req) = VUndefined ->
      run2 w (search_route P B req) s
      = (bad_request (dquote ++ "expression" ++ dquote ++ " is required"), s, []))
  /\ (get "expression" (query req) = VStr "" ->
      run2 w (search_route P B req) s
      = (bad_request (dquote ++ "expression" ++ dquote ++ " is not allowed to be empty"),
         s, [])).
Proof.
  splits.
  - intros options H. unfold searchImages, try_catch2. rewrite H. reflexivity.
  - intros H. apply route2_rejected. cbn [first_response].
    unfold validateSearchQuery, JoiQuery.validate_object, searchQuerySchema.
    cbn [JoiQuery.first_error]. unfold JoiQuery.validate_key at 1.
    cbn [JoiQuery.name JoiQuery.rule_of JoiQuery.required]. rewrite H. reflexivity.
  - intros H. apply route2_rejected. cbn [first_response].
    unfold validateSearchQuery, JoiQuery.validate_object, searchQuerySchema.
    cbn [JoiQuery.first_error]. unfold JoiQuery.validate_key at 1.
    cbn [JoiQuery.name JoiQuery.rule_of JoiQuery.required]. rewrite H. reflexivity.
Qed.

(** X28: the health check never fails as a request. It pings the provider
    once and answers 200 when the ping resolves and 503 when it is
    rejected; the rejection is logged and goes no further. In both cases
    the body says success true, status 'OK' and api 'OK'; only
    [services.cloudinary] tells 'OK' from 'ERROR'. *)
Theorem health_check (req : request) (s : S) :
  let r := run2 w (health_route P req) s in
  let body := json (result_of2 r) in
  get_prop body "success" = VBool true
  /\ get_prop body "status" = VStr "OK"
  /\ get_prop (get_prop body "services") "api" = VStr "OK"
  /\ gateway_calls2 (trace_of2 r) = [Call2 ApiPing]
  /\ ((exists o s1, w _ ApiPing s = (Ok o, s1))
      /\ status (result_of2 r) = VInt 200
      /\ get_prop (get_prop body "services") "cloudinary" = VStr "OK"
      \/ (exists e s1, w _ ApiPing s = (Throw e, s1))
         /\ status (result_of2 r) = VInt 503
         /\ get_prop (get_prop body "services") "cloudinary" = VStr "ERROR").
Proof.
  cbv zeta. unfold health_route, route2. cbn [first_response].
  rewrite run2_asyncHandler2. unfold testConnection, perform2, resolve2.
  cbn [bind2 run2].
  destruct (w _ ApiPing s) as [[o | e] s1] eqn:Hping; cbn [bind2 run2].
  - destruct (w unit (ConsoleLog _) s1) as [[] s2]. cbn [bind2 run2].
    destruct (w _ DateNow s2) as [now s3]. cbn [bind2 run2].
    destruct (w _ ProcessUptime s3) as [up s4]. cbn.
    splits; try reflexivity. left. splits; try reflexivity. exists o, s1. reflexivity.
  - destruct (w unit (Base (ConsoleError _)) s1) as [[] s2]. cbn [bind2 run2].
    destruct (w _ DateNow s2) as [now s3]. cbn [bind2 run2].
    destruct (w _ ProcessUptime s3) as [up s4]. cbn.
    splits; try reflexivity. right. splits; try reflexivity. exists e, s1. reflexivity.
Qed.

Lemma split_join (c : ascii) (l : list string) :
  l <> [] ->
  Forall (fun x => lacks c x = true) l ->
  split c (join (String c EmptyString) l) = l.
Proof.
  intros Hne Hall. induction Hall as [| x r Hx Hr IH]; [contradiction |].
  destruct r as [| y r'].
  - cbn [join]. apply split_lacks. assumption.
  - change (join (String c EmptyString) (x :: y :: r'))
      with (x ++ String c (join (String c EmptyString) (y :: r')))%string.
    rewrite split_at, (split_lacks _ _ Hx), IH by discriminate. reflexivity.
Qed.

(** X29: the configuration read from the environment. The size limit is
    never 0 and the two lists are never empty; ALLOWED_FORMATS, when set
    to a non-empty string, is cut at its commas and taken as it is written
    (a list of entries free of commas, joined with commas, is read back
    entry for entry); unset or empty, it gives the six default formats;
    MAX_FILE_SIZE gives 10 MiB when it is unset, not a number or 0. *)
Theorem configuration_from_environment (env : string -> option string) :
  let c := load_config B env in
  maxFileSize (upload c) <> 0%Z
  /\ allowedFormats (upload c) <> []
  /\ allowedOrigins c <> []
  /\ (env "ALLOWED_FORMATS" = None \/ env "ALLOWED_FORMATS" = Some "" ->
      allowedFormats (upload c) = ["jpg"; "jpeg"; "png"; "gif"; "webp"; "svg"])
  /\ (forall l,
        l <> [] -> Forall (fun x => lacks "," x = true) l -> join "," l <> "" ->
        env "ALLOWED_FORMATS" = Some (join "," l) ->
        allowedFormats (upload c) = l)
  /\ (parseInt B (match env "MAX_FILE_SIZE" with Some v => v | None => "undefined" end)
      = None
      \/ parseInt B (match env "MAX_FILE_SIZE" with Some v => v | None => "undefined" end)
         = Some 0%Z ->
      maxFileSize (upload c) = 10485760%Z)
  /\ (forall z,
        parseInt B (match env "MAX_FILE_SIZE" with Some v => v | None => "undefined" end)
        = Some z -> z <> 0%Z -> maxFileSize (upload c) = z).
Proof.
  cbv zeta. unfold load_config.
  cbn [upload maxFileSize allowedFormats allowedOrigins].
  assert (Hlist : forall v d, d <> [] -> env_list v d <> []).
  { intros v d Hd. unfold env_list. destruct v as [str |]; [| assumption].
    destruct (String.eqb str ""); [assumption | apply split_nonempty]. }
  splits.
  - unfold env_int. destruct (parseInt B _) as [z |]; [| discriminate].
    destruct (Z.eqb_spec z 0); [discriminate | assumption].
  - apply Hlist. discriminate.
  - apply Hlist. discriminate.
  - intros [-> | ->]; reflexivity.
  - intros l Hne Hall Hjoin ->. unfold env_list.
    destruct (String.eqb_spec (join "," l) ""); [contradiction |].
    apply split_join; assumption.
  - unfold env_int. intros [-> | ->]; reflexivity.
  - unfold env_int. intros z -> Hz.
    destruct (Z.eqb_spec z 0); [contradiction | reflexivity].
Qed.

(** X30: who passes the origin check. With ALLOWED_ORIGINS set to a
    comma-joined list of origins, a request passes exactly when it has no
    origin, an empty one, or one of the list; any other origin is refused
    with the error 'Not allowed by CORS'. *)
Theorem cors_allows_configured_origins (env : string -> option string)
  (origins : list string) (origin : option string) :
  origins <> [] -> Forall (fun x => lacks "," x = true) origins ->
  join "," origins <> "" ->
  env "ALLOWED_ORIGINS" = Some (join "," origins) ->
  let verdict := cors_origin P (allowedOrigins (load_config B env)) origin in
  (verdict = Ok true <->
   origin = None \/ origin = Some "" \/ exists o, origin = Some o /\ In o origins)
  /\ (verdict <> Ok true -> verdict = Throw (new_Error P "Not allowed by CORS")).
Proof.
  intros Hne Hall Hjoin Henv. cbv zeta. unfold load_config. cbn [allowedOrigins].
  rewrite Henv. unfold env_list.
  destruct (String.eqb_spec (join "," origins) ""); [contradiction |].
  rewrite split_join by assumption.
  unfold cors_origin. destruct origin as [o |].
  - destruct (String.eqb_spec o "") as [-> | Ho].
    + split; [| congruence]. split; [| reflexivity]. intros _. right. left. reflexivity.
    + destruct (includes origins o) eqn:E.
      * split; [| congruence]. split; [| reflexivity]. intros _. right. right.
        exists o. split; [reflexivity | apply includes_In; assumption].
      * split; [| reflexivity]. split; [discriminate |].
        intros [H | [H | (o' & H & Hin)]]; try discriminate.
        -- injection H as ->. contradiction.
        -- injection H as <-. apply includes_In in Hin. congruence.
  - split; [| congruence]. split; [| reflexivity]. intros _. left. reflexivity.
Qed.

End ServiceProperties.

(** ** The further properties on concrete requests *)

Lemma optimize_flag_on_the_route_witness :
  existsb is_sharp_call
    (trace_of (run Sim.world
                 (upload_route Sim.platform default_config
                    (Sim.upload_of (Sim.photo "photo.png" "image/png" 4)
                       [("optimize", VStr "False")])) []))
  = true
  /\ existsb is_sharp_call
       (trace_of (run Sim.world
                    (upload_route Sim.platform default_config
                       (Sim.upload_of (Sim.photo "photo.png" "image/png" 4) [])) []))
     = true
  /\ existsb is_sharp_call
       (trace_of (run Sim.world
                    (upload_route Sim.platform default_config
                       (Sim.upload_of (Sim.photo "photo.png" "image/png" 4)
                          [("optimize", VStr "false")])) []))
     = false
  /\ exists resp,
      run Sim.world
        (upload_route Sim.platform default_config
           (Sim.upload_of (Sim.photo "photo.png" "image/png" 4)
              [("optimize", VStr "no")])) []
      = (resp, [], [])
      /\ status resp = VInt 400.
Proof.
  assert (Hmime : mimetype (Sim.photo "photo.png" "image/png" 4) <> "image/svg+xml")
    by discriminate.
  split; [| split; [| split]].
  - destruct (optimize_flag_on_the_route Sim.platform default_config Sim.state Sim.world
                (Sim.upload_of (Sim.photo "photo.png" "image/png" 4)
                   [("optimize", VStr "False")])
                [("image", Sim.photo "photo.png" "image/png" 4)]
                (Sim.photo "photo.png" "image/png" 4) []
                eq_refl eq_refl eq_refl Hmime) as [H _].
    destruct (H eq_refl) as (_ & Hcalled & _). exact Hcalled.
  - destruct (optimize_flag_on_the_route Sim.platform default_config Sim.state Sim.world
                (Sim.upload_of (Sim.photo "photo.png" "image/png" 4) [])
                [("image", Sim.photo "photo.png" "image/png" 4)]
                (Sim.photo "photo.png" "image/png" 4) []
                eq_refl eq_refl eq_refl Hmime) as [H _].
    destruct (H eq_refl) as (_ & Hcalled & _). exact Hcalled.
  - destruct (optimize_flag_on_the_route Sim.platform default_config Sim.state Sim.world
                (Sim.upload_of (Sim.photo "photo.png" "image/png" 4)
                   [("optimize", VStr "false")])
                [("image", Sim.photo "photo.png" "image/png" 4)]
                (Sim.photo "photo.png" "image/png" 4) []
                eq_refl eq_refl eq_refl Hmime) as [H _].
    destruct (H eq_refl) as (_ & _ & Hoff & _). apply Hoff. reflexivity.
  - destruct (optimize_flag_on_the_route Sim.platform default_config Sim.state Sim.world
                (Sim.upload_of (Sim.photo "photo.png" "image/png" 4)
                   [("optimize", VStr "no")])
                [("image", Sim.photo "photo.png" "image/png" 4)]
                (Sim.photo "photo.png" "image/png" 4) []
                eq_refl eq_refl eq_refl Hmime) as [_ H].
    destruct H as (resp & _ & Hrun & Hstatus & _).
    + intros [H | [(b & H) | (str & H & [E | E])]]; try discriminate H;
        injection H as <-; discriminate E.
    + exists resp. split; assumption.
Defined.

(** The values 0 and no are none of the string false, yet the route does
    not optimize the upload: [validateUploadOptions] answers 400 before the
    handler reads the field, and neither sharp nor the gateway is called. *)
Lemma optimize_zero_is_refused :
  get "optimize" [("optimize", VStr "0")] <> VStr "false"
  /\ run Sim.world
       (upload_route Sim.platform default_config
          (Sim.upload_of (Sim.photo "photo.png" "image/png" 4) [("optimize", VStr "0")]))
       []
     = (bad_request (dquote ++ "optimize" ++ dquote ++ " must be a boolean"), [], [])
  /\ run Sim.world
       (upload_route Sim.platform default_config
          (Sim.upload_of (Sim.photo "photo.png" "image/png" 4) [("optimize", VStr "no")]))
       []
     = (bad_request (dquote ++ "optimize" ++ dquote ++ " must be a boolean"), [], [])
  /\ status (bad_request (dquote ++ "optimize" ++ dquote ++ " must be a boolean"))
     = VInt 400.
Proof.
  split; [discriminate |]. split; [reflexivity |]. split; reflexivity.
Qed.

Lemma error_envelope_witness :
  has_property
    (to_json (json (error_response Sim.platform [("name", VStr "ValidationError")])))
    "error" = false
  /\ has_property
       (to_json (json (error_response Sim.platform
                         (new_Error Sim.platform "Image not found"))))
       "error" = true
  /\ has_property
       (to_json (json (error_response Sim.platform
                         (new_Error Sim.platform "Image not found"))))
       "stack" = false.
Proof.
  split; [| split].
  - apply (proj1 (proj2 (error_envelope Sim.platform Sim.state Sim.world
                           [("name", VStr "ValidationError")]))).
    repeat split; reflexivity.
  - destruct (has_property
                (to_json (json (error_response Sim.platform
                                  (new_Error Sim.platform "Image not found"))))
                "error") eqn:E; [reflexivity |].
    apply (proj1 (proj2 (error_envelope Sim.platform Sim.state Sim.world
                           (new_Error Sim.platform "Image not found")))) in E.
    destruct E as (E & _). discriminate E.
  - destruct (has_property
                (to_json (json (error_response Sim.platform
                                  (new_Error Sim.platform "Image not found"))))
                "stack") eqn:E; [| reflexivity].
    apply (proj1 (proj2 (proj2 (error_envelope Sim.platform Sim.state Sim.world
                                  (new_Error Sim.platform "Image not found"))))) in E.
    destruct E as (E & _). discriminate E.
Defined.

Lemma provider_error_passthrough_witness :
  truthy (get "error" Sim2.denial) = true
  /\ status (error_response Sim.platform Sim2.denial) = VInt 401
  /\ get_prop (json (error_response Sim.platform Sim2.denial)) "error"
     = VStr "Invalid credentials".
Proof.
  split; [reflexivity |].
  exact (provider_error_passthrough Sim.platform Sim2.denial eq_refl eq_refl).
Defined.

Lemma plain_error_is_500_witness :
  status (error_response Sim.platform (new_error Sim.platform "TypeError" "")) = VInt 500
  /\ get_prop (json (error_response Sim.platform (new_error Sim.platform "TypeError" "")))
       "error" = VStr "Internal server error".
Proof.
  apply (plain_error_is_500 Sim.platform "TypeError" ""); discriminate.
Defined.

Lemma get_found_image_witness :
  Sim.world _ (ApiResource "a" [("resource_type", VStr "image")]) ["a"]
  = (Ok (Sim.asset "a"), ["a"])
  /\ status (result_of (run Sim.world (get_route Sim.platform (Sim.with_publicId "a")) ["a"]))
     = VInt 200
  /\ trace_of (run Sim.world (get_route Sim.platform (Sim.with_publicId "a")) ["a"])
     = [Call (ApiResource "a" [("resource_type", VStr "image")])].
Proof.
  split; [reflexivity |].
  pose proof (get_found_image Sim.platform Sim.state Sim.world (Sim.with_publicId "a") "a"
                (Sim.asset "a") ["a"] ["a"] eq_refl eq_refl eq_refl) as H.
  cbv zeta in H. split; apply H.
Defined.

Lemma get_failure_is_500_witness :
  Sim2.denied _ (ApiResource "a" [("resource_type", VStr "image")]) []
  = (Throw Sim2.denial, [])
  /\ status (result_of (run Sim2.denied (get_route Sim.platform (Sim.with_publicId "a")) []))
     = VInt 500
  /\ get_prop
       (json (result_of (run Sim2.denied (get_route Sim.platform (Sim.with_publicId "a")) [])))
       "error" = VStr "Failed to retrieve image: Invalid credentials".
Proof.
  split; [reflexivity |].
  pose proof (get_failure_is_500 Sim.platform Sim.state Sim2.denied (Sim.with_publicId "a")
                "a" Sim2.denial [] [] eq_refl eq_refl eq_refl eq_refl) as H.
  cbv zeta in H. split; apply H.
Defined.

Lemma malformed_identifier_witness :
  decodeURIComponent Sim2.strict_platform "100%" = None
  /\ status (result_of (run Sim.world
                          (get_route Sim2.strict_platform (Sim.with_publicId "100%")) ["a"]))
     = VInt 500
  /\ gateway_calls (trace_of (run Sim.world
                                (delete_route Sim2.strict_platform
                                   (Sim.with_publicId "100%")) ["a"]))
     = [].
Proof.
  split; [reflexivity |].
  pose proof (malformed_identifier Sim2.strict_platform Sim.state Sim.world
                (Sim.with_publicId "100%") ["a"] eq_refl eq_refl) as [H1 H2].
  split; [apply H1 | apply H2].
Defined.

Lemma publicId_validation_witness :
  validatePublicId (Sim.with_publicId "folder/cat") = None
  /\ run Sim.world (get_route Sim.platform (Sim.with_publicId "")) ["a"]
     = (bad_request "Invalid public ID", ["a"], []).
Proof.
  split.
  - apply (proj1 (publicId_validation Sim.platform Sim.state Sim.world
                    (Sim.with_publicId "folder/cat"))).
    split.
    + exists "folder/cat". split; [reflexivity | discriminate].
    + repeat constructor.
  - apply (proj2 (publicId_validation Sim.platform Sim.state Sim.world
                    (Sim.with_publicId ""))). discriminate.
Defined.

Lemma delete_failures_witness :
  get_prop
    (json (result_of (run Sim2.denied
                        (delete_route Sim.platform (Sim.with_publicId "locked")) [])))
    "error" = VStr "Image deletion failed: Deletion failed"
  /\ status (result_of (run Sim2.denied
                          (delete_route Sim.platform (Sim.with_publicId "a")) []))
     = VInt 500.
Proof.
  split.
  - apply (proj1 (delete_failures Sim.platform Sim.state Sim2.denied
                    (Sim.with_publicId "locked") "locked" [] [] eq_refl eq_refl)
             [("result", VStr "error")]); reflexivity.
  - apply (proj2 (delete_failures Sim.platform Sim.state Sim2.denied
                    (Sim.with_publicId "a") "a" [] [] eq_refl eq_refl)
             Sim2.denial). reflexivity.
Defined.

Lemma bulkDelete_guard_witness :
  run Sim.world (bulkDelete Sim.platform (VStr "a")) ["a"]
  = (Throw (new_Error Sim.platform "Bulk deletion failed: Invalid public IDs array"),
     ["a"], [])
  /\ run Sim.world (bulkDelete Sim.platform (VArr [])) ["a"]
     = (Throw (new_Error Sim.platform "Bulk deletion failed: Invalid public IDs array"),
        ["a"], []).
Proof.
  split.
  - apply (bulkDelete_guard Sim.platform Sim.state Sim.world). left. reflexivity.
  - apply (bulkDelete_guard Sim.platform Sim.state Sim.world). right. reflexivity.
Defined.

Lemma bulk_delete_report_witness :
  get_prop
    (get_prop
       (json (result_of
                (run Sim.world
                   (bulk_delete_route Sim.platform
                      (Sim.with_body [("publicIds", VArr [VStr "a"; VStr "a"])])) [])))
       "data") "deletedCount" = VInt 1.
Proof.
  rewrite (bulk_delete_report Sim.platform Sim.state Sim.world
             (Sim.with_body [("publicIds", VArr [VStr "a"; VStr "a"])])
             (VStr "a") [VStr "a"]
             [("deleted", VObj [("a", VStr "deleted"); ("a", VStr "deleted")]);
              ("partial", VBool false)]
             [("a", VStr "deleted"); ("a", VStr "deleted")] [] []
             eq_refl eq_refl eq_refl eq_refl).
  reflexivity.
Defined.

Lemma bulk_delete_without_report_witness :
  status (result_of (run Sim2.denied
                       (bulk_delete_route Sim.platform
                          (Sim.with_body [("publicIds", VArr [VStr "a"])])) []))
  = VInt 500.
Proof.
  apply (bulk_delete_without_report Sim.platform Sim.state Sim2.denied
           (Sim.with_body [("publicIds", VArr [VStr "a"])]) (VStr "a") []
           [("partial", VBool true)] [] [] eq_refl eq_refl eq_refl).
  left. reflexivity.
Defined.

Lemma stats_default_to_zero_witness :
  get_prop
    (get_prop
       (get_prop (json (result_of (run Sim.world (stats_route Sim.platform (Sim.with_body [])) [])))
          "data") "used") "credits" = VNum (3 # 2).
Proof.
  apply (stats_default_to_zero Sim.platform Sim.state Sim.world (Sim.with_body [])
           Sim.usage_report [] [] eq_refl "used" "used" "credits").
  - left. reflexivity.
  - left. reflexivity.
  - discriminate.
  - reflexivity.
Defined.

Lemma stats_failure_witness :
  status (result_of (run Sim2.denied (stats_route Sim.platform (Sim.with_body [])) []))
  = VInt 500
  /\ get_prop (json (result_of (run Sim2.denied (stats_route Sim.platform (Sim.with_body [])) [])))
       "error" = VStr "Failed to get statistics: Invalid credentials".
Proof.
  pose proof (stats_failure Sim.platform Sim.state Sim2.denied (Sim.with_body [])
                Sim2.denial [] [] eq_refl) as H.
  split; apply H.
Defined.

Lemma pipeline_policy_witness :
  pipeline {| width := Some 5000%Z; height := Some 3000%Z; format := Some "jpeg" |}
  = [Resize 4096 4096 "inside" true; Jpeg 85 true]
  /\ pipeline {| width := Some 4096%Z; height := None; format := Some "png" |}
     = [Png 85 9]
  /\ pipeline {| width := Some 100%Z; height := Some 8000%Z; format := Some "gif" |}
     = [Resize 4096 4096 "inside" true].
Proof.
  split; [| split].
  - destruct (pipeline_policy
                {| width := Some 5000%Z; height := Some 3000%Z; format := Some "jpeg" |})
      as (resize & encode & Hp & Hbig & _ & Hjpeg & _).
    rewrite Hp, Hbig, Hjpeg; [reflexivity | left; reflexivity |].
    left. exists 5000%Z. split; reflexivity.
  - destruct (pipeline_policy
                {| width := Some 4096%Z; height := None; format := Some "png" |})
      as (resize & encode & Hp & _ & Hsmall & _ & Hpng & _).
    rewrite Hp, Hsmall, Hpng; [reflexivity | reflexivity |].
    intros [(n & H & Hn) | (n & H & _)]; [| discriminate].
    injection H as <-. discriminate Hn.
  - destruct (pipeline_policy
                {| width := Some 100%Z; height := Some 8000%Z; format := Some "gif" |})
      as (resize & encode & Hp & Hbig & _ & _ & _ & _ & Hother).
    rewrite Hp, Hbig, Hother; try reflexivity; try discriminate.
    right. exists 8000%Z. split; reflexivity.
Defined.

Lemma optimizeImage_encodes_witness :
  run Sim.world (optimizeImage [x89; x50] "image/gif") []
  = (Ok [x89; x50], [],
     [Call (Sharp [x89; x50]); Call (SharpMetadata [x89; x50]);
      Call (SharpToBuffer [x89; x50] [Png 85 9])]).
Proof.
  apply (optimizeImage_encodes Sim.state Sim.world [x89; x50] [x89; x50] "image/gif"
           {| width := Some 100%Z; height := Some 50%Z; format := Some "png" |}
           [] [] [] []); try reflexivity.
  discriminate.
Defined.

Lemma fileExtension_normal_witness :
  fileExtension (Sim.photo "holiday.JPG" "image/jpeg" 4) <> "JPG"
  /\ fileExtension (Sim.photo "archive.tar.gz" "image/png" 4) <> "tar.gz".
Proof.
  split.
  - apply (fileExtension_normal (Sim.photo "holiday.JPG" "image/jpeg" 4)).
    right. discriminate.
  - apply (fileExtension_normal (Sim.photo "archive.tar.gz" "image/png" 4)).
    left. reflexivity.
Defined.

Lemma file_validation_witness :
  validateFileUpload Sim.platform default_config (Sim.with_body [])
  = Some (bad_request
            ("No image file provided. Please upload a file with the field name "
               ++ dquote ++ "image" ++ dquote))
  /\ validateFileUpload Sim.platform default_config
       (Sim.upload_of (Sim.photo "photo.png" "image/png" 4) []) = None
  /\ validateFileUpload Sim.platform default_config
       (Sim.upload_of_files [Sim.photo "a.png" "image/png" 4;
                             Sim.photo "b.png" "image/png" 4] [])
     = Some {| status := VInt 500;
               json := VObj [("success", VBool false);
                             ("error", VStr "File validation failed")] |}.
Proof.
  destruct (file_validation Sim.platform default_config Sim.state Sim.world
              (Sim.with_body [])) as (_ & _ & _ & H4).
  destruct (file_validation Sim.platform default_config Sim.state Sim.world
              (Sim.upload_of (Sim.photo "photo.png" "image/png" 4) [])) as (H1 & _).
  destruct (file_validation Sim.platform default_config Sim.state Sim.world
              (Sim.upload_of_files [Sim.photo "a.png" "image/png" 4;
                                    Sim.photo "b.png" "image/png" 4] []))
    as (_ & _ & H3 & _).
  split; [| split].
  - apply H4. left. reflexivity.
  - apply H1. exists [("image", Sim.photo "photo.png" "image/png" 4)],
      (Sim.photo "photo.png" "image/png" 4).
    repeat split; try reflexivity; cbn; try lia; tauto.
  - apply (H3 [("image", Sim.photo "a.png" "image/png" 4);
               ("image", Sim.photo "b.png" "image/png" 4)]
              [Sim.photo "a.png" "image/png" 4; Sim.photo "b.png" "image/png" 4]);
      reflexivity.
Defined.

Lemma extension_refused_witness :
  ~ In (fileExtension (Sim.photo "notes.txt" "image/png" 4)) (allowedFormats default_config)
  /\ run Sim.world
       (upload_route Sim.platform default_config
          (Sim.upload_of (Sim.photo "notes.txt" "image/png" 4) [])) ["kept"]
     = ({| status := VInt 400;
           json := VObj [("success", VBool false);
                         ("error",
                          VStr "Invalid file format. Allowed formats: jpg, jpeg, png, gif, webp, svg")] |},
        ["kept"], []).
Proof.
  assert (H : ~ In (fileExtension (Sim.photo "notes.txt" "image/png" 4))
                (allowedFormats default_config)).
  { cbn. intros H. repeat (destruct H as [H | H]; [discriminate H |]). exact H. }
  split; [exact H |].
  apply (extension_refused Sim.platform default_config Sim.state Sim.world
           (Sim.upload_of (Sim.photo "notes.txt" "image/png" 4) [])
           [("image", Sim.photo "notes.txt" "image/png" 4)]
           (Sim.photo "notes.txt" "image/png" 4) ["kept"] eq_refl eq_refl);
    [cbn; lia | exact H].
Defined.

Lemma upload_route_statuses_witness :
  run Sim.world
    (upload_route Sim.platform default_config
       (Sim.upload_of_files [Sim.photo "a.png" "image/png" 4;
                             Sim.photo "b.png" "image/png" 4] [])) ["kept"]
  = ({| status := VInt 500;
        json := VObj [("success", VBool false); ("error", VStr "File validation failed")] |},
     ["kept"], [])
  /\ status (result_of
               (run Sim.world
                  (upload_route Sim.platform default_config
                     (Sim.upload_of (Sim.photo "photo.png" "image/png" 4) [])) ["kept"]))
     = VInt 201
  /\ state_of
       (run Sim.world
          (upload_route Sim.platform default_config
             (Sim.upload_of (Sim.photo "photo.png" "image/png" 4) [])) ["kept"])
     = ["uploads/asset"; "kept"].
Proof.
  split.
  - apply (proj1 (upload_route_statuses Sim.platform default_config Sim.state Sim.world
                    (Sim.upload_of_files [Sim.photo "a.png" "image/png" 4;
                                          Sim.photo "b.png" "image/png" 4] []) ["kept"])).
    reflexivity.
  - destruct (proj1 (proj2 (proj2
                (upload_route_statuses Sim.platform default_config Sim.state Sim.world
                   (Sim.upload_of (Sim.photo "photo.png" "image/png" 4) []) ["kept"])))
                eq_refl eq_refl) as (buf & s1 & _ & Hend).
    cbn in Hend. destruct Hend as (H1 & _ & H3). split; [exact H1 |].
    reflexivity.
Defined.

Lemma upload_created_witness :
  status
    (result_of
       (run Sim.world
          (upload_route Sim.platform default_config
             (Sim.upload_of (Sim.photo "photo.png" "image/png" 4)
                [("publicId", VStr "cat")])) []))
  = VInt 201
  /\ get_prop
       (get_prop
          (json
             (result_of
                (run Sim.world
                   (upload_route Sim.platform default_config
                      (Sim.upload_of (Sim.photo "photo.png" "image/png" 4)
                         [("publicId", VStr "cat")])) [])))
          "data") "publicId" = VStr "cat".
Proof.
  pose proof (upload_created Sim.platform default_config Sim.state Sim.world
                (Sim.upload_of (Sim.photo "photo.png" "image/png" 4)
                   [("publicId", VStr "cat")])
                (Sim.asset "cat") [] eq_refl) as H.
  cbv zeta in H.
  assert (Hgate : forall (buf : buffer) (s1 : Sim.state),
             exists s2,
               Sim.world _
                 (UploadStream
                    (upload_stream_options
                       (upload_options
                          (body (Sim.upload_of (Sim.photo "photo.png" "image/png" 4)
                                   [("publicId", VStr "cat")])))) buf) s1
               = (Ok (Sim.asset "cat"), s2)).
  { intros buf s1. eexists. reflexivity. }
  specialize (H Hgate). split; apply H.
Defined.

Lemma gateway_upload_options_witness :
  validateUploadOptions
    (Sim.upload_of (Sim.photo "photo.png" "image/png" 4) [("tags", VStr "pets")]) = None
  /\ get "tags"
       (upload_stream_options (upload_options [("tags", VStr "pets")]))
     = VArr (map VStr ["pets"])
  /\ get "resource_type"
       (upload_stream_options (upload_options [("tags", VStr "pets")])) = VStr "auto".
Proof.
  split; [reflexivity |].
  pose proof (gateway_upload_options Sim.platform default_config Sim.state Sim.world
                (Sim.upload_of (Sim.photo "photo.png" "image/png" 4)
                   [("tags", VStr "pets")]) eq_refl) as H.
  cbv zeta in H. destruct H as (_ & _ & _ & (tags & Htags & _ & _ & Hone) & Hauto & _).
  split; [| exact Hauto].
  rewrite (Hone "pets" eq_refl) in Htags. exact Htags.
Defined.

Lemma page_size_bound_witness :
  (exists q,
      gateway_calls2
        (trace_of2 (run2 Sim2.world
                      (list_route Sim.platform Sim2.builtins
                         (Sim2.with_query [("maxResults", VStr "100")])) ["a"]))
      = [Call2 (ApiResources q)]
      /\ Query.max_results q = Num (inject_Z 100))
  /\ (exists q,
        gateway_calls2
          (trace_of2 (run2 Sim2.world
                        (list_route Sim.platform Sim2.builtins (Sim2.with_query [])) ["a"]))
        = [Call2 (ApiResources q)]
        /\ Query.max_results q = Num (inject_Z 30))
  /\ gateway_calls2
       (trace_of2 (run2 Sim2.world
                     (list_route Sim.platform Sim2.builtins
                        (Sim2.with_query [("maxResults", VStr "9999")])) ["a"]))
     = [].
Proof.
  split; [| split].
  - destruct (proj1 (proj2 (page_size_bound Sim.platform Sim2.builtins Sim.state
                              Sim2.world
                              (Sim2.with_query [("maxResults", VStr "100")]) ["a"]))
                eq_refl)
      as (q & n & H1 & H2 & (_ & _ & _ & H3) & _).
    exists q. split; [exact H1 |].
    rewrite H2, (H3 100%Z eq_refl); [reflexivity | discriminate].
  - destruct (proj1 (proj2 (page_size_bound Sim.platform Sim2.builtins Sim.state
                              Sim2.world (Sim2.with_query []) ["a"]))
                eq_refl)
      as (q & n & H1 & H2 & (_ & _ & H3 & _) & _).
    exists q. split; [exact H1 |].
    rewrite H2, H3; [reflexivity | left; reflexivity].
  - destruct (validateListQuery Sim2.builtins
                (Sim2.with_query [("maxResults", VStr "9999")])) as [resp |] eqn:Hv;
      [| discriminate Hv].
    rewrite (proj1 (page_size_bound Sim.platform Sim2.builtins Sim.state Sim2.world
                      (Sim2.with_query [("maxResults", VStr "9999")]) ["a"]) resp Hv).
    reflexivity.
Defined.

Lemma list_query_keys_witness :
  validateListQuery Sim2.builtins
    (Sim2.with_query [("tags", VStr "True"); ("prefix", VStr "uploads/")]) = None
  /\ exists q,
      gateway_calls2
        (trace_of2 (run2 Sim2.world
                      (list_route Sim.platform Sim2.builtins
                         (Sim2.with_query [("tags", VStr "True");
                                           ("prefix", VStr "uploads/")])) ["a"]))
      = [Call2 (ApiResources q)]
      /\ Query.tags q = None
      /\ Query.prefix q = Some (VStr "uploads/")
      /\ Query.next_cursor q = None.
Proof.
  split; [reflexivity |].
  destruct (list_query_keys Sim.platform Sim2.builtins Sim.state Sim2.world
              (Sim2.with_query [("tags", VStr "True"); ("prefix", VStr "uploads/")])
              ["a"] eq_refl)
    as (q & Hcalls & Hc1 & _ & _ & Hp & _ & Ht).
  exists q. split; [exact Hcalls |]. split; [apply Ht; discriminate |].
  split; [apply Hp; discriminate | apply Hc1; reflexivity].
Defined.

Lemma page_of_results_witness :
  get_prop
    (get_prop
       (json (result_of2 (run2 Sim2.world
                            (list_route Sim.platform Sim2.builtins (Sim2.with_query []))
                            ["a"; "b"])))
       "data") "totalCount" = VInt 2
  /\ status (result_of2 (run2 Sim2.world
                           (search_route Sim.platform Sim2.builtins
                              (Sim2.with_query [("expression", VStr "folder:uploads")]))
                           ["a"; "b"]))
     = VInt 200.
Proof.
  destruct (page_of_results Sim.platform Sim2.builtins Sim.state Sim2.world
              (Sim2.with_query [])
              [("resources", VArr (map (fun id => VObj (Sim.asset id)) ["a"; "b"]));
               ("total_count", VInt 2)]
              (map (fun id => VObj (Sim.asset id)) ["a"; "b"]) ["a"; "b"] eq_refl)
    as (Hlist & _).
  { repeat constructor; discriminate. }
  destruct (page_of_results Sim.platform Sim2.builtins Sim.state Sim2.world
              (Sim2.with_query [("expression", VStr "folder:uploads")])
              [("resources", VArr (map (fun id => VObj (Sim.asset id)) ["a"; "b"]));
               ("total_count", VInt 2)]
              (map (fun id => VObj (Sim.asset id)) ["a"; "b"]) ["a"; "b"] eq_refl)
    as (_ & Hsearch).
  { repeat constructor; discriminate. }
  split.
  - rewrite (Hlist eq_refl (fun q => eq_refl)). reflexivity.
  - rewrite (Hsearch eq_refl (fun e m c => eq_refl)). reflexivity.
Defined.

Lemma listing_failures_witness :
  validateListQuery Sim2.builtins (Sim2.with_query []) = None
  /\ status (result_of2 (run2 Sim2.offline
                           (list_route Sim.platform Sim2.builtins (Sim2.with_query [])) []))
     = VInt 500
  /\ get_prop
       (json (result_of2 (run2 Sim2.offline
                            (list_route Sim.platform Sim2.builtins (Sim2.with_query [])) [])))
       "error" = VStr "Failed to list images: getaddrinfo ENOTFOUND".
Proof.
  split; [reflexivity |].
  apply (proj1 (listing_failures Sim.platform Sim2.builtins Sim.state Sim2.offline
                  (Sim2.with_query []) [] [] eq_refl)
           [("message", VStr "getaddrinfo ENOTFOUND")]).
  intros q. reflexivity.
Defined.

Lemma search_needs_expression_witness :
  run2 Sim2.world (search_route Sim.platform Sim2.builtins (Sim2.with_query [])) ["a"]
  = (bad_request (dquote ++ "expression" ++ dquote ++ " is required"), ["a"], [])
  /\ run2 Sim2.world (searchImages Sim.platform Sim2.builtins [("expression", VStr "")]) ["a"]
     = (Throw (new_Error Sim.platform "Search failed: Search expression is required"),
        ["a"], []).
Proof.
  destruct (search_needs_expression Sim.platform Sim2.builtins Sim.state Sim2.world
              (Sim2.with_query []) ["a"]) as (H1 & H2 & _).
  split; [exact (H2 eq_refl) | exact (H1 [("expression", VStr "")] eq_refl)].
Defined.

Lemma configuration_from_environment_witness :
  allowedFormats
    (upload (load_config Sim2.builtins (Sim2.env_of [("ALLOWED_FORMATS", "png,webp")])))
  = ["png"; "webp"]
  /\ maxFileSize
       (upload (load_config Sim2.builtins (Sim2.env_of [("MAX_FILE_SIZE", "abc")])))
     = 10485760%Z
  /\ maxFileSize
       (upload (load_config Sim2.builtins (Sim2.env_of [("MAX_FILE_SIZE", "2048")])))
     = 2048%Z.
Proof.
  destruct (configuration_from_environment Sim2.builtins
              (Sim2.env_of [("ALLOWED_FORMATS", "png,webp")]))
    as (_ & _ & _ & _ & Hformats & _).
  destruct (configuration_from_environment Sim2.builtins
              (Sim2.env_of [("MAX_FILE_SIZE", "abc")]))
    as (_ & _ & _ & _ & _ & Hdefault & _).
  destruct (configuration_from_environment Sim2.builtins
              (Sim2.env_of [("MAX_FILE_SIZE", "2048")]))
    as (_ & _ & _ & _ & _ & _ & Hsize).
  split; [| split].
  - apply Hformats; [discriminate | repeat constructor | discriminate | reflexivity].
  - apply Hdefault. left. reflexivity.
  - apply Hsize; [reflexivity | discriminate].
Defined.

Lemma cors_allows_configured_origins_witness :
  cors_origin Sim.platform
    (allowedOrigins
       (load_config Sim2.builtins
          (Sim2.env_of [("ALLOWED_ORIGINS", "https://a.example,https://b.example")])))
    (Some "https://b.example") = Ok true
  /\ cors_origin Sim.platform
       (allowedOrigins
          (load_config Sim2.builtins
             (Sim2.env_of [("ALLOWED_ORIGINS", "https://a.example,https://b.example")])))
       (Some "https://c.example")
     = Throw (new_Error Sim.platform "Not allowed by CORS").
Proof.
  split.
  - apply (proj1 (cors_allows_configured_origins Sim.platform Sim2.builtins
                    (Sim2.env_of [("ALLOWED_ORIGINS", "https://a.example,https://b.example")])
                    ["https://a.example"; "https://b.example"] (Some "https://b.example")
                    ltac:(discriminate) ltac:(repeat constructor) ltac:(discriminate)
                    eq_refl)).
    right. right. exists "https://b.example". split; [reflexivity | cbn; tauto].
  - apply (proj2 (cors_allows_configured_origins Sim.platform Sim2.builtins
                    (Sim2.env_of [("ALLOWED_ORIGINS", "https://a.example,https://b.example")])
                    ["https://a.example"; "https://b.example"] (Some "https://c.example")
                    ltac:(discriminate) ltac:(repeat constructor) ltac:(discriminate)
                    eq_refl)).
    discriminate.
Defined.
